(** * A shallow embedding of the authentication core of the FastAPI
      multi-mode application (app/core/config.py, app/core/security.py,
      app/core/auth/..., app/api/v1/auth.py, app/api/v1/users.py,
      app/models/user.py, app/services/github_service.py).

    Python values are modelled as follows.
    - [str] and [bytes] are both Rocq [string]s, i.e. sequences of 8-bit
      characters.  A [str] is represented by its UTF-8 encoding, so that
      [s.encode()] is the identity on the representation and [b.decode()]
      succeeds exactly on well-formed UTF-8 ([utf8_valid]).
    - [dict]s are [gmap]s, [Optional[T]] is [option T].
    - A call that may raise returns a [result]; [try]/[except] is [try_except].
    - [datetime] and [timedelta] are integer numbers of microseconds.
    - The third-party libraries (python-jose, cryptography.fernet) are
      interfaces ([Jose], [Fernet]) with their documented contracts
      ([JoseSpec], [FernetSpec]); [base64] and the UTF-8 codec are modelled
      concretely.
    - GitHub, reached over HTTP, is an interface too ([GitHubApi]): a call
      answers or fails, and of a failure the handlers read [str(e)] only. *)

From Stdlib Require Import ZArith NArith Lia String Ascii List Bool.
From stdpp Require Import base tactics option list countable gmap strings.

Open Scope Z_scope.

(** ** Exceptions and results *)

Inductive exn : Type :=
| HTTPException (status_code : Z) (detail : string)
| ValueError (msg : string)
| KeyError (key : string)
| IndexError
| JWTError (msg : string)
| BinasciiError
| InvalidToken
| UnicodeDecodeError
| IntegrityError
| StatementError
| ValidationError (errors : list string).

Inductive result (A : Type) : Type :=
| Ok (a : A)
| Raise (e : exn).
Arguments Ok {A} a.
Arguments Raise {A} e.

#[global] Instance result_bind : MBind result :=
  fun A B f r => match r with Ok a => f a | Raise e => Raise e end.
#[global] Instance result_fmap : FMap result :=
  fun A B f r => match r with Ok a => Ok (f a) | Raise e => Raise e end.

(** [except HTTPException] and [except JWTError] select by class; every
    exception of [exn] is a subclass of Python's [Exception]. *)
Definition is_HTTPException (e : exn) : bool :=
  match e with HTTPException _ _ => true | _ => false end.

Definition is_JWTError (e : exn) : bool :=
  match e with JWTError _ => true | _ => false end.

(** [try: body  except <sel>: handler(e)]: an exception the selector does not
    match propagates. *)
Definition try_except {A} (body : result A) (sel : exn -> bool)
    (handler : exn -> result A) : result A :=
  match body with
  | Ok a => Ok a
  | Raise e => if sel e then handler e else Raise e
  end.

Definition except_Exception (e : exn) : bool := true.

Definition HTTP_400_BAD_REQUEST : Z := 400.
Definition HTTP_401_UNAUTHORIZED : Z := 401.
Definition HTTP_403_FORBIDDEN : Z := 403.
Definition HTTP_404_NOT_FOUND : Z := 404.
Definition HTTP_500_INTERNAL_SERVER_ERROR : Z := 500.

(** ** Python values that travel in JSON claims and settings data *)

Inductive pyval : Type :=
| PNone
| PBool (b : bool)
| PInt (n : Z)
| PStr (s : string)
| PDatetime (us : Z).

#[global] Instance pyval_eq_dec : EqDecision pyval.
Proof. solve_decision. Defined.

Definition pyval_to_sum (v : pyval) : unit + bool + Z + string + Z :=
  match v with
  | PNone => inl (inl (inl (inl tt)))
  | PBool b => inl (inl (inl (inr b)))
  | PInt n => inl (inl (inr n))
  | PStr s => inl (inr s)
  | PDatetime t => inr t
  end.

Definition pyval_of_sum (x : unit + bool + Z + string + Z) : pyval :=
  match x with
  | inl (inl (inl (inl _))) => PNone
  | inl (inl (inl (inr b))) => PBool b
  | inl (inl (inr n)) => PInt n
  | inl (inr s) => PStr s
  | inr t => PDatetime t
  end.

#[global] Instance pyval_countable : Countable pyval.
Proof.
  apply (inj_countable' pyval_to_sum pyval_of_sum).
  intros []; reflexivity.
Defined.

(** Python truthiness ([if v:] / [not v]). *)
Definition truthy (v : pyval) : bool :=
  match v with
  | PNone => false
  | PBool b => b
  | PInt n => negb (Z.eqb n 0)
  | PStr s => negb (String.eqb s "")
  | PDatetime _ => true
  end.

Definition str_truthy (s : string) : bool := negb (String.eqb s "").

(** Truthiness of an [Optional[str]]: [None] and the empty string are falsy. *)
Definition opt_truthy (o : option string) : bool :=
  match o with Some s => str_truthy s | None => false end.

(** [d.get(k)] on a dict of Python values: a missing key reads as [None]. *)
Definition dict_get (d : gmap string pyval) (k : string) : pyval :=
  default PNone (d !! k).

(** [d.get(k, dflt)]. *)
Definition dict_get_default (d : gmap string pyval) (k : string) (dflt : pyval) : pyval :=
  default dflt (d !! k).

(** [d[k]]: a missing key raises [KeyError]. *)
Definition dict_item (d : gmap string pyval) (k : string) : result pyval :=
  match d !! k with Some v => Ok v | None => Raise (KeyError k) end.

(** ** Strings *)

(** [s.startswith(p)]. *)
Fixpoint startswith (p s : string) : bool :=
  match p, s with
  | EmptyString, _ => true
  | String a p', String b s' => Ascii.eqb a b && startswith p' s'
  | String _ _, EmptyString => false
  end.

(** [s.split(sep)] for a one-character separator: every occurrence splits,
    empty fields are kept. *)
Fixpoint split_char (sep : ascii) (s : string) : list string :=
  match s with
  | EmptyString => [EmptyString]
  | String c s' =>
      if Ascii.eqb c sep then EmptyString :: split_char sep s'
      else match split_char sep s' with
           | w :: ws => String c w :: ws
           | [] => [String c EmptyString]
           end
  end.

Definition lower_ascii (c : ascii) : ascii :=
  let n := N_of_ascii c in
  if ((65 <=? n) && (n <=? 90))%N then ascii_of_N (n + 32) else c.

(** [s.lower()] on ASCII letters (header names are ASCII). *)
Fixpoint lower (s : string) : string :=
  match s with
  | EmptyString => EmptyString
  | String c s' => String (lower_ascii c) (lower s')
  end.

(** ** The UTF-8 codec ([str.encode()], [bytes.decode()]) *)

Definition byte_in (lo hi : N) (c : ascii) : bool :=
  ((lo <=? N_of_ascii c) && (N_of_ascii c <=? hi))%N.

Definition is_cont (c : ascii) : bool := byte_in 128 191 c.

(** Range of the second byte of a three-byte sequence, by lead byte
    (no overlong forms, no surrogates). *)
Definition second_of_3 (lead : N) (c : ascii) : bool :=
  if (lead =? 224)%N then byte_in 160 191 c
  else if (lead =? 237)%N then byte_in 128 159 c
  else is_cont c.

(** Range of the second byte of a four-byte sequence (up to U+10FFFF). *)
Definition second_of_4 (lead : N) (c : ascii) : bool :=
  if (lead =? 240)%N then byte_in 144 191 c
  else if (lead =? 244)%N then byte_in 128 143 c
  else is_cont c.

(** Well-formed UTF-8, as the strict decoder of [bytes.decode()] accepts it. *)
Fixpoint utf8_valid (s : string) : bool :=
  match s with
  | EmptyString => true
  | String a r1 =>
      let x := N_of_ascii a in
      if (x <? 128)%N then utf8_valid r1
      else
        match r1 with
        | EmptyString => false
        | String b r2 =>
            if byte_in 194 223 a then is_cont b && utf8_valid r2
            else
              match r2 with
              | EmptyString => false
              | String c r3 =>
                  if byte_in 224 239 a then
                    second_of_3 x b && is_cont c && utf8_valid r3
                  else
                    match r3 with
                    | EmptyString => false
                    | String d r4 =>
                        if byte_in 240 244 a then
                          second_of_4 x b && is_cont c && is_cont d && utf8_valid r4
                        else false
                    end
              end
        end
  end.

(** [s.encode()]: a [str] is held as its UTF-8 bytes. *)
Definition str_encode (s : string) : string := s.

(** [b.decode()]: raises [UnicodeDecodeError] on ill-formed input. *)
Definition bytes_decode (b : string) : result string :=
  if utf8_valid b then Ok b else Raise UnicodeDecodeError.

(** ** [base64.b64encode] and [base64.b64decode] (binascii) *)

Definition b64_alphabet : list ascii :=
  list_ascii_of_string
    "ABCDEFGHIJKLMNOPQRSTUVWXYZabcdefghijklmnopqrstuvwxyz0123456789+/".

Definition BASE64_PAD : ascii := "="%char.

(** [table_b2a_base64[n]]. *)
Definition table_b2a (n : N) : ascii := nth (N.to_nat n) b64_alphabet BASE64_PAD.

Fixpoint index_of (c : ascii) (l : list ascii) (i : N) : option N :=
  match l with
  | [] => None
  | x :: l' => if Ascii.eqb c x then Some i else index_of c l' (N.succ i)
  end.

(** [table_a2b_base64[c]]: [None] stands for the entries that are not below 64. *)
Definition table_a2b (c : ascii) : option N := index_of c b64_alphabet 0%N.

Definition byte_of (n : N) : ascii := ascii_of_N (N.land n 255).

(** [binascii.b2a_base64(data, newline=False)]. *)
Fixpoint b2a_base64 (data : string) : string :=
  match data with
  | EmptyString => EmptyString
  | String a EmptyString =>
      let x := N_of_ascii a in
      String (table_b2a (N.shiftr x 2))
        (String (table_b2a (N.shiftl (N.land x 3) 4))
           (String BASE64_PAD (String BASE64_PAD EmptyString)))
  | String a (String b EmptyString) =>
      let x := N_of_ascii a in
      let y := N_of_ascii b in
      String (table_b2a (N.shiftr x 2))
        (String (table_b2a (N.lor (N.shiftl (N.land x 3) 4) (N.shiftr y 4)))
           (String (table_b2a (N.shiftl (N.land y 15) 2))
              (String BASE64_PAD EmptyString)))
  | String a (String b (String c rest)) =>
      let x := N_of_ascii a in
      let y := N_of_ascii b in
      let z := N_of_ascii c in
      String (table_b2a (N.shiftr x 2))
        (String (table_b2a (N.lor (N.shiftl (N.land x 3) 4) (N.shiftr y 4)))
           (String (table_b2a (N.lor (N.shiftl (N.land y 15) 2) (N.shiftr z 6)))
              (String (table_b2a (N.land z 63)) (b2a_base64 rest))))
  end.

(** The loop of [binascii.a2b_base64] in its default, non-strict mode:
    characters outside the alphabet are skipped, a complete run of padding
    ends the input, and data left in an unfinished quad is an error. *)
Fixpoint a2b_loop (s : string) (quad_pos leftchar pads : N) : result string :=
  match s with
  | EmptyString =>
      if (quad_pos =? 0)%N then Ok EmptyString else Raise BinasciiError
  | String ch s' =>
      if Ascii.eqb ch BASE64_PAD then
        if (2 <=? quad_pos)%N then
          if (4 <=? quad_pos + (pads + 1))%N then Ok EmptyString
          else a2b_loop s' quad_pos leftchar (pads + 1)
        else a2b_loop s' quad_pos leftchar pads
      else
        match table_a2b ch with
        | None => a2b_loop s' quad_pos leftchar pads
        | Some this_ch =>
            if (quad_pos =? 0)%N then a2b_loop s' 1 this_ch 0
            else if (quad_pos =? 1)%N then
              String (byte_of (N.lor (N.shiftl leftchar 2) (N.shiftr this_ch 4)))
                <$> a2b_loop s' 2 (N.land this_ch 15) 0
            else if (quad_pos =? 2)%N then
              String (byte_of (N.lor (N.shiftl leftchar 4) (N.shiftr this_ch 2)))
                <$> a2b_loop s' 3 (N.land this_ch 3) 0
            else
              String (byte_of (N.lor (N.shiftl leftchar 6) this_ch))
                <$> a2b_loop s' 0 0 0
        end
  end.

Definition b64encode (data : string) : string := b2a_base64 data.

Definition b64decode (s : string) : result string := a2b_loop s 0 0 0.

Definition all_ascii : list ascii := map ascii_of_nat (seq 0 256).

(** ** app/core/config.py *)

Module Config.

(** [class AppMode(str, Enum)]: its members are strings and compare as such. *)
Definition SINGLE_USER : string := "single_user".
Definition MULTI_USER : string := "multi_user".

Record Settings : Type := {
  app_mode : string;
  app_name : string;
  debug : bool;
  database_url : string;
  secret_key : string;
  algorithm : string;
  access_token_expire_minutes : Z;
  github_client_id : option string;
  github_client_secret : option string;
  github_redirect_uri : string;
  enable_su_auth : bool;
  su_github_username : option string;
  default_github_token : option string;
  mu_admin_github_username : option string
}.

(** [validate_github_oauth(cls, v, info)], with [data] standing for
    [info.data]: the fields validated before the one under validation.  The
    message is abridged: the source interpolates the mode into it. *)
Definition validate_github_oauth (v : pyval) (data : gmap string pyval) : result pyval :=
  if bool_decide (data ≠ ∅) then
    let app_mode := dict_get data "app_mode" in
    let enable_su_auth := dict_get_default data "enable_su_auth" (PBool false) in
    if bool_decide (app_mode = PStr MULTI_USER) || truthy enable_su_auth then
      if negb (truthy v) then
        Raise (ValueError "GitHub OAuth credentials required for mode or when SU auth is enabled")
      else Ok v
    else Ok v
  else Ok v.

(** [validate_su_username(cls, v, info)]. *)
Definition validate_su_username (v : pyval) (data : gmap string pyval) : result pyval :=
  if bool_decide (data ≠ ∅) && truthy (dict_get data "enable_su_auth") && negb (truthy v)
  then Raise (ValueError "SU GitHub username required when SU auth is enabled")
  else Ok v.

(** [validate_mu_admin(cls, v, info)]. *)
Definition validate_mu_admin (v : pyval) (data : gmap string pyval) : result pyval :=
  if bool_decide (data ≠ ∅) && bool_decide (dict_get data "app_mode" = PStr MULTI_USER)
     && negb (truthy v)
  then Raise (ValueError "MU admin GitHub username required for multi-user mode")
  else Ok v.

(** How pydantic reads the raw text of an environment variable, by field type. *)
Definition parse_str (raw : string) : result pyval := Ok (PStr raw).

Definition parse_app_mode (raw : string) : result pyval :=
  if String.eqb raw SINGLE_USER || String.eqb raw MULTI_USER then Ok (PStr raw)
  else Raise (ValueError "Input should be 'single_user' or 'multi_user'").

Definition parse_bool (raw : string) : result pyval :=
  let s := lower raw in
  if bool_decide (s ∈ ["1"; "on"; "t"; "true"; "y"; "yes"]) then Ok (PBool true)
  else if bool_decide (s ∈ ["0"; "off"; "f"; "false"; "n"; "no"]) then Ok (PBool false)
  else Raise (ValueError "Input should be a valid boolean").

Fixpoint parse_digits (s : string) (acc : Z) : option Z :=
  match s with
  | EmptyString => Some acc
  | String c s' =>
      let n := Z.of_N (N_of_ascii c) in
      if (48 <=? n) && (n <=? 57) then parse_digits s' (10 * acc + (n - 48)) else None
  end.

Definition parse_int (raw : string) : result pyval :=
  let r := match raw with
           | EmptyString => None
           | String "-"%char ds =>
               if String.eqb ds "" then None else Z.opp <$> parse_digits ds 0
           | _ => parse_digits raw 0
           end in
  match r with
  | Some n => Ok (PInt n)
  | None => Raise (ValueError "Input should be a valid integer")
  end.

(** One field of the model: its name, how its raw text is read, its default
    and its [@field_validator]s. *)
Record field_spec : Type := {
  fname : string;
  fparse : string -> result pyval;
  fdefault : pyval;
  fvalidators : list (pyval -> gmap string pyval -> result pyval)
}.

(** The fields of [Settings], in the order of the class body. *)
Definition fields : list field_spec :=
  [ {| fname := "app_mode"; fparse := parse_app_mode; fdefault := PStr SINGLE_USER;
       fvalidators := [] |};
    {| fname := "app_name"; fparse := parse_str; fdefault := PStr "FastAPI Multi-Mode App";
       fvalidators := [] |};
    {| fname := "debug"; fparse := parse_bool; fdefault := PBool false; fvalidators := [] |};
    {| fname := "database_url"; fparse := parse_str; fdefault := PStr "sqlite:///./app.db";
       fvalidators := [] |};
    {| fname := "secret_key"; fparse := parse_str;
       fdefault := PStr "your-secret-key-change-this-in-production"; fvalidators := [] |};
    {| fname := "algorithm"; fparse := parse_str; fdefault := PStr "HS256"; fvalidators := [] |};
    {| fname := "access_token_expire_minutes"; fparse := parse_int; fdefault := PInt 30;
       fvalidators := [] |};
    {| fname := "github_client_id"; fparse := parse_str; fdefault := PNone;
       fvalidators := [validate_github_oauth] |};
    {| fname := "github_client_secret"; fparse := parse_str; fdefault := PNone;
       fvalidators := [validate_github_oauth] |};
    {| fname := "github_redirect_uri"; fparse := parse_str;
       fdefault := PStr "http://localhost:8000/auth/github/callback"; fvalidators := [] |};
    {| fname := "enable_su_auth"; fparse := parse_bool; fdefault := PBool false;
       fvalidators := [] |};
    {| fname := "su_github_username"; fparse := parse_str; fdefault := PNone;
       fvalidators := [validate_su_username] |};
    {| fname := "default_github_token"; fparse := parse_str; fdefault := PNone;
       fvalidators := [] |};
    {| fname := "mu_admin_github_username"; fparse := parse_str; fdefault := PNone;
       fvalidators := [validate_mu_admin] |} ].

Fixpoint run_validators (vs : list (pyval -> gmap string pyval -> result pyval))
    (data : gmap string pyval) (v : pyval) : result pyval :=
  match vs with
  | [] => Ok v
  | f :: vs' => f v data ≫= run_validators vs' data
  end.

(** Validation of one field.  The value comes from the environment when the
    variable is set and is the default otherwise; [BaseSettings] validates
    defaults as well.  A field that fails is left out of [info.data] and its
    name is recorded. *)
Definition validate_field (env : gmap string string)
    (st : gmap string pyval * list string) (f : field_spec)
    : gmap string pyval * list string :=
  let r := match env !! fname f with
           | Some raw => fparse f raw
           | None => Ok (fdefault f)
           end ≫= run_validators (fvalidators f) st.1 in
  match r with
  | Ok v => (<[fname f := v]> st.1, st.2)
  | Raise _ => (st.1, st.2 ++ [fname f])
  end.

Definition as_str (v : pyval) : string :=
  match v with PStr s => s | _ => "" end.

Definition as_opt_str (v : pyval) : option string :=
  match v with PStr s => Some s | _ => None end.

Definition as_bool (v : pyval) : bool :=
  match v with PBool b => b | _ => false end.

Definition as_int (v : pyval) : Z :=
  match v with PInt n => n | _ => 0 end.

Definition settings_of_data (d : gmap string pyval) : Settings :=
  {| app_mode := as_str (dict_get d "app_mode");
     app_name := as_str (dict_get d "app_name");
     debug := as_bool (dict_get d "debug");
     database_url := as_str (dict_get d "database_url");
     secret_key := as_str (dict_get d "secret_key");
     algorithm := as_str (dict_get d "algorithm");
     access_token_expire_minutes := as_int (dict_get d "access_token_expire_minutes");
     github_client_id := as_opt_str (dict_get d "github_client_id");
     github_client_secret := as_opt_str (dict_get d "github_client_secret");
     github_redirect_uri := as_str (dict_get d "github_redirect_uri");
     enable_su_auth := as_bool (dict_get d "enable_su_auth");
     su_github_username := as_opt_str (dict_get d "su_github_username");
     default_github_token := as_opt_str (dict_get d "default_github_token");
     mu_admin_github_username := as_opt_str (dict_get d "mu_admin_github_username") |}.

(** [Settings()]: the fields are validated in order, each validator seeing
    the fields before it; any failure makes the construction raise.  [env]
    is the process environment merged with the [.env] file, by lower-cased
    variable name. *)
Definition Settings_new (env : gmap string string) : result Settings :=
  let st := foldl (validate_field env) (∅, []) fields in
  match st.2 with
  | [] => Ok (settings_of_data st.1)
  | errs => Raise (ValidationError errs)
  end.

(** The [requires_auth] property. *)
Definition requires_auth (s : Settings) : bool :=
  String.eqb (app_mode s) MULTI_USER
  || (String.eqb (app_mode s) SINGLE_USER && enable_su_auth s).

Definition is_single_user_mode (s : Settings) : bool := String.eqb (app_mode s) SINGLE_USER.

Definition is_multi_user_mode (s : Settings) : bool := String.eqb (app_mode s) MULTI_USER.

End Config.

(** ** Third-party libraries used by app/core/security.py *)

(** [timegm(dt.utctimetuple())]: the whole seconds of a point in time given
    in microseconds (the NumericDate of a JWT). *)
Definition numeric_date (us : Z) : Z := us / 1000000.

(** python-jose: [jwt.encode(claims, key, algorithm)] and
    [jwt.decode(token, key, algorithms)]; the latter reads the clock, which is
    its first argument here. *)
Class Jose : Type := {
  jwt_alg_ok : string -> bool;
  jwt_encode : gmap string pyval -> string -> string -> result string;
  jwt_decode : Z -> string -> string -> list string -> result (gmap string pyval)
}.


Definition is_json (v : pyval) : bool :=
  match v with PDatetime _ => false | _ => true end.




(** cryptography.fernet: [Fernet(key)] raises [ValueError] unless the key is
    well formed ([Fernet_key_ok]); [Fernet.generate_key()] and
    [Fernet.encrypt] draw on randomness and the clock, given here as [seed]
    and [nonce]; [Fernet.decrypt] raises [InvalidToken]. *)
Class Fernet : Type := {
  Fernet_key_ok : string -> bool;
  Fernet_generate_key : string -> string;
  Fernet_encrypt : string -> string -> string -> string;
  Fernet_decrypt : string -> string -> result string
}.

(** The contract of Fernet relied upon. *)
Class FernetSpec (F : Fernet) : Prop := {
  generate_key_ok : forall seed, Fernet_key_ok (Fernet_generate_key seed) = true;
  generate_key_text : forall seed,
    utf8_valid (Fernet_generate_key seed) = true /\ Fernet_generate_key seed <> "";
  encrypt_nonempty : forall key nonce msg, Fernet_encrypt key nonce msg <> "";
  decrypt_encrypt : forall key nonce msg,
    Fernet_key_ok key = true ->
    Fernet_decrypt key (Fernet_encrypt key nonce msg) = Ok msg
}.

(** ** app/core/security.py *)

Module Security.
Import Config.

(** [get_encryption_key()]: reads [os.environ], and on a missing or empty
    [ENCRYPTION_KEY] generates a key and stores it there.  Returns the
    outcome and the environment afterwards. *)
Definition get_encryption_key `{Fernet} (environ : gmap string string) (seed : string)
    : result string * gmap string string :=
  let key := environ !! "ENCRYPTION_KEY" in
  if negb (opt_truthy key) then
    match bytes_decode (Fernet_generate_key seed) with
    | Ok key => (Ok (str_encode key), <["ENCRYPTION_KEY" := key]> environ)
    | Raise e => (Raise e, environ)
    end
  else (Ok (str_encode (default "" key)), environ).

(** The [Fernet(key)] constructor. *)
Definition Fernet_new `{Fernet} (key : string) : result string :=
  if Fernet_key_ok key then Ok key
  else Raise (ValueError "Fernet key must be 32 url-safe base64-encoded bytes.").

(** [create_access_token(data, expires_delta)] when the clock reads [now]. *)
Definition create_access_token `{Jose} (settings : Settings)
    (data : gmap string pyval) (expires_delta : option Z) (now : Z) : result string :=
  let to_encode := data in
  let expire :=
    match expires_delta with
    | Some d => if negb (d =? 0) then now + d
                else now + access_token_expire_minutes settings * 60000000
    | None => now + access_token_expire_minutes settings * 60000000
    end in
  let to_encode := <["exp" := PDatetime expire]> to_encode in
  jwt_encode to_encode (secret_key settings) (algorithm settings).

(** [decode_access_token(token)] when the clock reads [now]. *)
Definition decode_access_token `{Jose} (settings : Settings) (token : string) (now : Z)
    : result (gmap string pyval) :=
  try_except
    (jwt_decode now token (secret_key settings) [algorithm settings])
    is_JWTError
    (fun _ => Raise (ValueError "Invalid token")).

(** [encrypt_token(token)]. *)
Definition encrypt_token `{Fernet} (environ : gmap string string) (seed nonce : string)
    (token : string) : result string * gmap string string :=
  if negb (str_truthy token) then (Ok "", environ)
  else
    let kr := get_encryption_key environ seed in
    (key ← kr.1;
     fernet ← Fernet_new key;
     let encrypted_token := Fernet_encrypt fernet nonce (str_encode token) in
     bytes_decode (b64encode encrypted_token),
     kr.2).

(** [decrypt_token(encrypted_token)]: every exception of the body is caught. *)
Definition decrypt_token `{Fernet} (environ : gmap string string) (seed : string)
    (encrypted_token : string) : result string * gmap string string :=
  if negb (str_truthy encrypted_token) then (Ok "", environ)
  else
    let kr := get_encryption_key environ seed in
    (try_except
       (key ← kr.1;
        fernet ← Fernet_new key;
        encrypted_bytes ← b64decode (str_encode encrypted_token);
        decrypted_token ← Fernet_decrypt fernet encrypted_bytes;
        bytes_decode decrypted_token)
       except_Exception
       (fun _ => Ok ""),
     kr.2).

(** The dictionary [token_data] built by [create_github_oauth_token]. *)
Definition token_data (github_user_data : gmap string pyval) (access_token : string)
    : result (gmap string pyval) :=
  sub ← dict_item github_user_data "login";
  github_id ← dict_item github_user_data "id";
  Ok (<["sub" := sub]>
     (<["github_id" := github_id]>
     (<["email" := dict_get github_user_data "email"]>
     (<["avatar_url" := dict_get github_user_data "avatar_url"]>
     (<["github_token" := PStr access_token]>
     (<["type" := PStr "github_oauth"]> ∅)))))).

(** [create_github_oauth_token(github_user_data, access_token)]. *)
Definition create_github_oauth_token `{Jose} (settings : Settings)
    (github_user_data : gmap string pyval) (access_token : string) (now : Z)
    : result string :=
  td ← token_data github_user_data access_token;
  create_access_token settings td None now.

End Security.

(** ** app/models/user.py and the database session *)

Module Models.

(** A row of the [users] table (or a [User] object not yet stored, whose
    [id] is [None]).  Timestamps are microseconds. *)
Record User : Type := {
  id : option Z;
  username : string;
  email : option string;
  github_id : option Z;
  github_username : option string;
  github_avatar_url : option string;
  github_token : option string;
  is_admin : bool;
  is_active : bool;
  organization_id : option Z;
  created_at : option Z;
  updated_at : option Z;
  last_login : option Z
}.

(** [User(username=..., github_username=..., github_id=..., is_admin=...,
    is_active=...)]: the other columns are unset. *)
Definition User_new (username : string) (github_username : option string)
    (github_id : option Z) (is_admin is_active : bool) : User :=
  {| id := None; username := username; email := None; github_id := github_id;
     github_username := github_username; github_avatar_url := None;
     github_token := None; is_admin := is_admin; is_active := is_active;
     organization_id := None; created_at := None; updated_at := None;
     last_login := None |}.

(** What a handler asked of the session, in order. *)
Inductive db_call : Type :=
| QueryByGithubUsername (name : string)
| QueryById (user_id : Z)
| AddCommitRefresh (name : string)
| Commit.

(** The SQLAlchemy session: the rows of [users] and the calls made so far. *)
Record Session : Type := {
  users : list User;
  calls : list db_call
}.

Definition log (c : db_call) (db : Session) : Session :=
  {| users := users db; calls := calls db ++ [c] |}.

(** [db.query(User).filter(User.github_username == name).first()]. *)
Definition query_by_github_username (db : Session) (name : string)
    : option User * Session :=
  (find (fun u => bool_decide (github_username u = Some name)) (users db),
   log (QueryByGithubUsername name) db).

(** [db.query(User).filter(User.id == user_id).first()]. *)
Definition query_by_id (db : Session) (user_id : Z) : option User * Session :=
  (find (fun u => bool_decide (id u = Some user_id)) (users db),
   log (QueryById user_id) db).

(** A [NULL] never collides under a unique index. *)
Definition collides {A} `{EqDecision A} (x y : option A) : bool :=
  match x with Some _ => bool_decide (x = y) | None => false end.

(** The unique indexes of [users]: username, email, github_id,
    github_username. *)
Definition violates_unique (rows : list User) (u : User) : bool :=
  existsb (fun r =>
    String.eqb (username r) (username u)
    || collides (email u) (email r)
    || collides (github_id u) (github_id r)
    || collides (github_username u) (github_username r)) rows.

Definition next_id (rows : list User) : Z :=
  1 + foldr (fun r m => Z.max (default 0 (id r)) m) 0 rows.

(** [db.add(user); db.commit(); db.refresh(user)] at time [now]: the row gets
    its key and creation time, or the commit raises [IntegrityError]. *)
Definition add_commit_refresh (db : Session) (u : User) (now : Z)
    : result User * Session :=
  let db' := log (AddCommitRefresh (username u)) db in
  if violates_unique (users db) u then (Raise IntegrityError, db')
  else
    let row :=
      {| id := Some (next_id (users db)); username := username u; email := email u;
         github_id := github_id u; github_username := github_username u;
         github_avatar_url := github_avatar_url u; github_token := github_token u;
         is_admin := is_admin u; is_active := is_active u;
         organization_id := organization_id u; created_at := Some now;
         updated_at := updated_at u; last_login := last_login u |} in
    (Ok row, {| users := users db ++ [row]; calls := calls db' |}).

(** A write to the columns [is_active], [is_admin], [updated_at] of the row
    with key [user_id], followed by [db.commit()]. *)
Definition set_flags (user_id : option Z) (active admin : bool) (now : Z) (r : User) : User :=
  if bool_decide (id r = user_id) then
    {| id := id r; username := username r; email := email r;
       github_id := github_id r; github_username := github_username r;
       github_avatar_url := github_avatar_url r; github_token := github_token r;
       is_admin := admin; is_active := active;
       organization_id := organization_id r; created_at := created_at r;
       updated_at := Some now; last_login := last_login r |}
  else r.

Definition update_commit (db : Session) (u : User) (active admin : bool) (now : Z)
    : Session :=
  {| users := map (set_flags (id u) active admin now) (users db);
     calls := calls db ++ [Commit] |}.

End Models.

(** ** The request *)

(** What the handlers read of a Starlette [Request]: the header list (names
    compare without case, the first match wins) and the cookie dict. *)
Record Request : Type := {
  headers : list (string * string);
  cookies : gmap string string
}.

(** [request.headers.get(name)]. *)
Definition headers_get (request : Request) (name : string) : option string :=
  snd <$> find (fun p => String.eqb (lower p.1) (lower name)) (headers request).

(** [request.cookies.get(name)]. *)
Definition cookies_get (request : Request) (name : string) : option string :=
  cookies request !! name.

(** ** app/core/auth/strategies *)

Module Strategies.
Import Config Security Models.

(** The token lookup both OAuth strategies start with: the second
    space-separated field of an [Authorization: Bearer ...] header, else the
    [access_token] cookie. *)
Definition session_token (request : Request) : result (option string) :=
  let auth_header := headers_get request "Authorization" in
  token ← (if opt_truthy auth_header && startswith "Bearer " (default "" auth_header)
           then match split_char " " (default "" auth_header) !! 1%nat with
                | Some t => Ok (Some t)
                | None => Raise IndexError
                end
           else Ok None);
  Ok (if negb (opt_truthy token) then cookies_get request "access_token" else token).

(** Binding a claim as a text parameter of a query or a text column. *)
Definition sql_text (v : pyval) : result string :=
  match v with PStr s => Ok s | _ => Raise StatementError end.

(** Binding a claim as an integer column; [None] is [NULL]. *)
Definition sql_int (v : pyval) : result (option Z) :=
  match v with
  | PInt n => Ok (Some n)
  | PNone => Ok None
  | _ => Raise StatementError
  end.

Definition opt_pyval (o : option string) : pyval :=
  match o with Some s => PStr s | None => PNone end.

(** *** no_auth.py *)

(** [NoAuthStrategy.authenticate(request)] at time [now]. *)
Definition NoAuth_authenticate (request : Request) (now : Z) : result (option User) :=
  let virtual_user :=
    {| id := Some 1; username := "single_user"; email := Some "user@localhost";
       github_username := None; github_id := None; github_avatar_url := None;
       github_token := None; is_admin := true; is_active := true;
       organization_id := None; created_at := Some now; updated_at := Some now;
       last_login := None |} in
  Ok (Some virtual_user).

Definition NoAuth_get_login_url : option string := None.

Definition NoAuth_requires_auth : bool := false.

(** *** github_su.py *)

(** The body of the [try] block of [GitHubSUStrategy.authenticate]. *)
Definition GitHubSU_try `{Jose} (settings : Settings) (token : string)
    (db : Session) (now : Z) : result (option User) * Session :=
  match decode_access_token settings token now with
  | Raise e => (Raise e, db)
  | Ok payload =>
      let username := dict_get payload "sub" in
      if negb (truthy username) then (Ok None, db)
      else if negb (bool_decide (username = opt_pyval (su_github_username settings))) then
        (Raise (HTTPException HTTP_403_FORBIDDEN
                  ("Access denied. Only " +:+ default "None" (su_github_username settings)
                   +:+ " is allowed.")), db)
      else
        match sql_text username with
        | Raise e => (Raise e, db)
        | Ok name =>
            let q := query_by_github_username db name in
            match q.1 with
            | Some user => (Ok (Some user), q.2)
            | None =>
                let r := add_commit_refresh q.2 (User_new name (Some name) None true true) now in
                (Some <$> r.1, r.2)
            end
        end
  end.

(** [GitHubSUStrategy.authenticate(request)]: [except Exception: return None]
    closes the [try] block. *)
Definition GitHubSU_authenticate `{Jose} (settings : Settings) (request : Request)
    (db : Session) (now : Z) : result (option User) * Session :=
  match session_token request with
  | Raise e => (Raise e, db)
  | Ok token =>
      if negb (opt_truthy token) then (Ok None, db)
      else
        let r := GitHubSU_try settings (default "" token) db now in
        (try_except r.1 except_Exception (fun _ => Ok None), r.2)
  end.

(** [get_login_url()] of both OAuth strategies, which differ in [state]. *)
Definition oauth_login_url (settings : Settings) (state : string) : option string :=
  if negb (opt_truthy (github_client_id settings)) then None
  else Some ("https://github.com/login/oauth/authorize?client_id="
             +:+ default "" (github_client_id settings)
             +:+ "&redirect_uri=" +:+ github_redirect_uri settings
             +:+ "&scope=user:email,repo&state=" +:+ state).

Definition GitHubSU_get_login_url (settings : Settings) : option string :=
  oauth_login_url settings "su_mode".

Definition GitHubSU_requires_auth : bool := true.

(** *** github_mu.py *)

(** The body of the [try] block of [GitHubMUStrategy.authenticate]. *)
Definition GitHubMU_try `{Jose} (settings : Settings) (token : string)
    (db : Session) (now : Z) : result (option User) * Session :=
  match decode_access_token settings token now with
  | Raise e => (Raise e, db)
  | Ok payload =>
      let username := dict_get payload "sub" in
      let github_id := dict_get payload "github_id" in
      if negb (truthy username) then (Ok None, db)
      else
        match sql_text username with
        | Raise e => (Raise e, db)
        | Ok name =>
            let q := query_by_github_username db name in
            let r :=
              match q.1 with
              | Some user => (Ok user, q.2)
              | None =>
                  let is_admin :=
                    bool_decide (username = opt_pyval (mu_admin_github_username settings)) in
                  match sql_int github_id with
                  | Raise e => (Raise e, q.2)
                  | Ok gid =>
                      add_commit_refresh q.2 (User_new name (Some name) gid is_admin true) now
                  end
              end in
            match r.1 with
            | Raise e => (Raise e, r.2)
            | Ok user =>
                if negb (is_active user) then
                  (Raise (HTTPException HTTP_403_FORBIDDEN
                            "Account is deactivated. Contact administrator."), r.2)
                else (Ok (Some user), r.2)
            end
        end
  end.

(** [GitHubMUStrategy.authenticate(request)]: [except HTTPException: raise]
    comes before [except Exception: return None]. *)
Definition GitHubMU_authenticate `{Jose} (settings : Settings) (request : Request)
    (db : Session) (now : Z) : result (option User) * Session :=
  match session_token request with
  | Raise e => (Raise e, db)
  | Ok token =>
      if negb (opt_truthy token) then (Ok None, db)
      else
        let r := GitHubMU_try settings (default "" token) db now in
        (try_except r.1 (fun e => negb (is_HTTPException e)) (fun _ => Ok None), r.2)
  end.

Definition GitHubMU_get_login_url (settings : Settings) : option string :=
  oauth_login_url settings "mu_mode".

Definition GitHubMU_requires_auth : bool := true.

(** *** base.py: the three implementations of [AuthStrategy] *)

Inductive AuthStrategy : Type :=
| NoAuthStrategy
| GitHubSUStrategy
| GitHubMUStrategy.

Definition authenticate `{Jose} (strategy : AuthStrategy) (settings : Settings)
    (request : Request) (db : Session) (now : Z) : result (option User) * Session :=
  match strategy with
  | NoAuthStrategy => (NoAuth_authenticate request now, db)
  | GitHubSUStrategy => GitHubSU_authenticate settings request db now
  | GitHubMUStrategy => GitHubMU_authenticate settings request db now
  end.

Definition get_login_url (strategy : AuthStrategy) (settings : Settings) : option string :=
  match strategy with
  | NoAuthStrategy => NoAuth_get_login_url
  | GitHubSUStrategy => GitHubSU_get_login_url settings
  | GitHubMUStrategy => GitHubMU_get_login_url settings
  end.

Definition requires_auth (strategy : AuthStrategy) : bool :=
  match strategy with
  | NoAuthStrategy => NoAuth_requires_auth
  | GitHubSUStrategy => GitHubSU_requires_auth
  | GitHubMUStrategy => GitHubMU_requires_auth
  end.

End Strategies.

(** ** app/core/auth/dependencies.py *)

Module Dependencies.
Import Config Security Models Strategies.

(** [get_auth_strategy(db)]. *)
Definition get_auth_strategy (settings : Settings) : result AuthStrategy :=
  if String.eqb (app_mode settings) SINGLE_USER then
    if enable_su_auth settings then Ok GitHubSUStrategy else Ok NoAuthStrategy
  else if String.eqb (app_mode settings) MULTI_USER then Ok GitHubMUStrategy
  else Raise (ValueError ("Unknown app mode: " +:+ app_mode settings)).

(** [get_current_user(request, auth_strategy)]. *)
Definition get_current_user `{Jose} (settings : Settings) (auth_strategy : AuthStrategy)
    (request : Request) (db : Session) (now : Z) : result (option User) * Session :=
  authenticate auth_strategy settings request db now.

(** The [401] of [require_auth]. *)
Definition authentication_required (login_url : option string) : exn :=
  HTTPException HTTP_401_UNAUTHORIZED
    (if opt_truthy login_url
     then "Authentication required. Login at: " +:+ default "" login_url
     else "Authentication required").

(** The part of [require_auth] after the [requires_auth()] test. *)
Definition require_auth_tail `{Jose} (settings : Settings) (auth_strategy : AuthStrategy)
    (request : Request) (db : Session) (now : Z) : result User * Session :=
  let r := authenticate auth_strategy settings request db now in
  match r.1 with
  | Raise e => (Raise e, r.2)
  | Ok None => (Raise (authentication_required (get_login_url auth_strategy settings)), r.2)
  | Ok (Some user) => (Ok user, r.2)
  end.

(** [require_auth(request, auth_strategy)]. *)
Definition require_auth `{Jose} (settings : Settings) (auth_strategy : AuthStrategy)
    (request : Request) (db : Session) (now : Z) : result User * Session :=
  if negb (requires_auth auth_strategy) then
    let r := authenticate auth_strategy settings request db now in
    match r.1 with
    | Raise e => (Raise e, r.2)
    | Ok (Some user) => (Ok user, r.2)
    | Ok None => require_auth_tail settings auth_strategy request r.2 now
    end
  else require_auth_tail settings auth_strategy request db now.

(** [require_admin(current_user)]. *)
Definition require_admin (current_user : User) : result User :=
  if negb (is_admin current_user) then
    Raise (HTTPException HTTP_403_FORBIDDEN "Admin privileges required")
  else Ok current_user.

(** [get_github_token(request, current_user)]; the environment is that of
    [decrypt_token]. *)
Definition get_github_token `{Fernet} (settings : Settings)
    (environ : gmap string string) (seed : string)
    (request : Request) (current_user : option User)
    : result (option string) * gmap string string :=
  if String.eqb (app_mode settings) SINGLE_USER
     && negb (enable_su_auth settings)
     && opt_truthy (default_github_token settings)
  then (Ok (default_github_token settings), environ)
  else if opt_truthy (current_user ≫= github_token) then
    let r := decrypt_token environ seed (default "" (current_user ≫= github_token)) in
    (Some <$> r.1, r.2)
  else
    let auth_header := headers_get request "X-GitHub-Token" in
    if opt_truthy auth_header then (Ok auth_header, environ)
    else (Ok None, environ).

(** [require_github_token(github_token)]. *)
Definition require_github_token (github_token : option string) : result string :=
  if negb (opt_truthy github_token) then
    Raise (HTTPException HTTP_400_BAD_REQUEST
             "GitHub token required for this operation. Either authenticate with GitHub OAuth or provide X-GitHub-Token header.")
  else Ok (default "" github_token).

End Dependencies.

(** ** app/api/v1/auth.py *)

Module AuthApi.
Import Config.

(** [login()]: the answer carries the login URL and the mode. *)
Definition login (settings : Settings) : result (string * string) :=
  if negb (Config.requires_auth settings) then
    Raise (HTTPException HTTP_400_BAD_REQUEST "Authentication not required in current mode")
  else if negb (opt_truthy (github_client_id settings)) then
    Raise (HTTPException HTTP_500_INTERNAL_SERVER_ERROR "GitHub OAuth not configured")
  else
    Ok ("https://github.com/login/oauth/authorize?client_id="
        +:+ default "" (github_client_id settings)
        +:+ "&redirect_uri=" +:+ github_redirect_uri settings
        +:+ "&scope=user:email,repo&state=" +:+ app_mode settings,
        app_mode settings).

End AuthApi.

(** ** app/api/v1/users.py *)

Module UsersApi.
Import Models.

(** [deactivate_user(user_id, _, current_user, db)] at time [now]. *)
Definition deactivate_user (user_id : Z) (current_user : User) (db : Session) (now : Z)
    : result string * Session :=
  if bool_decide (id current_user = Some user_id) then
    (Raise (HTTPException HTTP_400_BAD_REQUEST "Cannot deactivate your own account"), db)
  else
    let q := query_by_id db user_id in
    match q.1 with
    | None => (Raise (HTTPException HTTP_404_NOT_FOUND "User not found"), q.2)
    | Some user =>
        (Ok ("User " +:+ username user +:+ " deactivated successfully"),
         update_commit q.2 user false (is_admin user) now)
    end.

(** [remove_admin(user_id, _, current_user, db)] at time [now]. *)
Definition remove_admin (user_id : Z) (current_user : User) (db : Session) (now : Z)
    : result string * Session :=
  if bool_decide (id current_user = Some user_id) then
    (Raise (HTTPException HTTP_400_BAD_REQUEST
              "Cannot remove admin privileges from your own account"), db)
  else
    let q := query_by_id db user_id in
    match q.1 with
    | None => (Raise (HTTPException HTTP_404_NOT_FOUND "User not found"), q.2)
    | Some user =>
        if negb (is_admin user) then
          (Raise (HTTPException HTTP_400_BAD_REQUEST "User is not an admin"), q.2)
        else
          (Ok ("Admin privileges removed from user " +:+ username user),
           update_commit q.2 user (is_active user) false now)
    end.

End UsersApi.

(** ** Reference implementations of the library interfaces

    Small executable instances of [Jose] and [Fernet] that meet the
    contracts above; the concrete examples are run on them. *)

Module Ref.

Fixpoint pos_to_string (p : positive) : string :=
  match p with
  | xH => EmptyString
  | xO q => String "0"%char (pos_to_string q)
  | xI q => String "1"%char (pos_to_string q)
  end.

Fixpoint string_to_pos (s : string) : option positive :=
  match s with
  | EmptyString => Some xH
  | String c s' =>
      q ← string_to_pos s';
      if Ascii.eqb c "0"%char then Some (xO q)
      else if Ascii.eqb c "1"%char then Some (xI q)
      else None
  end.

(** [jwt.encode] turns a datetime [exp] into its NumericDate. *)
Definition numeric_exp (claims : gmap string pyval) : gmap string pyval :=
  match claims !! "exp" with
  | Some (PDatetime e) => <["exp" := PInt (numeric_date e)]> claims
  | _ => claims
  end.

Definition alg_ok (alg : string) : bool := String.eqb alg "HS256".

(** A token names its key, algorithm and claims; the key stands for the
    signature. *)
Definition encode (claims : gmap string pyval) (key alg : string) : result string :=
  if alg_ok alg then
    if bool_decide (map_Forall (fun _ v => is_json v = true) (numeric_exp claims)) then
      Ok (pos_to_string (countable.encode (key, alg, numeric_exp claims)))
    else Raise (ValueError "Object of type datetime is not JSON serializable")
  else Raise (ValueError "Algorithm not supported.").

Definition decode (now : Z) (token key : string) (algorithms : list string)
    : result (gmap string pyval) :=
  match string_to_pos token ≫= countable.decode with
  | None => Raise (JWTError "Not enough segments")
  | Some (k, a, claims) =>
      if negb (bool_decide (a ∈ algorithms)) then
        Raise (JWTError "The specified alg value is not allowed")
      else if negb (String.eqb k key) then
        Raise (JWTError "Signature verification failed.")
      else
        match claims !! "exp" with
        | None => Ok claims
        | Some (PInt e) =>
            if e <? numeric_date now then Raise (JWTError "Signature has expired.")
            else Ok claims
        | Some _ => Raise (JWTError "Expiration Time claim (exp) must be an integer.")
        end
  end.

Definition jose : Jose :=
  {| jwt_alg_ok := alg_ok; jwt_encode := encode; jwt_decode := decode |}.

Fixpoint strip_prefix (p s : string) : option string :=
  match p, s with
  | EmptyString, _ => Some s
  | String a p', String b s' => if Ascii.eqb a b then strip_prefix p' s' else None
  | String _ _, EmptyString => None
  end.

Definition key_ok (key : string) : bool := Nat.eqb (String.length key) 44.

Definition generate_key (seed : string) : string :=
  "cmVmZXJlbmNlLWtleS1yZWZlcmVuY2Uta2V5LTAxMjM=".

(** A token is the version byte followed by the key and the message. *)
Definition encrypt (key nonce msg : string) : string :=
  String (ascii_of_N 128) (key +:+ msg).

Definition decrypt (key token : string) : result string :=
  match token with
  | String v rest =>
      if Ascii.eqb v (ascii_of_N 128) then
        match strip_prefix key rest with
        | Some msg => Ok msg
        | None => Raise InvalidToken
        end
      else Raise InvalidToken
  | EmptyString => Raise InvalidToken
  end.

Definition fernet : Fernet :=
  {| Fernet_key_ok := key_ok; Fernet_generate_key := generate_key;
     Fernet_encrypt := encrypt; Fernet_decrypt := decrypt |}.

(** Settings of three deployments, each built from its environment. *)
Definition env_no_auth : gmap string string :=
  <["default_github_token" := "tok-A"]> ∅.

Definition env_su : gmap string string :=
  <["enable_su_auth" := "true"]>
  (<["su_github_username" := "alice"]>
  (<["github_client_id" := "cid"]>
  (<["github_client_secret" := "csecret"]> ∅))).

Definition env_mu : gmap string string :=
  <["app_mode" := "multi_user"]>
  (<["mu_admin_github_username" := "alice"]>
  (<["github_client_id" := "cid"]>
  (<["github_client_secret" := "csecret"]> ∅))).

(** Single-user mode with authentication enabled and no OAuth credentials. *)
Definition env_su_no_oauth : gmap string string :=
  <["enable_su_auth" := "true"]> (<["su_github_username" := "alice"]> ∅).

Definition settings_of (env : gmap string string) : Config.Settings :=
  match Config.Settings_new env with
  | Ok s => s
  | Raise _ => Config.settings_of_data ∅
  end.

End Ref.

(** ** The specification's wording of two operations, for comparison *)

Module Claimed.
Import Config Security Models.

(** The credential resolution order as the specification words it: the
    default token in single-user mode without authentication; else the
    decryption of the user's stored token, an empty decryption counting as
    no credential so that the next source is tried; else the
    [X-GitHub-Token] header; else none. *)
Definition resolve_github_token `{Fernet} (settings : Settings)
    (environ : gmap string string) (seed : string)
    (request : Request) (current_user : option User) : option string :=
  if String.eqb (app_mode settings) SINGLE_USER
     && negb (enable_su_auth settings)
     && opt_truthy (default_github_token settings)
  then default_github_token settings
  else
    let stored :=
      match current_user ≫= github_token with
      | Some t =>
          match (decrypt_token environ seed t).1 with
          | Ok plain => plain
          | Raise _ => ""
          end
      | None => ""
      end in
    if str_truthy stored then Some stored
    else
      let override := headers_get request "X-GitHub-Token" in
      if opt_truthy override then override else None.

(** The claims of a session token as the specification lists them: subject,
    external id, issued-at, expiry and token kind. *)
Definition session_claim_names : gset string :=
  {[ "sub"; "github_id"; "iat"; "exp"; "type" ]}.

End Claimed.

(** ** app/models/user.py: the response schema *)

Module UserResponse.

(** [class UserResponse(UserBase)]: what the user endpoints answer with.  It
    has no field for the stored GitHub token. *)
Record t : Type := {
  id : Z;
  username : string;
  email : option string;
  github_username : option string;
  github_id : option Z;
  github_avatar_url : option string;
  is_admin : bool;
  is_active : bool;
  created_at : Z;
  last_login : option Z
}.

(** [UserResponse.from_orm(user)]: [id] and [created_at] are required. *)
Definition from_orm (user : Models.User) : result t :=
  match Models.id user, Models.created_at user with
  | Some i, Some c =>
      Ok {| id := i; username := Models.username user; email := Models.email user;
            github_username := Models.github_username user;
            github_id := Models.github_id user;
            github_avatar_url := Models.github_avatar_url user;
            is_admin := Models.is_admin user; is_active := Models.is_active user;
            created_at := c; last_login := Models.last_login user |}
  | None, _ => Raise (ValidationError ["id"])
  | Some _, None => Raise (ValidationError ["created_at"])
  end.

End UserResponse.

Module UserUpdate.

(** [class UserUpdate(BaseModel)]: for each field, [None] when the request
    did not set it, [Some v] when it set it to [v], where [v] may be the
    JSON null. *)
Record t : Type := {
  email : option (option string);
  github_avatar_url : option (option string);
  is_active : option (option bool)
}.

End UserUpdate.

(** ** app/api/v1/users.py, the other endpoints *)

Module Users.
Import Models.

(** The commit of a row changed in place: the row with the same key is
    replaced, unless the change collides with another row under a unique
    index, in which case the commit raises and nothing is written. *)
Definition write_commit (db : Session) (row : User) : result User * Session :=
  let db' := log Commit db in
  if violates_unique (filter (fun r => negb (bool_decide (id r = id row))) (users db)) row
  then (Raise IntegrityError, db')
  else (Ok row,
        {| users := map (fun r => if bool_decide (id r = id row) then row else r) (users db);
           calls := calls db' |}).

(** [get_user(user_id, _, current_user, db)]. *)
Definition get_user (user_id : Z) (current_user : User) (db : Session)
    : result UserResponse.t * Session :=
  if negb (is_admin current_user) && negb (bool_decide (id current_user = Some user_id)) then
    (Raise (HTTPException HTTP_403_FORBIDDEN "Not authorized to view this user"), db)
  else
    let q := query_by_id db user_id in
    match q.1 with
    | None => (Raise (HTTPException HTTP_404_NOT_FOUND "User not found"), q.2)
    | Some user => (UserResponse.from_orm user, q.2)
    end.

(** The [setattr] loop of [update_user] and the write of [updated_at].  A
    flag set to null is stored as NULL, which every test of the flag reads
    as false. *)
Definition apply_update (user : User) (update_data : UserUpdate.t) (now : Z) : User :=
  {| id := id user; username := username user;
     email := default (email user) (UserUpdate.email update_data);
     github_id := github_id user; github_username := github_username user;
     github_avatar_url :=
       default (github_avatar_url user) (UserUpdate.github_avatar_url update_data);
     github_token := github_token user; is_admin := is_admin user;
     is_active :=
       match UserUpdate.is_active update_data with
       | Some v => default false v
       | None => is_active user
       end;
     organization_id := organization_id user; created_at := created_at user;
     updated_at := Some now; last_login := last_login user |}.

(** [update_user(user_id, user_update, _, current_user, db)] at time [now]. *)
Definition update_user (user_id : Z) (user_update : UserUpdate.t) (current_user : User)
    (db : Session) (now : Z) : result UserResponse.t * Session :=
  if negb (is_admin current_user) && negb (bool_decide (id current_user = Some user_id)) then
    (Raise (HTTPException HTTP_403_FORBIDDEN "Not authorized to update this user"), db)
  else
    let q := query_by_id db user_id in
    match q.1 with
    | None => (Raise (HTTPException HTTP_404_NOT_FOUND "User not found"), q.2)
    | Some user =>
        let update_data :=
          if negb (is_admin current_user) then
            {| UserUpdate.email := UserUpdate.email user_update;
               UserUpdate.github_avatar_url := UserUpdate.github_avatar_url user_update;
               UserUpdate.is_active := None |}
          else user_update in
        let w := write_commit q.2 (apply_update user update_data now) in
        match w.1 with
        | Raise e => (Raise e, w.2)
        | Ok row =>
            match UserUpdate.is_active update_data with
            | Some None => (Raise (ValidationError ["is_active"]), w.2)
            | _ => (UserResponse.from_orm row, w.2)
            end
        end
    end.

(** [activate_user(user_id, _, current_user, db)] at time [now]. *)
Definition activate_user (user_id : Z) (current_user : User) (db : Session) (now : Z)
    : result string * Session :=
  let q := query_by_id db user_id in
  match q.1 with
  | None => (Raise (HTTPException HTTP_404_NOT_FOUND "User not found"), q.2)
  | Some user =>
      (Ok ("User " +:+ username user +:+ " activated successfully"),
       update_commit q.2 user true (is_admin user) now)
  end.

(** [make_admin(user_id, _, current_user, db)] at time [now]. *)
Definition make_admin (user_id : Z) (current_user : User) (db : Session) (now : Z)
    : result string * Session :=
  let q := query_by_id db user_id in
  match q.1 with
  | None => (Raise (HTTPException HTTP_404_NOT_FOUND "User not found"), q.2)
  | Some user =>
      if is_admin user then
        (Raise (HTTPException HTTP_400_BAD_REQUEST "User is already an admin"), q.2)
      else
        (Ok ("User " +:+ username user +:+ " granted admin privileges"),
         update_commit q.2 user (is_active user) true now)
  end.


(** The summary of [get_user_stats]. *)
Record UserStats : Type := {
  total_users : Z;
  active_users : Z;
  inactive_users : Z;
  admin_users : Z
}.

(** [get_user_stats(_, current_user, db)]. *)
Definition get_user_stats (db : Session) : UserStats :=
  let total_users := Z.of_nat (length (users db)) in
  let active_users := Z.of_nat (length (filter (fun u => is_active u) (users db))) in
  let admin_users := Z.of_nat (length (filter (fun u => is_admin u) (users db))) in
  {| total_users := total_users; active_users := active_users;
     inactive_users := total_users - active_users; admin_users := admin_users |}.

End Users.

(** ** A sample table for the examples *)

Module Sample.
Import Models.

(** The administrator "alice" and the plain user "bob", both active. *)
Definition alice : User :=
  {| id := Some 1; username := "alice"; email := Some "alice@example.org";
     github_id := Some 11; github_username := Some "alice";
     github_avatar_url := None; github_token := None;
     is_admin := true; is_active := true; organization_id := None;
     created_at := Some 0; updated_at := None; last_login := None |}.

Definition bob : User :=
  {| id := Some 2; username := "bob"; email := Some "bob@example.org";
     github_id := Some 22; github_username := Some "bob";
     github_avatar_url := None; github_token := None;
     is_admin := false; is_active := true; organization_id := None;
     created_at := Some 0; updated_at := None; last_login := None |}.

Definition db : Session := {| users := [alice; bob]; calls := [] |}.

End Sample.

(** ** app/models/user.py: GitHub user data from OAuth *)

Module GitHubUser.

Record t : Type := {
  id : Z;
  login : string;
  email : option string;
  name : option string;
  avatar_url : option string
}.

End GitHubUser.

(** ** app/services/github_service.py *)

(** What a call to GitHub comes back with: a value, or an exception of
    httpx, of the JSON decoder, of pydantic or a [ValueError] of the service,
    none of them an [HTTPException]; the handlers read [str(e)] only. *)
Inductive upstream (A : Type) : Type :=
| Answer (a : A)
| Failure (str_e : string).
Arguments Answer {A} a.
Arguments Failure {A} str_e.

(** GitHub as the service sees it: the token endpoint behind
    [exchange_code_for_token(client_id, client_secret, code)], and
    [GET /user] under the headers of the service, validated as a
    [GitHubUser]. *)
Class GitHubApi : Type := {
  exchange_code_for_token : option string -> option string -> string -> upstream string;
  request_user : list (string * string) -> upstream GitHubUser.t
}.

Module GitHubService.

(** [self.headers] as [GitHubService.__init__(token)] leaves it. *)
Definition headers (token : option string) : list (string * string) :=
  [("Accept", "application/vnd.github.v3+json");
   ("User-Agent", "FastAPI-Multi-Mode-App")]
  ++ (if opt_truthy token then [("Authorization", "token " +:+ default "" token)] else []).

(** [GitHubService(token).get_authenticated_user()]. *)
Definition get_authenticated_user `{GitHubApi} (token : option string)
    : upstream GitHubUser.t :=
  if negb (opt_truthy token) then Failure "GitHub token required for this operation"
  else request_user (headers token).

End GitHubService.

(** ** app/api/v1/auth.py: the OAuth callback *)

(** [str(e)] for the exceptions whose text is their one argument; the text
    the libraries compose for the others is [describe]. *)
Class ErrorText : Type := describe : exn -> string.

Module AuthCallback.
Import Config Security Models Strategies.

Definition exn_str `{ErrorText} (e : exn) : string :=
  match e with
  | ValueError msg => msg
  | JWTError msg => msg
  | _ => describe e
  end.

Definition authentication_failed (str_e : string) : exn :=
  HTTPException HTTP_500_INTERNAL_SERVER_ERROR ("Authentication failed: " +:+ str_e).

(** The two [except] clauses of [github_callback]: an [HTTPException] is
    raised again, any other exception becomes a 500. *)
Definition callback_except `{ErrorText} (e : exn) : exn :=
  if is_HTTPException e then e else authentication_failed (exn_str e).

(** [RedirectResponse(url, status_code)] after one [set_cookie]. *)
Record RedirectResponse : Type := {
  url : string;
  status_code : Z;
  cookie_key : string;
  cookie_value : string;
  httponly : bool;
  secure : bool;
  samesite : string
}.

(** The dictionary [github_user_data]. *)
Definition github_user_data (github_user : GitHubUser.t) : gmap string pyval :=
  <["id" := PInt (GitHubUser.id github_user)]>
  (<["login" := PStr (GitHubUser.login github_user)]>
  (<["email" := opt_pyval (GitHubUser.email github_user)]>
  (<["avatar_url" := opt_pyval (GitHubUser.avatar_url github_user)]> ∅))).

(** The [User(...)] of a first login. *)
Definition new_user (settings : Settings) (github_user : GitHubUser.t) (sealed : string)
    : User :=
  let is_admin :=
    if String.eqb (app_mode settings) SINGLE_USER then true
    else if String.eqb (app_mode settings) MULTI_USER then
      bool_decide (Some (GitHubUser.login github_user) = mu_admin_github_username settings)
    else false in
  {| id := None; username := GitHubUser.login github_user;
     email := GitHubUser.email github_user;
     github_id := Some (GitHubUser.id github_user);
     github_username := Some (GitHubUser.login github_user);
     github_avatar_url := GitHubUser.avatar_url github_user;
     github_token := Some sealed; is_admin := is_admin; is_active := true;
     organization_id := None; created_at := None; updated_at := None;
     last_login := None |}.

(** The four assignments to the row of a returning user; the [UPDATE] they
    cause sets [updated_at] ([onupdate=func.now()]). *)
Definition returning_user (user : User) (github_user : GitHubUser.t) (sealed : string)
    (now : Z) : User :=
  {| id := id user; username := username user;
     email := if opt_truthy (GitHubUser.email github_user)
              then GitHubUser.email github_user else email user;
     github_id := github_id user; github_username := github_username user;
     github_avatar_url := GitHubUser.avatar_url github_user;
     github_token := Some sealed; is_admin := is_admin user; is_active := is_active user;
     organization_id := organization_id user; created_at := created_at user;
     updated_at := Some now; last_login := Some now |}.

(** [github_callback(code, state, db)] at time [now], under the process
    environment [environ]; [seed] and [nonce] are the randomness of
    [encrypt_token].  Both branches of [if not user] call [encrypt_token]
    before the commit.  Returns the outcome, the session and the environment
    afterwards. *)
Definition github_callback `{Jose} `{Fernet} `{GitHubApi} `{ErrorText}
    (settings : Settings) (environ : gmap string string) (seed nonce : string)
    (code state : string) (db : Session) (now : Z)
    : result RedirectResponse * Session * gmap string string :=
  if negb (str_truthy code) then
    (Raise (HTTPException HTTP_400_BAD_REQUEST "Authorization code not provided"),
     db, environ)
  else
    match exchange_code_for_token (github_client_id settings)
            (github_client_secret settings) code with
    | Failure str_e => (Raise (authentication_failed str_e), db, environ)
    | Answer github_token =>
        match GitHubService.get_authenticated_user (Some github_token) with
        | Failure str_e => (Raise (authentication_failed str_e), db, environ)
        | Answer github_user =>
            if String.eqb (app_mode settings) SINGLE_USER && enable_su_auth settings
               && negb (bool_decide (Some (GitHubUser.login github_user)
                                     = su_github_username settings))
            then
              (Raise (HTTPException HTTP_403_FORBIDDEN
                        ("Access denied. Only "
                         +:+ default "None" (su_github_username settings)
                         +:+ " is allowed.")), db, environ)
            else
              let q := query_by_github_username db (GitHubUser.login github_user) in
              let enc := encrypt_token environ seed nonce github_token in
              let w :=
                match enc.1, q.1 with
                | Raise e, _ => (Raise e, q.2)
                | Ok sealed, None =>
                    add_commit_refresh q.2 (new_user settings github_user sealed) now
                | Ok sealed, Some user =>
                    Users.write_commit q.2 (returning_user user github_user sealed now)
                end in
              match w.1 with
              | Raise e => (Raise (callback_except e), w.2, enc.2)
              | Ok user =>
                  match create_github_oauth_token settings (github_user_data github_user)
                          github_token now with
                  | Raise e => (Raise (callback_except e), w.2, enc.2)
                  | Ok jwt_token =>
                      (Ok {| url := "/"; status_code := 302;
                             cookie_key := "access_token"; cookie_value := jwt_token;
                             httponly := true; secure := true; samesite := "lax" |},
                       w.2, enc.2)
                  end
              end
        end
    end.

End AuthCallback.

(** ** A GitHub for the examples: two grants and nothing else *)

Module Hub.

Definition alice : GitHubUser.t :=
  {| GitHubUser.id := 11; GitHubUser.login := "alice";
     GitHubUser.email := Some "alice@example.org"; GitHubUser.name := None;
     GitHubUser.avatar_url := Some "https://avatars.example.org/u/11" |}.

Definition carol : GitHubUser.t :=
  {| GitHubUser.id := 33; GitHubUser.login := "carol";
     GitHubUser.email := None; GitHubUser.name := Some "Carol";
     GitHubUser.avatar_url := None |}.

(** The codes "code-a" and "code-c" are exchanged for the tokens "gho-a" and
    "gho-c", which belong to [alice] and [carol]. *)
Definition api : GitHubApi :=
  {| exchange_code_for_token := fun _ _ code =>
       if String.eqb code "code-a" then Answer "gho-a"
       else if String.eqb code "code-c" then Answer "gho-c"
       else Failure "Failed to get access token: {'error': 'bad_verification_code'}";
     request_user := fun headers =>
       let authorization := snd <$> find (fun p => String.eqb p.1 "Authorization") headers in
       if bool_decide (authorization = Some "token gho-a") then Answer alice
       else if bool_decide (authorization = Some "token gho-c") then Answer carol
       else Failure "Client error '401 Unauthorized' for url 'https://api.github.com/user'" |}.

Definition text : ErrorText := fun _ => "".

End Hub.

(** * Properties *)

Import Config Security Models Strategies Dependencies.

(** ** Strategy selection *)

(** C8: strategy selection depends on the mode configuration only:
    single-user mode without authentication gives the NoAuth strategy,
    single-user mode with authentication the single-allowed-user strategy,
    multi-user mode the multi-user strategy, and any other mode value raises
    a [ValueError], the configuration error. *)
Theorem get_auth_strategy_by_mode (settings : Settings) :
  (app_mode settings = SINGLE_USER -> enable_su_auth settings = false ->
     get_auth_strategy settings = Ok NoAuthStrategy)
  /\ (app_mode settings = SINGLE_USER -> enable_su_auth settings = true ->
     get_auth_strategy settings = Ok GitHubSUStrategy)
  /\ (app_mode settings = MULTI_USER ->
     get_auth_strategy settings = Ok GitHubMUStrategy)
  /\ (app_mode settings <> SINGLE_USER -> app_mode settings <> MULTI_USER ->
     get_auth_strategy settings
     = Raise (ValueError ("Unknown app mode: " +:+ app_mode settings)))
  /\ (forall settings' : Settings,
     app_mode settings' = app_mode settings ->
     enable_su_auth settings' = enable_su_auth settings ->
     get_auth_strategy settings' = get_auth_strategy settings).
Proof.
  unfold get_auth_strategy.
  repeat split.
  - intros -> ->. reflexivity.
  - intros -> ->. reflexivity.
  - intros ->. reflexivity.
  - intros Hsu Hmu.
    apply String.eqb_neq in Hsu, Hmu. rewrite Hsu, Hmu. reflexivity.
  - intros s' -> ->. reflexivity.
Qed.

(** The three deployments of [Ref] select the three strategies, and a mode
    outside the enumeration is refused. *)
Lemma get_auth_strategy_by_mode_witness :
  get_auth_strategy (Ref.settings_of Ref.env_no_auth) = Ok NoAuthStrategy
  /\ get_auth_strategy (Ref.settings_of Ref.env_su) = Ok GitHubSUStrategy
  /\ get_auth_strategy (Ref.settings_of Ref.env_mu) = Ok GitHubMUStrategy
  /\ get_auth_strategy (settings_of_data (<["app_mode" := PStr "team"]> ∅))
     = Raise (ValueError "Unknown app mode: team").
Proof.
  split; [| split; [| split]].
  - apply (get_auth_strategy_by_mode (Ref.settings_of Ref.env_no_auth)); reflexivity.
  - apply (get_auth_strategy_by_mode (Ref.settings_of Ref.env_su)); reflexivity.
  - apply (get_auth_strategy_by_mode (Ref.settings_of Ref.env_mu)); reflexivity.
  - destruct (get_auth_strategy_by_mode (settings_of_data (<["app_mode" := PStr "team"]> ∅)))
      as (_ & _ & _ & Hother & _).
    apply Hother; vm_compute; discriminate.
Defined.

(** ** The NoAuth strategy *)

(** C9: for every request the NoAuth strategy returns a user that is an
    active administrator with key 1 and the name [single_user]; the session
    is returned as it was, no call recorded; the strategy does not require
    authentication and has no login URL. *)
Theorem no_auth_virtual_admin `{Jose} (settings : Settings) (request : Request)
    (db : Session) (now : Z) :
  (exists user,
      authenticate NoAuthStrategy settings request db now = (Ok (Some user), db)
      /\ is_admin user = true /\ is_active user = true
      /\ id user = Some 1 /\ username user = "single_user")
  /\ requires_auth NoAuthStrategy = false
  /\ get_login_url NoAuthStrategy settings = None.
Proof.
  split; [| split; reflexivity].
  eexists. split; [reflexivity |].
  repeat split.
Qed.

(** ** Administration of users *)



(** ** The OAuth strategies *)

Lemma dict_get_Some (d : gmap string pyval) (k : string) (v : pyval) :
  d !! k = Some v -> dict_get d k = v.
Proof. unfold dict_get. intros ->. reflexivity. Qed.

(** The second [authenticate] of [require_auth] decides when the strategy
    requires authentication. *)
Lemma require_auth_oauth `{Jose} (settings : Settings) (strategy : AuthStrategy)
    (request : Request) (db : Session) (now : Z) :
  requires_auth strategy = true ->
  require_auth settings strategy request db now
  = require_auth_tail settings strategy request db now.
Proof.
  intros Hreq. unfold require_auth. rewrite Hreq. reflexivity.
Qed.

(** What the multi-user strategy does with a token that decodes to a
    subject whose row exists: the row is looked up and nothing is written. *)
Lemma GitHubMU_try_existing `{Jose} (settings : Settings) (token : string)
    (db : Session) (now : Z) (payload : gmap string pyval) (name : string) (user : User) :
  decode_access_token settings token now = Ok payload ->
  payload !! "sub" = Some (PStr name) ->
  name <> "" ->
  find (fun u => bool_decide (github_username u = Some name)) (users db) = Some user ->
  GitHubMU_try settings token db now
  = (if negb (is_active user)
     then Raise (HTTPException 403 "Account is deactivated. Contact administrator.")
     else Ok (Some user),
     log (QueryByGithubUsername name) db).
Proof.
  intros Hdec Hsub Hname Hfind.
  unfold GitHubMU_try. rewrite Hdec.
  rewrite (dict_get_Some _ _ _ Hsub). cbn [truthy].
  apply String.eqb_neq in Hname. rewrite Hname. cbn [negb sql_text].
  unfold query_by_github_username. cbn [fst snd].
  rewrite Hfind. cbn [fst snd].
  destruct (is_active user); reflexivity.
Qed.

(** C3: in multi-user mode, a request whose token decodes to a subject with
    an existing, deactivated row makes the multi-user strategy raise
    [HTTPException] 403, and the exception reaches the callers
    [get_current_user] and [require_auth] instead of a "no user" answer. *)
Theorem mu_deactivated_is_forbidden `{Jose} (settings : Settings) (request : Request)
    (db : Session) (now : Z) (token : string) (payload : gmap string pyval)
    (name : string) (user : User) :
  app_mode settings = MULTI_USER ->
  session_token request = Ok (Some token) ->
  token <> "" ->
  decode_access_token settings token now = Ok payload ->
  payload !! "sub" = Some (PStr name) ->
  name <> "" ->
  find (fun u => bool_decide (github_username u = Some name)) (users db) = Some user ->
  is_active user = false ->
  let forbidden := HTTPException 403 "Account is deactivated. Contact administrator." in
  get_auth_strategy settings = Ok GitHubMUStrategy
  /\ (GitHubMU_authenticate settings request db now).1 = Raise forbidden
  /\ (get_current_user settings GitHubMUStrategy request db now).1 = Raise forbidden
  /\ (require_auth settings GitHubMUStrategy request db now).1 = Raise forbidden
  /\ users (GitHubMU_authenticate settings request db now).2 = users db.
Proof.
  intros Hmode Htok Hne Hdec Hsub Hname Hfind Hinactive forbidden.
  assert (Hauth : GitHubMU_authenticate settings request db now
                  = (Raise forbidden, log (QueryByGithubUsername name) db)).
  { unfold GitHubMU_authenticate. rewrite Htok.
    cbn [opt_truthy]. unfold str_truthy.
    apply String.eqb_neq in Hne. rewrite Hne. cbn [negb]. change (default "" (Some token)) with token.
    rewrite (GitHubMU_try_existing settings token db now payload name user) by assumption.
    rewrite Hinactive. reflexivity. }
  split.
  { unfold get_auth_strategy. rewrite Hmode. reflexivity. }
  split; [rewrite Hauth; reflexivity |].
  split; [unfold get_current_user, authenticate; rewrite Hauth; reflexivity |].
  split.
  - rewrite require_auth_oauth by reflexivity.
    unfold require_auth_tail, authenticate. rewrite Hauth. reflexivity.
  - rewrite Hauth. reflexivity.
Qed.

(** A deactivated user "bob" presenting a valid bearer token in the
    multi-user deployment of [Ref]. *)
Lemma mu_deactivated_is_forbidden_witness :
  let settings := Ref.settings_of Ref.env_mu in
  let token :=
    match @create_access_token Ref.jose settings (<["sub" := PStr "bob"]> ∅) None 0 with
    | Ok t => t
    | Raise _ => ""
    end in
  let request := {| headers := [("authorization", "Bearer " +:+ token)]; cookies := ∅ |} in
  let bob :=
    {| id := Some 2; username := "bob"; email := None; github_id := Some 22;
       github_username := Some "bob"; github_avatar_url := None; github_token := None;
       is_admin := false; is_active := false; organization_id := None;
       created_at := Some 0; updated_at := None; last_login := None |} in
  let db := {| users := [bob]; calls := [] |} in
  (@GitHubMU_authenticate Ref.jose settings request db 5).1
  = Raise (HTTPException 403 "Account is deactivated. Contact administrator.")
  /\ (@require_auth Ref.jose settings GitHubMUStrategy request db 5).1
     = Raise (HTTPException 403 "Account is deactivated. Contact administrator.").
Proof.
  cbv zeta.
  set (settings := Ref.settings_of Ref.env_mu).
  set (token := match @create_access_token Ref.jose settings (<["sub" := PStr "bob"]> ∅) None 0 with
                | Ok t => t
                | Raise _ => ""
                end).
  set (request := {| headers := [("authorization", "Bearer " +:+ token)]; cookies := ∅ |}).
  set (db := {| users := _; calls := [] |}).
  destruct (@mu_deactivated_is_forbidden Ref.jose settings request db 5 token
              (<["exp" := PInt 1800]> (<["sub" := PStr "bob"]> ∅)) "bob"
              (Build_User (Some 2) "bob" None (Some 22) (Some "bob") None None
                 false false None (Some 0) None None))
    as (_ & Hauth & _ & Hreq & _).
  - reflexivity.
  - vm_compute. reflexivity.
  - vm_compute. discriminate.
  - vm_compute. reflexivity.
  - vm_compute. reflexivity.
  - discriminate.
  - reflexivity.
  - reflexivity.
  - split; assumption.
Defined.

(** The [try] block of the single-allowed-user strategy does raise the 403
    for a subject other than the allowed one. *)
Lemma GitHubSU_try_other_subject `{Jose} (settings : Settings) (token : string)
    (db : Session) (now : Z) (payload : gmap string pyval) (name : string) :
  decode_access_token settings token now = Ok payload ->
  payload !! "sub" = Some (PStr name) ->
  name <> "" ->
  su_github_username settings <> Some name ->
  GitHubSU_try settings token db now
  = (Raise (HTTPException 403
              ("Access denied. Only " +:+ default "None" (su_github_username settings)
               +:+ " is allowed.")), db).
Proof.
  intros Hdec Hsub Hname Hother.
  unfold GitHubSU_try. rewrite Hdec.
  rewrite (dict_get_Some _ _ _ Hsub). cbn [truthy].
  apply String.eqb_neq in Hname. rewrite Hname. cbn [negb].
  rewrite bool_decide_eq_false_2; [reflexivity |].
  destruct (su_github_username settings) as [allowed |]; cbn [opt_pyval].
  - intros [= ->]. apply Hother. reflexivity.
  - discriminate.
Qed.

(** C1, as the code behaves: in single-user mode with authentication, a
    request whose token decodes to a subject other than the allowed user
    gets "no user" from [GitHubSUStrategy.authenticate]; the 403 raised inside
    the [try] block is caught by [except Exception], so [require_auth]
    answers 401 and no caller sees a 403. *)
Theorem su_other_subject_is_swallowed `{Jose} (settings : Settings) (request : Request)
    (db : Session) (now : Z) (token : string) (payload : gmap string pyval)
    (name : string) :
  app_mode settings = SINGLE_USER ->
  enable_su_auth settings = true ->
  session_token request = Ok (Some token) ->
  token <> "" ->
  decode_access_token settings token now = Ok payload ->
  payload !! "sub" = Some (PStr name) ->
  name <> "" ->
  su_github_username settings <> Some name ->
  get_auth_strategy settings = Ok GitHubSUStrategy
  /\ (exists detail,
        (GitHubSU_try settings token db now).1 = Raise (HTTPException 403 detail))
  /\ GitHubSU_authenticate settings request db now = (Ok None, db)
  /\ get_current_user settings GitHubSUStrategy request db now = (Ok None, db)
  /\ require_auth settings GitHubSUStrategy request db now
     = (Raise (authentication_required (GitHubSU_get_login_url settings)), db).
Proof.
  intros Hmode Hauth Htok Hne Hdec Hsub Hname Hother.
  pose proof (GitHubSU_try_other_subject settings token db now payload name
                Hdec Hsub Hname Hother) as Htry.
  assert (Hsu : GitHubSU_authenticate settings request db now = (Ok None, db)).
  { unfold GitHubSU_authenticate. rewrite Htok.
    cbn [opt_truthy]. unfold str_truthy.
    apply String.eqb_neq in Hne. rewrite Hne. cbn [negb].
    change (default "" (Some token)) with token.
    rewrite Htry. reflexivity. }
  split.
  { unfold get_auth_strategy. rewrite Hmode, Hauth. reflexivity. }
  split; [eexists; rewrite Htry; reflexivity |].
  split; [exact Hsu |].
  split; [exact Hsu |].
  rewrite require_auth_oauth by reflexivity.
  unfold require_auth_tail, authenticate. rewrite Hsu. reflexivity.
Qed.

(** "mallory" presenting a valid bearer token where only "alice" is
    allowed. *)
Lemma su_other_subject_is_swallowed_witness :
  let settings := Ref.settings_of Ref.env_su in
  let token :=
    match @create_access_token Ref.jose settings (<["sub" := PStr "mallory"]> ∅) None 0 with
    | Ok t => t
    | Raise _ => ""
    end in
  let request := {| headers := [("authorization", "Bearer " +:+ token)]; cookies := ∅ |} in
  let db := {| users := []; calls := [] |} in
  @GitHubSU_authenticate Ref.jose settings request db 5 = (Ok None, db)
  /\ (@require_auth Ref.jose settings GitHubSUStrategy request db 5).1
     = Raise (HTTPException 401
                "Authentication required. Login at: https://github.com/login/oauth/authorize?client_id=cid&redirect_uri=http://localhost:8000/auth/github/callback&scope=user:email,repo&state=su_mode").
Proof.
  cbv zeta.
  set (settings := Ref.settings_of Ref.env_su).
  set (token := match @create_access_token Ref.jose settings (<["sub" := PStr "mallory"]> ∅) None 0 with
                | Ok t => t
                | Raise _ => ""
                end).
  set (request := {| headers := [("authorization", "Bearer " +:+ token)]; cookies := ∅ |}).
  set (db := {| users := []; calls := [] |}).
  destruct (@su_other_subject_is_swallowed Ref.jose settings request db 5 token
              (<["exp" := PInt 1800]> (<["sub" := PStr "mallory"]> ∅)) "mallory")
    as (_ & _ & Hauth & _ & Hreq).
  - reflexivity.
  - reflexivity.
  - vm_compute. reflexivity.
  - vm_compute. discriminate.
  - vm_compute. reflexivity.
  - reflexivity.
  - discriminate.
  - vm_compute. discriminate.
  - split; [exact Hauth |]. rewrite Hreq. reflexivity.
Defined.

(** ** Settings validation *)

(** Fields that are not in a list of field specifications are not written
    while that list is validated. *)
Lemma validate_fields_other (env : gmap string string) (fs : list field_spec)
    (st : gmap string pyval * list string) (k : string) :
  k ∉ map fname fs ->
  (foldl (validate_field env) st fs).1 !! k = st.1 !! k.
Proof.
  revert st. induction fs as [| f fs IH]; intros st Hk; [reflexivity |].
  cbn [foldl]. rewrite IH.
  - unfold validate_field.
    destruct (_ ≫= _) as [v | e]; cbn [fst]; [| reflexivity].
    apply lookup_insert_ne. intros Heq. apply Hk.
    cbn [map]. apply elem_of_cons. left. symmetry. exact Heq.
  - intros Hin. apply Hk. cbn [map]. apply elem_of_cons. right. exact Hin.
Qed.

(** A recorded failure is never taken back. *)
Lemma validate_fields_errors (env : gmap string string) (fs : list field_spec)
    (st : gmap string pyval * list string) :
  st.2 <> [] -> (foldl (validate_field env) st fs).2 <> [].
Proof.
  revert st. induction fs as [| f fs IH]; intros st Hst; [exact Hst |].
  cbn [foldl]. apply IH.
  unfold validate_field.
  destruct (_ ≫= _) as [v | e]; cbn [snd]; [exact Hst |].
  destruct (st.2); [contradiction | discriminate].
Qed.

(** When the OAuth fields are validated, [enable_su_auth] has not been
    validated yet: [info.data] does not hold it, whatever the environment. *)
Lemma enable_su_auth_not_yet_validated (env : gmap string string) :
  (foldl (validate_field env) (∅, []) (take 7 fields)).1 !! "enable_su_auth" = None
  /\ (foldl (validate_field env) (∅, []) (take 8 fields)).1 !! "enable_su_auth" = None.
Proof.
  split; rewrite validate_fields_other; try reflexivity;
    cbn; rewrite !elem_of_cons; rewrite elem_of_nil;
    intros Hin; decompose [or] Hin; try discriminate; contradiction.
Qed.

(** So the OAuth validator, which reads [enable_su_auth] from [info.data],
    accepts any value, [None] included, unless the mode is multi-user. *)
Lemma validate_github_oauth_blind (v : pyval) (data : gmap string pyval) :
  data !! "enable_su_auth" = None ->
  dict_get data "app_mode" <> PStr MULTI_USER ->
  validate_github_oauth v data = Ok v.
Proof.
  intros Hsu Hmode. unfold validate_github_oauth.
  destruct (bool_decide (data ≠ ∅)); [| reflexivity].
  unfold dict_get_default. rewrite Hsu. cbn [from_option truthy].
  rewrite bool_decide_eq_false_2 by exact Hmode.
  reflexivity.
Qed.

(** C6, as the code behaves: with single-user authentication enabled and no
    OAuth client id or secret in the environment, [Settings()] is
    constructed; the settings require authentication, and the missing client
    id is met at request time: [login] answers 500 and the strategy has no
    login URL. *)
Theorem su_auth_without_oauth_is_accepted :
  exists settings,
    Settings_new Ref.env_su_no_oauth = Ok settings
    /\ Config.requires_auth settings = true
    /\ get_auth_strategy settings = Ok GitHubSUStrategy
    /\ github_client_id settings = None
    /\ github_client_secret settings = None
    /\ AuthApi.login settings
       = Raise (HTTPException 500 "GitHub OAuth not configured")
    /\ get_login_url GitHubSUStrategy settings = None.
Proof.
  eexists. split; [vm_compute; reflexivity |].
  repeat split.
Qed.

(** ** Session tokens *)

(** The dictionary built for a session token has exactly six entries. *)
Lemma token_data_entries (github_user_data : gmap string pyval) (access_token : string)
    (login gid : pyval) :
  github_user_data !! "login" = Some login ->
  github_user_data !! "id" = Some gid ->
  token_data github_user_data access_token
  = Ok (<["sub" := login]>
       (<["github_id" := gid]>
       (<["email" := dict_get github_user_data "email"]>
       (<["avatar_url" := dict_get github_user_data "avatar_url"]>
       (<["github_token" := PStr access_token]>
       (<["type" := PStr "github_oauth"]> ∅)))))).
Proof.
  intros Hlogin Hid. unfold token_data, dict_item.
  rewrite Hlogin. cbn [mbind result_bind]. rewrite Hid. reflexivity.
Qed.

(** C7, amended: the session token issued for GitHub user data holding
    [login] and [id] is the encoding of exactly seven claims: [sub] (the
    login), [github_id], [email], [avatar_url], [github_token] (the GitHub
    access token itself), [type] = "github_oauth", and [exp] (issue time plus
    the configured lifetime); there is no issued-at claim. *)
Theorem session_token_claims `{Jose} (settings : Settings)
    (github_user_data : gmap string pyval) (access_token : string) (now : Z)
    (login gid : pyval) :
  github_user_data !! "login" = Some login ->
  github_user_data !! "id" = Some gid ->
  exists claims : gmap string pyval,
    create_github_oauth_token settings github_user_data access_token now
    = jwt_encode claims (secret_key settings) (algorithm settings)
    /\ dom claims
       = {[ "sub"; "github_id"; "email"; "avatar_url"; "github_token"; "type"; "exp" ]}
    /\ claims !! "sub" = Some login
    /\ claims !! "github_id" = Some gid
    /\ claims !! "email" = Some (dict_get github_user_data "email")
    /\ claims !! "avatar_url" = Some (dict_get github_user_data "avatar_url")
    /\ claims !! "github_token" = Some (PStr access_token)
    /\ claims !! "type" = Some (PStr "github_oauth")
    /\ claims !! "exp"
       = Some (PDatetime (now + access_token_expire_minutes settings * 60000000))
    /\ claims !! "iat" = None.
Proof.
  intros Hlogin Hid.
  eexists. split.
  { unfold create_github_oauth_token.
    rewrite (token_data_entries _ _ _ _ Hlogin Hid).
    cbn [mbind result_bind]. unfold create_access_token. reflexivity. }
  split.
  { rewrite !dom_insert_L, dom_empty_L. set_solver. }
  repeat split; by simplify_map_eq.
Qed.

(** The session token for "alice" in the multi-user deployment of [Ref]. *)
Lemma session_token_claims_witness :
  exists claims : gmap string pyval,
    @create_github_oauth_token Ref.jose (Ref.settings_of Ref.env_mu)
      (<["login" := PStr "alice"]> (<["id" := PInt 7]> ∅)) "gho_secret" 0
    = Ref.encode claims "your-secret-key-change-this-in-production" "HS256"
    /\ claims !! "github_token" = Some (PStr "gho_secret")
    /\ claims !! "email" = Some PNone
    /\ claims !! "iat" = None.
Proof.
  destruct (@session_token_claims Ref.jose (Ref.settings_of Ref.env_mu)
              (<["login" := PStr "alice"]> (<["id" := PInt 7]> ∅)) "gho_secret" 0
              (PStr "alice") (PInt 7))
    as (claims & Henc & _ & _ & _ & Hemail & _ & Htok & _ & _ & Hiat).
  - reflexivity.
  - reflexivity.
  - exists claims. repeat split; assumption.
Defined.

(** C7 fails as stated: the token issued for "alice" decodes to claims that
    hold the GitHub access token, an e-mail address and an avatar URL, hold
    no issued-at, and so are not the five claims of the specification. *)
Lemma session_token_claims_counterexample :
  let settings := Ref.settings_of Ref.env_mu in
  let github_user_data : gmap string pyval :=
    <["id" := PInt 7]> (<["login" := PStr "alice"]>
    (<["email" := PStr "alice@example.org"]>
    (<["avatar_url" := PStr "https://avatars.example.org/7"]> ∅))) in
  let claims : gmap string pyval :=
    <["sub" := PStr "alice"]> (<["github_id" := PInt 7]>
    (<["email" := PStr "alice@example.org"]>
    (<["avatar_url" := PStr "https://avatars.example.org/7"]>
    (<["github_token" := PStr "gho_secret"]>
    (<["type" := PStr "github_oauth"]> (<["exp" := PInt 1800]> ∅)))))) in
  (exists token,
      @create_github_oauth_token Ref.jose settings github_user_data "gho_secret" 0 = Ok token
      /\ @decode_access_token Ref.jose settings token 5 = Ok claims)
  /\ claims !! "github_token" = Some (PStr "gho_secret")
  /\ claims !! "iat" = None
  /\ dom claims <> Claimed.session_claim_names.
Proof.
  cbv zeta.
  split; [eexists; split; vm_compute; reflexivity |].
  split; [reflexivity |].
  split; [reflexivity |].
  intros Heq.
  assert (Hin : "iat" ∈ Claimed.session_claim_names)
    by (unfold Claimed.session_claim_names; set_solver).
  rewrite <- Heq in Hin.
  apply elem_of_dom in Hin. destruct Hin as [v Hv].
  vm_compute in Hv. discriminate.
Qed.

(** ** The credential vault never raises *)

(** [decrypt_token] always returns a string. *)
Lemma decrypt_token_total `{Fernet} (environ : gmap string string) (seed token : string) :
  exists plain, (decrypt_token environ seed token).1 = Ok plain.
Proof.
  unfold decrypt_token.
  destruct (negb (str_truthy token)); cbn [fst]; [eexists; reflexivity |].
  unfold try_except, except_Exception.
  destruct (_ ≫= _) as [plain | e]; eexists; reflexivity.
Qed.

(** A stored value that is not base64 opens to the empty string, whatever
    the cipher and the key. *)
Lemma decrypt_token_bad_base64 `{Fernet} (environ : gmap string string)
    (seed token : string) (e : exn) :
  b64decode (str_encode token) = Raise e ->
  (decrypt_token environ seed token).1 = Ok "".
Proof.
  intros Hbad. unfold decrypt_token.
  destruct (negb (str_truthy token)); cbn [fst]; [reflexivity |].
  unfold try_except, except_Exception.
  destruct (get_encryption_key environ seed).1 as [key | e1]; cbn [mbind result_bind];
    [| reflexivity].
  destruct (Fernet_new key) as [fernet | e2]; [| reflexivity].
  rewrite Hbad. reflexivity.
Qed.

(** ** The credential resolver *)

(** C2, amended: the resolver returns (1) the default token in single-user
    mode without authentication when one is configured; (2) else, for a user
    with a stored token, the decryption of that token as it is: an empty
    decryption is returned as the empty string, which [require_github_token]
    refuses with status 400, and the header is not consulted; (3) else a
    non-empty [X-GitHub-Token] header; (4) else none. *)
Theorem get_github_token_order `{Fernet} (settings : Settings)
    (environ : gmap string string) (seed : string) (request : Request)
    (current_user : option User) :
  (forall d, app_mode settings = SINGLE_USER -> enable_su_auth settings = false ->
     default_github_token settings = Some d -> d <> "" ->
     get_github_token settings environ seed request current_user
     = (Ok (Some d), environ))
  /\ ((app_mode settings <> SINGLE_USER \/ enable_su_auth settings = true
       \/ opt_truthy (default_github_token settings) = false) ->
      (forall user stored, current_user = Some user ->
         github_token user = Some stored -> stored <> "" ->
         exists plain,
           (decrypt_token environ seed stored).1 = Ok plain
           /\ (get_github_token settings environ seed request current_user).1
              = Ok (Some plain)
           /\ (plain = "" ->
               exists detail, require_github_token (Some plain)
                              = Raise (HTTPException 400 detail)))
      /\ (forall override, opt_truthy (current_user ≫= github_token) = false ->
            headers_get request "X-GitHub-Token" = Some override -> override <> "" ->
            get_github_token settings environ seed request current_user
            = (Ok (Some override), environ))
      /\ (opt_truthy (current_user ≫= github_token) = false ->
          opt_truthy (headers_get request "X-GitHub-Token") = false ->
          get_github_token settings environ seed request current_user
          = (Ok None, environ))).
Proof.
  split.
  - intros d Hmode Hauth Hdef Hd. unfold get_github_token.
    rewrite Hmode, Hauth, Hdef. cbn [opt_truthy]. unfold str_truthy.
    apply String.eqb_neq in Hd. rewrite Hd. reflexivity.
  - intros Hnot.
    assert (Hcond : String.eqb (app_mode settings) SINGLE_USER
                    && negb (enable_su_auth settings)
                    && opt_truthy (default_github_token settings) = false).
    { destruct Hnot as [Hm | [Ha | Hd]].
      - apply String.eqb_neq in Hm. rewrite Hm. reflexivity.
      - rewrite Ha. cbn [negb]. rewrite andb_false_r. reflexivity.
      - rewrite Hd. apply andb_false_r. }
    unfold get_github_token. rewrite Hcond.
    split; [| split].
    + intros user stored -> Hstored Hne. cbn [mbind option_bind].
      rewrite Hstored. cbn [opt_truthy]. unfold str_truthy.
      apply String.eqb_neq in Hne. rewrite Hne. cbn [negb fst].
      change (default "" (Some stored)) with stored.
      destruct (decrypt_token_total environ seed stored) as [plain Hplain].
      exists plain. rewrite Hplain.
      split; [reflexivity |]. split; [reflexivity |].
      intros ->. eexists. reflexivity.
    + intros override Hno Hhdr Hne. rewrite Hno, Hhdr.
      cbn [opt_truthy]. unfold str_truthy.
      apply String.eqb_neq in Hne. rewrite Hne. reflexivity.
    + intros Hno Hhdr. rewrite Hno, Hhdr. reflexivity.
Qed.

(** The four sources in turn, on the deployments of [Ref]. *)
Lemma get_github_token_order_witness :
  let bob :=
    {| id := Some 2; username := "bob"; email := None; github_id := Some 22;
       github_username := Some "bob"; github_avatar_url := None;
       github_token := Some "not-a-ciphertext"; is_admin := false; is_active := true;
       organization_id := None; created_at := Some 0; updated_at := None;
       last_login := None |} in
  let request := {| headers := [("x-github-token", "hdr-token")]; cookies := ∅ |} in
  @get_github_token Ref.fernet (Ref.settings_of Ref.env_no_auth) ∅ "seed" request (Some bob)
  = (Ok (Some "tok-A"), ∅)
  /\ (exists plain,
        (@get_github_token Ref.fernet (Ref.settings_of Ref.env_mu) ∅ "seed" request
           (Some bob)).1 = Ok (Some plain))
  /\ @get_github_token Ref.fernet (Ref.settings_of Ref.env_mu) ∅ "seed" request None
     = (Ok (Some "hdr-token"), ∅).
Proof.
  cbv zeta.
  set (bob := Build_User _ _ _ _ _ _ _ _ _ _ _ _ _).
  set (request := {| headers := _; cookies := ∅ |}).
  split; [| split].
  - destruct (@get_github_token_order Ref.fernet (Ref.settings_of Ref.env_no_auth) ∅ "seed"
                request (Some bob)) as (Hdefault & _).
    apply Hdefault; [reflexivity | reflexivity | reflexivity | discriminate].
  - destruct (@get_github_token_order Ref.fernet (Ref.settings_of Ref.env_mu) ∅ "seed"
                request (Some bob)) as (_ & Hrest).
    destruct Hrest as (Hstored & _ & _); [left; vm_compute; discriminate |].
    destruct (Hstored bob "not-a-ciphertext") as (plain & _ & Hres & _);
      [reflexivity | reflexivity | discriminate |].
    exists plain. exact Hres.
  - destruct (@get_github_token_order Ref.fernet (Ref.settings_of Ref.env_mu) ∅ "seed"
                request None) as (_ & Hrest).
    destruct Hrest as (_ & Hover & _); [left; vm_compute; discriminate |].
    apply Hover; [reflexivity | reflexivity | discriminate].
Defined.

(** C2 fails as stated: a stored token that does not decrypt, next to a
    header override, resolves to the empty string and not to the header, as
    the specification's order would have it. *)
Lemma get_github_token_counterexample :
  let settings := Ref.settings_of Ref.env_mu in
  let bob :=
    {| id := Some 2; username := "bob"; email := None; github_id := Some 22;
       github_username := Some "bob"; github_avatar_url := None;
       github_token := Some "not-a-ciphertext"; is_admin := false; is_active := true;
       organization_id := None; created_at := Some 0; updated_at := None;
       last_login := None |} in
  let request := {| headers := [("x-github-token", "hdr-token")]; cookies := ∅ |} in
  (@get_github_token Ref.fernet settings ∅ "seed" request (Some bob)).1 = Ok (Some "")
  /\ @Claimed.resolve_github_token Ref.fernet settings ∅ "seed" request (Some bob)
     = Some "hdr-token".
Proof.
  cbv zeta. split; vm_compute; reflexivity.
Qed.

(** ** The token codec *)








(** [decode_access_token] turns every [JWTError] into [ValueError]. *)
Lemma decode_access_token_invalid `{Jose} (settings : Settings) (token : string)
    (now : Z) (msg : string) :
  jwt_decode now token (secret_key settings) [algorithm settings] = Raise (JWTError msg) ->
  decode_access_token settings token now = Raise (ValueError "Invalid token").
Proof.
  intros Hdec. unfold decode_access_token. rewrite Hdec. reflexivity.
Qed.




(** ** base64 *)

(** Every 8-bit character is in [all_ascii], so a property of characters can
    be checked by running it on the whole list. *)
Lemma all_ascii_complete (a : ascii) : In a all_ascii.
Proof.
  assert (Hex : existsb (Ascii.eqb a) all_ascii = true).
  { destruct a as [[] [] [] [] [] [] [] []]; vm_compute; reflexivity. }
  apply existsb_exists in Hex. destruct Hex as (x & Hin & Heq).
  apply Ascii.eqb_eq in Heq. subst x. exact Hin.
Qed.

Lemma ascii_forall (P : ascii -> bool) :
  forallb P all_ascii = true -> forall a, P a = true.
Proof.
  intros Hall a. eapply forallb_forall in Hall; [exact Hall |].
  apply all_ascii_complete.
Qed.

Lemma ascii_forall2 (P : ascii -> ascii -> bool) :
  forallb (fun a => forallb (P a) all_ascii) all_ascii = true ->
  forall a b, P a b = true.
Proof.
  intros Hall a b.
  apply (ascii_forall (P a)). apply (ascii_forall _ Hall).
Qed.

(** Induction over a byte string three bytes at a time. *)
Lemma string_ind3 (P : string -> Prop) :
  P EmptyString ->
  (forall a, P (String a EmptyString)) ->
  (forall a b, P (String a (String b EmptyString))) ->
  (forall a b c rest, P rest -> P (String a (String b (String c rest)))) ->
  forall s, P s.
Proof.
  intros H0 H1 H2 H3 s.
  assert (Hall : P s /\ (forall a, P (String a s)) /\ (forall a b, P (String a (String b s)))).
  { induction s as [| c s (IHs & IH1 & IH2)].
    - repeat split; [exact H0 | exact H1 | exact H2].
    - split; [apply IH1 |]. split; [intros a; apply IH2 |].
      intros a b. apply H3. exact IHs. }
  apply Hall.
Qed.

(** One step of the decoding loop on a character of the alphabet, by
    position in the quad. *)
Lemma a2b_loop_data (ch : ascii) (s : string) (quad_pos leftchar pads this_ch : N) :
  Ascii.eqb ch BASE64_PAD = false ->
  table_a2b ch = Some this_ch ->
  a2b_loop (String ch s) quad_pos leftchar pads
  = if (quad_pos =? 0)%N then a2b_loop s 1 this_ch 0
    else if (quad_pos =? 1)%N then
      String (byte_of (N.lor (N.shiftl leftchar 2) (N.shiftr this_ch 4)))
        <$> a2b_loop s 2 (N.land this_ch 15) 0
    else if (quad_pos =? 2)%N then
      String (byte_of (N.lor (N.shiftl leftchar 4) (N.shiftr this_ch 2)))
        <$> a2b_loop s 3 (N.land this_ch 3) 0
    else
      String (byte_of (N.lor (N.shiftl leftchar 6) this_ch)) <$> a2b_loop s 0 0 0.
Proof.
  intros Hpad Htab. cbn [a2b_loop]. rewrite Hpad, Htab. reflexivity.
Qed.

Lemma a2b_checked (o : option N) (t : N) :
  from_option (N.eqb t) false o = true -> o = Some t.
Proof.
  destruct o as [v |]; cbn [from_option]; [| discriminate].
  intros Heq. apply N.eqb_eq in Heq. subst v. reflexivity.
Qed.

(** The first character of a quad: the high six bits of the first byte. *)
Lemma quad_first (a : ascii) :
  let x := N_of_ascii a in
  Ascii.eqb (table_b2a (N.shiftr x 2)) BASE64_PAD = false
  /\ table_a2b (table_b2a (N.shiftr x 2)) = Some (N.shiftr x 2).
Proof.
  pose proof (ascii_forall
    (fun a => let x := N_of_ascii a in
       negb (Ascii.eqb (table_b2a (N.shiftr x 2)) BASE64_PAD)
       && from_option (N.eqb (N.shiftr x 2)) false (table_a2b (table_b2a (N.shiftr x 2))))
    ltac:(vm_compute; reflexivity) a) as Hchk.
  cbv zeta in *. apply andb_prop in Hchk as [Hp Ht].
  apply negb_true_iff in Hp. apply a2b_checked in Ht. split; assumption.
Qed.

(** The second character: two bits of the first byte, four of the second;
    with the first it gives the first byte back. *)
Lemma quad_second (a b : ascii) :
  let x := N_of_ascii a in
  let y := N_of_ascii b in
  let t := N.lor (N.shiftl (N.land x 3) 4) (N.shiftr y 4) in
  Ascii.eqb (table_b2a t) BASE64_PAD = false
  /\ table_a2b (table_b2a t) = Some t
  /\ byte_of (N.lor (N.shiftl (N.shiftr x 2) 2) (N.shiftr t 4)) = a
  /\ N.land t 15 = N.shiftr y 4.
Proof.
  pose proof (ascii_forall2
    (fun a b =>
       let x := N_of_ascii a in
       let y := N_of_ascii b in
       let t := N.lor (N.shiftl (N.land x 3) 4) (N.shiftr y 4) in
       negb (Ascii.eqb (table_b2a t) BASE64_PAD)
       && from_option (N.eqb t) false (table_a2b (table_b2a t))
       && Ascii.eqb (byte_of (N.lor (N.shiftl (N.shiftr x 2) 2) (N.shiftr t 4))) a
       && N.eqb (N.land t 15) (N.shiftr y 4))
    ltac:(vm_compute; reflexivity) a b) as Hchk.
  cbv zeta in *.
  apply andb_prop in Hchk as [Hchk H4]. apply andb_prop in Hchk as [Hchk H3].
  apply andb_prop in Hchk as [H1 H2].
  apply negb_true_iff in H1. apply a2b_checked in H2.
  apply Ascii.eqb_eq in H3. apply N.eqb_eq in H4.
  repeat split; assumption.
Qed.

(** The third character: four bits of the second byte, two of the third. *)
Lemma quad_third (b c : ascii) :
  let y := N_of_ascii b in
  let z := N_of_ascii c in
  let t := N.lor (N.shiftl (N.land y 15) 2) (N.shiftr z 6) in
  Ascii.eqb (table_b2a t) BASE64_PAD = false
  /\ table_a2b (table_b2a t) = Some t
  /\ byte_of (N.lor (N.shiftl (N.shiftr y 4) 4) (N.shiftr t 2)) = b
  /\ N.land t 3 = N.shiftr z 6.
Proof.
  pose proof (ascii_forall2
    (fun b c =>
       let y := N_of_ascii b in
       let z := N_of_ascii c in
       let t := N.lor (N.shiftl (N.land y 15) 2) (N.shiftr z 6) in
       negb (Ascii.eqb (table_b2a t) BASE64_PAD)
       && from_option (N.eqb t) false (table_a2b (table_b2a t))
       && Ascii.eqb (byte_of (N.lor (N.shiftl (N.shiftr y 4) 4) (N.shiftr t 2))) b
       && N.eqb (N.land t 3) (N.shiftr z 6))
    ltac:(vm_compute; reflexivity) b c) as Hchk.
  cbv zeta in *.
  apply andb_prop in Hchk as [Hchk H4]. apply andb_prop in Hchk as [Hchk H3].
  apply andb_prop in Hchk as [H1 H2].
  apply negb_true_iff in H1. apply a2b_checked in H2.
  apply Ascii.eqb_eq in H3. apply N.eqb_eq in H4.
  repeat split; assumption.
Qed.

(** The fourth character: the low six bits of the third byte. *)
Lemma quad_fourth (c : ascii) :
  let z := N_of_ascii c in
  Ascii.eqb (table_b2a (N.land z 63)) BASE64_PAD = false
  /\ table_a2b (table_b2a (N.land z 63)) = Some (N.land z 63)
  /\ byte_of (N.lor (N.shiftl (N.shiftr z 6) 6) (N.land z 63)) = c.
Proof.
  pose proof (ascii_forall
    (fun c => let z := N_of_ascii c in
       negb (Ascii.eqb (table_b2a (N.land z 63)) BASE64_PAD)
       && from_option (N.eqb (N.land z 63)) false (table_a2b (table_b2a (N.land z 63)))
       && Ascii.eqb (byte_of (N.lor (N.shiftl (N.shiftr z 6) 6) (N.land z 63))) c)
    ltac:(vm_compute; reflexivity) c) as Hchk.
  cbv zeta in *.
  apply andb_prop in Hchk as [Hchk H3]. apply andb_prop in Hchk as [H1 H2].
  apply negb_true_iff in H1. apply a2b_checked in H2.
  apply Ascii.eqb_eq in H3.
  repeat split; assumption.
Qed.

(** The second character of a final quad holding one byte. *)
Lemma quad_second_last (a : ascii) :
  let x := N_of_ascii a in
  let t := N.shiftl (N.land x 3) 4 in
  Ascii.eqb (table_b2a t) BASE64_PAD = false
  /\ table_a2b (table_b2a t) = Some t
  /\ byte_of (N.lor (N.shiftl (N.shiftr x 2) 2) (N.shiftr t 4)) = a.
Proof.
  pose proof (ascii_forall
    (fun a =>
       let x := N_of_ascii a in
       let t := N.shiftl (N.land x 3) 4 in
       negb (Ascii.eqb (table_b2a t) BASE64_PAD)
       && from_option (N.eqb t) false (table_a2b (table_b2a t))
       && Ascii.eqb (byte_of (N.lor (N.shiftl (N.shiftr x 2) 2) (N.shiftr t 4))) a)
    ltac:(vm_compute; reflexivity) a) as Hchk.
  cbv zeta in *.
  apply andb_prop in Hchk as [Hchk H3]. apply andb_prop in Hchk as [H1 H2].
  apply negb_true_iff in H1. apply a2b_checked in H2. apply Ascii.eqb_eq in H3.
  repeat split; assumption.
Qed.

(** The third character of a final quad holding two bytes. *)
Lemma quad_third_last (b : ascii) :
  let y := N_of_ascii b in
  let t := N.shiftl (N.land y 15) 2 in
  Ascii.eqb (table_b2a t) BASE64_PAD = false
  /\ table_a2b (table_b2a t) = Some t
  /\ byte_of (N.lor (N.shiftl (N.shiftr y 4) 4) (N.shiftr t 2)) = b.
Proof.
  pose proof (ascii_forall
    (fun b =>
       let y := N_of_ascii b in
       let t := N.shiftl (N.land y 15) 2 in
       negb (Ascii.eqb (table_b2a t) BASE64_PAD)
       && from_option (N.eqb t) false (table_a2b (table_b2a t))
       && Ascii.eqb (byte_of (N.lor (N.shiftl (N.shiftr y 4) 4) (N.shiftr t 2))) b)
    ltac:(vm_compute; reflexivity) b) as Hchk.
  cbv zeta in *.
  apply andb_prop in Hchk as [Hchk H3]. apply andb_prop in Hchk as [H1 H2].
  apply negb_true_iff in H1. apply a2b_checked in H2. apply Ascii.eqb_eq in H3.
  repeat split; assumption.
Qed.

(** [b64decode] undoes [b64encode], from any state at the start of a quad. *)
Lemma a2b_b2a (data : string) :
  forall leftchar pads, a2b_loop (b2a_base64 data) 0 leftchar pads = Ok data.
Proof.
  induction data as [| a | a b | a b c rest IH] using string_ind3; intros leftchar pads.
  - reflexivity.
  - cbn [b2a_base64].
    destruct (quad_first a) as (Hp1 & Ht1).
    destruct (quad_second_last a) as (Hp2 & Ht2 & Ha).
    cbv zeta in *.
    rewrite (a2b_loop_data _ _ _ _ _ _ Hp1 Ht1). cbn [N.eqb].
    rewrite (a2b_loop_data _ _ _ _ _ _ Hp2 Ht2). cbn [N.eqb Pos.eqb].
    rewrite Ha. reflexivity.
  - cbn [b2a_base64].
    destruct (quad_first a) as (Hp1 & Ht1).
    destruct (quad_second a b) as (Hp2 & Ht2 & Ha & Hl2).
    destruct (quad_third_last b) as (Hp3 & Ht3 & Hb).
    cbv zeta in *.
    rewrite (a2b_loop_data _ _ _ _ _ _ Hp1 Ht1). cbn [N.eqb].
    rewrite (a2b_loop_data _ _ _ _ _ _ Hp2 Ht2). cbn [N.eqb Pos.eqb].
    rewrite Ha, Hl2.
    rewrite (a2b_loop_data _ _ _ _ _ _ Hp3 Ht3). cbn [N.eqb Pos.eqb].
    rewrite Hb. reflexivity.
  - cbn [b2a_base64].
    destruct (quad_first a) as (Hp1 & Ht1).
    destruct (quad_second a b) as (Hp2 & Ht2 & Ha & Hl2).
    destruct (quad_third b c) as (Hp3 & Ht3 & Hb & Hl3).
    destruct (quad_fourth c) as (Hp4 & Ht4 & Hc).
    cbv zeta in *.
    rewrite (a2b_loop_data _ _ _ _ _ _ Hp1 Ht1). cbn [N.eqb].
    rewrite (a2b_loop_data _ _ _ _ _ _ Hp2 Ht2). cbn [N.eqb Pos.eqb].
    rewrite Ha, Hl2.
    rewrite (a2b_loop_data _ _ _ _ _ _ Hp3 Ht3). cbn [N.eqb Pos.eqb].
    rewrite Hb, Hl3.
    rewrite (a2b_loop_data _ _ _ _ _ _ Hp4 Ht4). cbn [N.eqb Pos.eqb].
    rewrite Hc, IH. reflexivity.
Qed.

(** Base64 round trip: [base64.b64decode(base64.b64encode(data)) == data]. *)
Lemma b64decode_b64encode (data : string) : b64decode (b64encode data) = Ok data.
Proof. apply a2b_b2a. Qed.

Lemma b64encode_nonempty (data : string) : data <> "" -> b64encode data <> "".
Proof.
  intros Hne. unfold b64encode.
  destruct data as [| a [| b [| c rest]]]; [contradiction | | |];
    cbn [b2a_base64]; discriminate.
Qed.

(** The output of [b64encode] is ASCII, hence a well-formed [str]. *)
Lemma table_b2a_ascii (n : N) : (N_of_ascii (table_b2a n) <? 128)%N = true.
Proof.
  assert (Hall : forallb (fun c => (N_of_ascii c <? 128)%N) (BASE64_PAD :: b64_alphabet) = true)
    by (vm_compute; reflexivity).
  unfold table_b2a.
  eapply forallb_forall in Hall; [exact Hall |].
  destruct (nth_in_or_default (N.to_nat n) b64_alphabet BASE64_PAD) as [Hin | ->].
  - right. exact Hin.
  - left. reflexivity.
Qed.

Lemma utf8_valid_ascii (a : ascii) (s : string) :
  (N_of_ascii a <? 128)%N = true -> utf8_valid (String a s) = utf8_valid s.
Proof. intros Ha. cbn [utf8_valid]. cbv zeta. rewrite Ha. reflexivity. Qed.

Lemma b2a_base64_utf8 (data : string) : utf8_valid (b2a_base64 data) = true.
Proof.
  induction data as [| a | a b | a b c rest IH] using string_ind3;
    cbn [b2a_base64]; cbv zeta;
    rewrite ?utf8_valid_ascii by (apply table_b2a_ascii || reflexivity);
    [reflexivity | reflexivity | reflexivity | exact IH].
Qed.

Lemma bytes_decode_b64encode (data : string) :
  bytes_decode (b64encode data) = Ok (b64encode data).
Proof. unfold bytes_decode, b64encode. rewrite b2a_base64_utf8. reflexivity. Qed.

(** ** The credential vault *)

Lemma strip_prefix_app (p s : string) : Ref.strip_prefix p (p +:+ s) = Some s.
Proof.
  induction p as [| a p IH]; [reflexivity |].
  simpl. rewrite Ascii.eqb_refl. exact IH.
Qed.

(** The reference implementation meets the contract of Fernet. *)
Lemma ref_fernet_spec : FernetSpec Ref.fernet.
Proof.
  split.
  - intros seed. reflexivity.
  - intros seed. split; [vm_compute; reflexivity | discriminate].
  - intros key nonce msg. discriminate.
  - intros key nonce msg _.
    cbn [Fernet_decrypt Fernet_encrypt Ref.fernet].
    cbv beta iota delta [Ref.decrypt Ref.encrypt].
    rewrite Ascii.eqb_refl, strip_prefix_app. reflexivity.
Qed.

(** After [get_encryption_key] the environment holds a usable key, and a
    later call under an environment with that key returns it again. *)
Lemma get_encryption_key_stable `{F : Fernet} `{!FernetSpec F}
    (environ : gmap string string) (seed : string) :
  (forall k, environ !! "ENCRYPTION_KEY" = Some k -> k <> "" -> Fernet_key_ok k = true) ->
  exists key environ',
    get_encryption_key environ seed = (Ok key, environ')
    /\ Fernet_key_ok key = true
    /\ environ' !! "ENCRYPTION_KEY" = Some key
    /\ key <> "".
Proof.
  intros Hkey. unfold get_encryption_key.
  destruct (environ !! "ENCRYPTION_KEY") as [k |] eqn:Hk; cbn [opt_truthy].
  - unfold str_truthy. destruct (String.eqb_spec k "") as [-> | Hne]; cbn [negb].
    + destruct (generate_key_text seed) as [Hutf Hgen].
      unfold bytes_decode. rewrite Hutf.
      do 2 eexists. split; [reflexivity |].
      split; [apply generate_key_ok |].
      split; [apply lookup_insert_eq | exact Hgen].
    + do 2 eexists. split; [reflexivity |].
      split; [apply Hkey; [reflexivity | exact Hne] |].
      split; [exact Hk | exact Hne].
  - cbn [negb].
    destruct (generate_key_text seed) as [Hutf Hgen].
    unfold bytes_decode. rewrite Hutf.
    do 2 eexists. split; [reflexivity |].
    split; [apply generate_key_ok |].
    split; [apply lookup_insert_eq | exact Hgen].
Qed.

Lemma get_encryption_key_present `{Fernet} (environ : gmap string string)
    (seed key : string) :
  environ !! "ENCRYPTION_KEY" = Some key -> key <> "" ->
  get_encryption_key environ seed = (Ok key, environ).
Proof.
  intros Hk Hne. unfold get_encryption_key. rewrite Hk.
  cbn [opt_truthy]. unfold str_truthy.
  apply String.eqb_neq in Hne. rewrite Hne. reflexivity.
Qed.

(** A non-empty result of [decrypt_token] is a genuine decryption: the
    stored value is base64 of a token that the cipher opens, under the key in
    use, to well-formed text. *)
Lemma decrypt_token_genuine `{Fernet} (environ : gmap string string)
    (seed token plain : string) :
  (decrypt_token environ seed token).1 = Ok plain ->
  plain <> "" ->
  exists key tok,
    (get_encryption_key environ seed).1 = Ok key
    /\ Fernet_key_ok key = true
    /\ b64decode (str_encode token) = Ok tok
    /\ Fernet_decrypt key tok = Ok plain
    /\ utf8_valid plain = true.
Proof.
  unfold decrypt_token.
  destruct (negb (str_truthy token)); cbn [fst].
  { intros [= <-] Hne. exfalso. apply Hne. reflexivity. }
  unfold try_except, except_Exception.
  destruct (get_encryption_key environ seed).1 as [key | e1]; cbn [mbind result_bind];
    [| intros [= <-] Hne; exfalso; apply Hne; reflexivity].
  unfold Fernet_new.
  destruct (Fernet_key_ok key) eqn:Hok; cbn [mbind result_bind];
    [| intros [= <-] Hne; exfalso; apply Hne; reflexivity].
  destruct (b64decode (str_encode token)) as [tok | e3]; cbn [mbind result_bind];
    [| intros [= <-] Hne; exfalso; apply Hne; reflexivity].
  destruct (Fernet_decrypt key tok) as [msg | e4] eqn:Hdec; cbn [mbind result_bind];
    [| intros [= <-] Hne; exfalso; apply Hne; reflexivity].
  unfold bytes_decode.
  destruct (utf8_valid msg) eqn:Hutf; [| intros [= <-] Hne; exfalso; apply Hne; reflexivity].
  intros [= <-] _.
  exists key, tok. repeat split; assumption.
Qed.

(** C5: under a usable key (none configured, or a well-formed one), every
    non-empty text sealed by [encrypt_token] is opened again by
    [decrypt_token] as long as the environment holds the same key;
    [decrypt_token ""] is [""]; and [decrypt_token] never raises: it returns
    a string for every input, and the string is empty unless the input is a
    valid ciphertext for the key in use. *)
Theorem vault_round_trip `{F : Fernet} `{!FernetSpec F}
    (environ : gmap string string) (seed nonce : string) :
  ((forall k, environ !! "ENCRYPTION_KEY" = Some k -> k <> "" -> Fernet_key_ok k = true) ->
   forall x, x <> "" -> utf8_valid x = true ->
     exists sealed environ',
       encrypt_token environ seed nonce x = (Ok sealed, environ')
       /\ forall environ2 seed2,
            environ2 !! "ENCRYPTION_KEY" = environ' !! "ENCRYPTION_KEY" ->
            decrypt_token environ2 seed2 sealed = (Ok x, environ2))
  /\ decrypt_token environ seed "" = (Ok "", environ)
  /\ (forall token,
        exists plain,
          (decrypt_token environ seed token).1 = Ok plain
          /\ (plain <> "" ->
              exists key tok,
                (get_encryption_key environ seed).1 = Ok key
                /\ Fernet_key_ok key = true
                /\ b64decode (str_encode token) = Ok tok
                /\ Fernet_decrypt key tok = Ok plain
                /\ utf8_valid plain = true)).
Proof.
  split; [| split].
  - intros Hkey x Hx Hutf.
    destruct (get_encryption_key_stable environ seed Hkey)
      as (key & environ' & Hget & Hok & Henv & Hne).
    exists (b64encode (Fernet_encrypt key nonce x)), environ'.
    split.
    + unfold encrypt_token. unfold str_truthy.
      apply String.eqb_neq in Hx. rewrite Hx. cbn [negb].
      rewrite Hget. cbn [fst snd mbind result_bind].
      unfold Fernet_new. rewrite Hok. cbn [mbind result_bind].
      unfold str_encode. rewrite bytes_decode_b64encode. reflexivity.
    + intros environ2 seed2 Hsame.
      unfold decrypt_token. unfold str_truthy.
      pose proof (b64encode_nonempty _ (encrypt_nonempty key nonce x)) as Hsealed.
      apply String.eqb_neq in Hsealed. rewrite Hsealed. cbn [negb].
      rewrite (get_encryption_key_present environ2 seed2 key)
        by first [rewrite Hsame; exact Henv | exact Hne].
      cbn [fst snd mbind result_bind].
      unfold Fernet_new. rewrite Hok. cbn [mbind result_bind].
      unfold str_encode. rewrite b64decode_b64encode. cbn [mbind result_bind].
      rewrite (decrypt_encrypt key nonce x Hok). cbn [mbind result_bind].
      unfold bytes_decode. rewrite Hutf. reflexivity.
  - reflexivity.
  - intros token.
    destruct (decrypt_token_total environ seed token) as [plain Hplain].
    exists plain. split; [exact Hplain |].
    apply decrypt_token_genuine. exact Hplain.
Qed.

(** Sealing and opening "gho_secret" with the reference cipher, from an
    environment without a key. *)
Lemma vault_round_trip_witness :
  exists sealed environ',
    @encrypt_token Ref.fernet ∅ "seed" "nonce" "gho_secret" = (Ok sealed, environ')
    /\ @decrypt_token Ref.fernet environ' "other" sealed = (Ok "gho_secret", environ').
Proof.
  destruct (@vault_round_trip Ref.fernet ref_fernet_spec ∅ "seed" "nonce") as (Hrt & _ & _).
  destruct (Hrt ltac:(intros k Hk; rewrite lookup_empty in Hk; discriminate)
              "gho_secret" ltac:(discriminate) ltac:(reflexivity))
    as (sealed & environ' & Henc & Hdec).
  exists sealed, environ'. split; [exact Henc |].
  apply Hdec. reflexivity.
Defined.

(** ** Further properties of the strategies and guards *)

(** The strategy selected for a configuration requires authentication
    exactly when the settings say so. *)
Theorem requires_auth_matrix (settings : Settings) (strategy : AuthStrategy) :
  get_auth_strategy settings = Ok strategy ->
  requires_auth strategy = Config.requires_auth settings.
Proof.
  unfold get_auth_strategy, Config.requires_auth.
  destruct (String.eqb_spec (app_mode settings) SINGLE_USER) as [Hsu | Hsu].
  - rewrite Hsu. cbn [String.eqb orb andb].
    change (String.eqb SINGLE_USER MULTI_USER) with false.
    change (String.eqb SINGLE_USER SINGLE_USER) with true.
    destruct (enable_su_auth settings); intros [= <-]; reflexivity.
  - destruct (String.eqb (app_mode settings) MULTI_USER); [| discriminate].
    intros [= <-]. reflexivity.
Qed.

Lemma requires_auth_matrix_witness :
  requires_auth NoAuthStrategy = Config.requires_auth (Ref.settings_of Ref.env_no_auth)
  /\ requires_auth GitHubSUStrategy = Config.requires_auth (Ref.settings_of Ref.env_su)
  /\ requires_auth GitHubMUStrategy = Config.requires_auth (Ref.settings_of Ref.env_mu).
Proof.
  split; [| split]; apply requires_auth_matrix; reflexivity.
Defined.

(** A token the library rejects is "no user" for both OAuth strategies, and
    [require_auth] then answers 401; nothing is asked of the session. *)
Theorem rejected_token_is_unauthorized `{Jose} (settings : Settings) (request : Request)
    (db : Session) (now : Z) (token msg : string) (strategy : AuthStrategy) :
  requires_auth strategy = true ->
  session_token request = Ok (Some token) ->
  token <> "" ->
  jwt_decode now token (secret_key settings) [algorithm settings] = Raise (JWTError msg) ->
  authenticate strategy settings request db now = (Ok None, db)
  /\ require_auth settings strategy request db now
     = (Raise (authentication_required (get_login_url strategy settings)), db).
Proof.
  intros Hreq Htok Hne Hdec.
  pose proof (decode_access_token_invalid settings token now msg Hdec) as Hinv.
  apply String.eqb_neq in Hne.
  assert (Hauth : authenticate strategy settings request db now = (Ok None, db)).
  { destruct strategy; [discriminate | |]; cbn [authenticate].
    - unfold GitHubSU_authenticate. rewrite Htok. cbn [opt_truthy]. unfold str_truthy.
      rewrite Hne. cbn [negb]. change (default "" (Some token)) with token.
      unfold GitHubSU_try. rewrite Hinv. reflexivity.
    - unfold GitHubMU_authenticate. rewrite Htok. cbn [opt_truthy]. unfold str_truthy.
      rewrite Hne. cbn [negb]. change (default "" (Some token)) with token.
      unfold GitHubMU_try. rewrite Hinv. reflexivity. }
  split; [exact Hauth |].
  rewrite require_auth_oauth by exact Hreq.
  unfold require_auth_tail. rewrite Hauth. reflexivity.
Qed.

(** A token that expired two seconds ago, in the single-user deployment. *)
Lemma rejected_token_is_unauthorized_witness :
  let settings := Ref.settings_of Ref.env_su in
  let token :=
    match @create_access_token Ref.jose settings (<["sub" := PStr "alice"]> ∅)
            (Some 5000000) 0 with
    | Ok t => t
    | Raise _ => ""
    end in
  let request := {| headers := [("Authorization", "Bearer " +:+ token)]; cookies := ∅ |} in
  let db := {| users := []; calls := [] |} in
  @authenticate Ref.jose GitHubSUStrategy settings request db 7000000 = (Ok None, db).
Proof.
  cbv zeta.
  apply (@rejected_token_is_unauthorized Ref.jose (Ref.settings_of Ref.env_su) _
           {| users := []; calls := [] |} 7000000
           (match @create_access_token Ref.jose (Ref.settings_of Ref.env_su)
                    (<["sub" := PStr "alice"]> ∅) (Some 5000000) 0 with
            | Ok t => t
            | Raise _ => ""
            end) "Signature has expired." GitHubSUStrategy).
  - reflexivity.
  - vm_compute. reflexivity.
  - vm_compute. discriminate.
  - vm_compute. reflexivity.
Defined.

(** [require_admin] lets administrators through and answers 403 to others. *)
Theorem require_admin_checks_flag (current_user : User) :
  require_admin current_user
  = if is_admin current_user then Ok current_user
    else Raise (HTTPException 403 "Admin privileges required").
Proof. unfold require_admin. destruct (is_admin current_user); reflexivity. Qed.

(** A stored row is found again by its GitHub name when no earlier row has
    that name. *)
Lemma find_appended (rows : list User) (row : User) (name : string) :
  find (fun u => bool_decide (github_username u = Some name)) rows = None ->
  github_username row = Some name ->
  find (fun u => bool_decide (github_username u = Some name)) (rows ++ [row]) = Some row.
Proof.
  intros Hnone Hrow. induction rows as [| r rows IH]; cbn [find app] in *.
  - rewrite bool_decide_eq_true_2 by exact Hrow. reflexivity.
  - destruct (bool_decide (github_username r = Some name)); [discriminate |].
    apply IH. exact Hnone.
Qed.



(** In single-user mode with authentication, the first request of the
    allowed subject stores one row for it, an active administrator. *)
Theorem su_first_login_provisions `{Jose} (settings : Settings) (request : Request)
    (db : Session) (now : Z) (token : string) (payload : gmap string pyval)
    (name : string) :
  session_token request = Ok (Some token) ->
  token <> "" ->
  decode_access_token settings token now = Ok payload ->
  payload !! "sub" = Some (PStr name) ->
  name <> "" ->
  su_github_username settings = Some name ->
  find (fun u => bool_decide (github_username u = Some name)) (users db) = None ->
  violates_unique (users db) (User_new name (Some name) None true true) = false ->
  exists user db',
    GitHubSU_authenticate settings request db now = (Ok (Some user), db')
    /\ users db' = users db ++ [user]
    /\ github_username user = Some name
    /\ is_admin user = true
    /\ is_active user = true.
Proof.
  intros Htok Hne Hdec Hsub Hname Hallowed Hnone Huniq.
  apply String.eqb_neq in Hne.
  do 2 eexists. split.
  - unfold GitHubSU_authenticate. rewrite Htok. cbn [opt_truthy]. unfold str_truthy.
    rewrite Hne. cbn [negb]. change (default "" (Some token)) with token.
    unfold GitHubSU_try. rewrite Hdec.
    rewrite (dict_get_Some _ _ _ Hsub). cbn [truthy].
    apply String.eqb_neq in Hname. rewrite Hname. cbn [negb].
    rewrite Hallowed. cbn [opt_pyval].
    rewrite bool_decide_eq_true_2 by reflexivity. cbn [negb sql_text].
    unfold query_by_github_username. cbn [fst snd]. rewrite Hnone.
    unfold add_commit_refresh. cbn [users log]. rewrite Huniq.
    cbn [fst snd fmap result_fmap try_except]. reflexivity.
  - cbn [users]. repeat split.
Qed.

(** "alice", the allowed user, logging in for the first time. *)
Lemma su_first_login_provisions_witness :
  let settings := Ref.settings_of Ref.env_su in
  let token :=
    match @create_access_token Ref.jose settings (<["sub" := PStr "alice"]> ∅) None 0 with
    | Ok t => t
    | Raise _ => ""
    end in
  let request := {| headers := []; cookies := <["access_token" := token]> ∅ |} in
  exists user db',
    @GitHubSU_authenticate Ref.jose settings request {| users := []; calls := [] |} 5
    = (Ok (Some user), db')
    /\ users db' = [user] /\ is_admin user = true.
Proof.
  cbv zeta.
  set (settings := Ref.settings_of Ref.env_su).
  set (token := match @create_access_token Ref.jose settings (<["sub" := PStr "alice"]> ∅) None 0 with
                | Ok t => t
                | Raise _ => ""
                end).
  set (request := {| headers := []; cookies := _ |}).
  destruct (@su_first_login_provisions Ref.jose settings request
              {| users := []; calls := [] |} 5 token
              (<["exp" := PInt 1800]> (<["sub" := PStr "alice"]> ∅)) "alice")
    as (user & db' & Hfirst & Husers & _ & Hadmin & _).
  - vm_compute. reflexivity.
  - vm_compute. discriminate.
  - vm_compute. reflexivity.
  - reflexivity.
  - discriminate.
  - reflexivity.
  - reflexivity.
  - reflexivity.
  - exists user, db'. repeat split; assumption.
Defined.

(** ** Settings validation in multi-user mode *)

(** In multi-user mode the mode is in [info.data] when the OAuth fields are
    validated. *)
Lemma app_mode_validated_first (env : gmap string string) (n : nat) :
  env !! "app_mode" = Some MULTI_USER ->
  (foldl (validate_field env) (∅, []) (take (S n) fields)).1 !! "app_mode"
  = Some (PStr MULTI_USER)
  \/ In "app_mode" (map fname (take n (drop 1 fields))).
Proof.
  intros Hmode.
  destruct (in_dec string_dec "app_mode" (map fname (take n (drop 1 fields))))
    as [Hin | Hnot]; [right; exact Hin | left].
  change (take (S n) fields) with (hd (Build_field_spec "" parse_str PNone []) fields
                                   :: take n (drop 1 fields)).
  cbn [foldl]. rewrite validate_fields_other.
  - unfold validate_field. cbn [hd fields fname fparse fdefault fvalidators].
    rewrite Hmode. cbn. apply lookup_insert_eq.
  - intros Hin. apply Hnot. apply list_elem_of_In. exact Hin.
Qed.

(** An OAuth field that is unset or empty fails in multi-user mode. *)
Lemma oauth_field_fails (env : gmap string string) (st : gmap string pyval * list string)
    (name : string) :
  st.1 !! "app_mode" = Some (PStr MULTI_USER) ->
  opt_truthy (env !! name) = false ->
  validate_field env st
    {| fname := name; fparse := parse_str; fdefault := PNone;
       fvalidators := [validate_github_oauth] |}
  = (st.1, (st.2 ++ [name])%list).
Proof.
  intros Hmode Hfalsy.
  assert (Hne : st.1 ≠ ∅).
  { intros Hempty. rewrite Hempty, lookup_empty in Hmode. discriminate. }
  assert (Hfail : forall v, truthy v = false ->
            validate_github_oauth v st.1
            = Raise (ValueError
                "GitHub OAuth credentials required for mode or when SU auth is enabled")).
  { intros v Hv. unfold validate_github_oauth.
    rewrite bool_decide_eq_true_2 by exact Hne.
    rewrite (dict_get_Some _ _ _ Hmode).
    rewrite bool_decide_eq_true_2 by reflexivity. cbn [orb].
    rewrite Hv. reflexivity. }
  unfold validate_field. cbn [fname fparse fdefault fvalidators].
  destruct (env !! name) as [raw |]; cbn [opt_truthy] in Hfalsy.
  - unfold parse_str. cbn [mbind result_bind run_validators].
    rewrite Hfail; [reflexivity |].
    cbn [truthy]. exact Hfalsy.
  - cbn [mbind result_bind run_validators].
    rewrite Hfail; reflexivity.
Qed.

(** In multi-user mode, [Settings()] raises when the OAuth client id or the
    client secret is unset or empty. *)
Theorem mu_requires_oauth (env : gmap string string) :
  env !! "app_mode" = Some MULTI_USER ->
  opt_truthy (env !! "github_client_id") = false
  \/ opt_truthy (env !! "github_client_secret") = false ->
  exists errs, Settings_new env = Raise (ValidationError errs).
Proof.
  intros Hmode Hmissing.
  assert (Herr : (foldl (validate_field env) (∅, []) fields).2 <> []).
  { destruct Hmissing as [Hid | Hsecret].
    - change fields with (take 7 fields ++ drop 7 fields)%list.
      rewrite foldl_app.
      change (drop 7 fields) with
        ({| fname := "github_client_id"; fparse := parse_str; fdefault := PNone;
            fvalidators := [validate_github_oauth] |} :: drop 8 fields).
      cbn [foldl]. apply validate_fields_errors.
      rewrite oauth_field_fails; [| | exact Hid].
      + cbn [snd]. intros Hnil. apply app_eq_nil in Hnil as [_ Hnil]. discriminate.
      + destruct (app_mode_validated_first env 6 Hmode) as [Hok | Hin]; [exact Hok |].
        cbn in Hin. decompose [or] Hin; try discriminate; contradiction.
    - change fields with (take 8 fields ++ drop 8 fields)%list.
      rewrite foldl_app.
      change (drop 8 fields) with
        ({| fname := "github_client_secret"; fparse := parse_str; fdefault := PNone;
            fvalidators := [validate_github_oauth] |} :: drop 9 fields).
      cbn [foldl]. apply validate_fields_errors.
      rewrite oauth_field_fails; [| | exact Hsecret].
      + cbn [snd]. intros Hnil. apply app_eq_nil in Hnil as [_ Hnil]. discriminate.
      + destruct (app_mode_validated_first env 7 Hmode) as [Hok | Hin]; [exact Hok |].
        cbn in Hin. decompose [or] Hin; try discriminate; contradiction. }
  unfold Settings_new.
  destruct (foldl (validate_field env) (∅, []) fields).2 as [| e errs]; [contradiction |].
  eexists. reflexivity.
Qed.

(** Multi-user mode with an administrator and no OAuth credentials. *)
Lemma mu_requires_oauth_witness :
  exists errs,
    Settings_new (<["app_mode" := "multi_user"]>
                  (<["mu_admin_github_username" := "alice"]> ∅))
    = Raise (ValidationError errs).
Proof.
  apply mu_requires_oauth; [reflexivity | left; reflexivity].
Defined.

(** ** User administration: effect, frame and composition *)

Lemma set_flags_other (uid : option Z) (active admin : bool) (now : Z) (r : User) :
  id r <> uid -> set_flags uid active admin now r = r.
Proof.
  intros Hne. unfold set_flags. rewrite bool_decide_eq_false_2 by exact Hne. reflexivity.
Qed.

(** A flag write keeps every column but the two flags and [updated_at]. *)
Lemma set_flags_keeps (uid : option Z) (active admin : bool) (now : Z) (r : User) :
  id (set_flags uid active admin now r) = id r
  /\ username (set_flags uid active admin now r) = username r
  /\ email (set_flags uid active admin now r) = email r
  /\ github_id (set_flags uid active admin now r) = github_id r
  /\ github_username (set_flags uid active admin now r) = github_username r
  /\ github_token (set_flags uid active admin now r) = github_token r
  /\ created_at (set_flags uid active admin now r) = created_at r.
Proof. unfold set_flags. destruct (bool_decide (id r = uid)); repeat split. Qed.

Lemma set_flags_target (uid : option Z) (active admin : bool) (now : Z) (r : User) :
  id r = uid ->
  is_active (set_flags uid active admin now r) = active
  /\ is_admin (set_flags uid active admin now r) = admin
  /\ updated_at (set_flags uid active admin now r) = Some now.
Proof.
  intros Heq. unfold set_flags. rewrite bool_decide_eq_true_2 by exact Heq. repeat split.
Qed.

(** The row found by key has that key. *)
Lemma find_by_id_key (rows : list User) (user_id : Z) (user : User) :
  find (fun u => bool_decide (id u = Some user_id)) rows = Some user ->
  id user = Some user_id /\ In user rows.
Proof.
  intros Hfind. apply find_some in Hfind as [Hin Hid].
  apply bool_decide_eq_true in Hid. split; assumption.
Qed.

(** A lookup by a column that a row transformation keeps commutes with the
    transformation. *)
Lemma find_map_keeps {K : Type} `{EqDecision K} (col : User -> K) (f : User -> User)
    (k : K) (rows : list User) :
  (forall r, col (f r) = col r) ->
  find (fun u => bool_decide (col u = k)) (map f rows)
  = f <$> find (fun u => bool_decide (col u = k)) rows.
Proof.
  intros Hkeep. induction rows as [| r rows IH]; [reflexivity |].
  cbn [map find]. rewrite Hkeep.
  destruct (bool_decide (col r = k)); [reflexivity | exact IH].
Qed.

(** The rows after each of the four flag operations on an existing target
    other than the caller. *)
Lemma flag_operations_rows (user_id : Z) (current_user : User) (db : Session)
    (now : Z) (user : User) :
  id current_user <> Some user_id ->
  find (fun u => bool_decide (id u = Some user_id)) (users db) = Some user ->
  let wrote (r : result string * Session) (active admin : bool) :=
    (exists message, r.1 = Ok message)
    /\ users r.2 = map (set_flags (Some user_id) active admin now) (users db) in
  wrote (UsersApi.deactivate_user user_id current_user db now) false (is_admin user)
  /\ wrote (Users.activate_user user_id current_user db now) true (is_admin user)
  /\ (is_admin user = false ->
      wrote (Users.make_admin user_id current_user db now) (is_active user) true)
  /\ (is_admin user = true ->
      wrote (UsersApi.remove_admin user_id current_user db now) (is_active user) false).
Proof.
  intros Hother Hfind wrote.
  destruct (find_by_id_key _ _ _ Hfind) as [Hid _].
  assert (Husers : forall active admin,
    users (update_commit (query_by_id db user_id).2 user active admin now)
    = map (set_flags (Some user_id) active admin now) (users db)).
  { intros active admin.
    unfold update_commit, query_by_id, log. cbn [users snd]. rewrite Hid. reflexivity. }
  unfold wrote.
  split; [| split; [| split]].
  - unfold UsersApi.deactivate_user.
    rewrite bool_decide_eq_false_2 by exact Hother.
    replace (query_by_id db user_id).1 with (Some user) by (symmetry; exact Hfind).
    cbn [fst snd]. split; [eexists; reflexivity | apply Husers].
  - unfold Users.activate_user.
    replace (query_by_id db user_id).1 with (Some user) by (symmetry; exact Hfind).
    cbn [fst snd]. split; [eexists; reflexivity | apply Husers].
  - intros Hadm. unfold Users.make_admin.
    replace (query_by_id db user_id).1 with (Some user) by (symmetry; exact Hfind).
    rewrite Hadm. cbn [fst snd]. split; [eexists; reflexivity | apply Husers].
  - intros Hadm. unfold UsersApi.remove_admin.
    rewrite bool_decide_eq_false_2 by exact Hother.
    replace (query_by_id db user_id).1 with (Some user) by (symmetry; exact Hfind).
    rewrite Hadm. cbn [negb fst snd]. split; [eexists; reflexivity | apply Husers].
Qed.

(** The four flag operations on an existing target other than the caller:
    the operation succeeds (for [make_admin] and [remove_admin], when the
    flag is not already there), the rows keep their keys and order, every
    row with another key is untouched, and the target's flags are as asked. *)
Theorem flag_operations_effect (user_id : Z) (current_user : User) (db : Session)
    (now : Z) (user : User) :
  id current_user <> Some user_id ->
  find (fun u => bool_decide (id u = Some user_id)) (users db) = Some user ->
  let effect (r : result string * Session) (active admin : bool) :=
    (exists message, r.1 = Ok message)
    /\ users r.2 = map (set_flags (Some user_id) active admin now) (users db)
    /\ map id (users r.2) = map id (users db)
    /\ (forall row, In row (users db) -> id row <> Some user_id -> In row (users r.2))
    /\ (forall row, In row (users r.2) -> id row = Some user_id ->
          is_active row = active /\ is_admin row = admin) in
  effect (UsersApi.deactivate_user user_id current_user db now) false (is_admin user)
  /\ effect (Users.activate_user user_id current_user db now) true (is_admin user)
  /\ (is_admin user = false ->
      effect (Users.make_admin user_id current_user db now) (is_active user) true)
  /\ (is_admin user = true ->
      effect (UsersApi.remove_admin user_id current_user db now) (is_active user) false).
Proof.
  intros Hother Hfind effect.
  assert (Hgen : forall (r : result string * Session) active admin,
    ((exists message, r.1 = Ok message)
     /\ users r.2 = map (set_flags (Some user_id) active admin now) (users db)) ->
    effect r active admin).
  { intros r active admin [Hok Husers]. unfold effect.
    split; [exact Hok |]. split; [exact Husers |]. rewrite Husers.
    split.
    { rewrite map_map. apply map_ext. intros row. apply set_flags_keeps. }
    split.
    - intros row Hin Hne. apply in_map_iff. exists row.
      split; [apply set_flags_other; exact Hne | exact Hin].
    - intros row Hin Hrow. apply in_map_iff in Hin as (r0 & <- & _).
      destruct (set_flags_keeps (Some user_id) active admin now r0) as (Hkid & _).
      rewrite Hkid in Hrow.
      destruct (set_flags_target (Some user_id) active admin now r0 Hrow) as (Ha & Hb & _).
      split; assumption. }
  destruct (flag_operations_rows user_id current_user db now user Hother Hfind)
    as (Hd & Ha & Hm & Hr).
  split; [apply Hgen, Hd |]. split; [apply Hgen, Ha |].
  split; intros Hadm; apply Hgen; [apply Hm | apply Hr]; exact Hadm.
Qed.

(** "alice" deactivates "bob" and then activates him again. *)
Lemma flag_operations_effect_witness :
  map is_active (users (UsersApi.deactivate_user 2 Sample.alice Sample.db 10).2)
  = [true; false]
  /\ map is_active
       (users (Users.activate_user 2 Sample.alice
                 (UsersApi.deactivate_user 2 Sample.alice Sample.db 10).2 20).2)
     = [true; true].
Proof.
  destruct (flag_operations_effect 2 Sample.alice Sample.db 10 Sample.bob)
    as ((_ & Husers & _) & _); [discriminate | reflexivity |].
  split; [rewrite Husers; reflexivity |].
  destruct (flag_operations_effect 2 Sample.alice
              (UsersApi.deactivate_user 2 Sample.alice Sample.db 10).2 20
              (set_flags (Some 2) false false 10 Sample.bob))
    as (_ & (_ & Husers' & _) & _); [discriminate | reflexivity |].
  rewrite Husers'. reflexivity.
Defined.



(** The multi-user strategy on a token whose subject has a row. *)
Lemma GitHubMU_authenticate_existing `{Jose} (settings : Settings) (request : Request)
    (db : Session) (now : Z) (token : string) (payload : gmap string pyval)
    (name : string) (user : User) :
  session_token request = Ok (Some token) ->
  token <> "" ->
  decode_access_token settings token now = Ok payload ->
  payload !! "sub" = Some (PStr name) ->
  name <> "" ->
  find (fun u => bool_decide (github_username u = Some name)) (users db) = Some user ->
  (GitHubMU_authenticate settings request db now).1
  = if is_active user then Ok (Some user)
    else Raise (HTTPException 403 "Account is deactivated. Contact administrator.").
Proof.
  intros Htok Hne Hdec Hsub Hname Hfind.
  unfold GitHubMU_authenticate. rewrite Htok. cbn [opt_truthy]. unfold str_truthy.
  apply String.eqb_neq in Hne. rewrite Hne. cbn [negb].
  change (default "" (Some token)) with token.
  rewrite (GitHubMU_try_existing settings token db now payload name user) by assumption.
  destruct (is_active user); reflexivity.
Qed.

(** Deactivation locks the user out and activation lets them in again: once
    an administrator has deactivated the row a token's subject resolves to,
    the multi-user strategy answers that token with 403; after
    [activate_user] it returns the row, active, again. *)
Theorem deactivation_locks_out `{Jose} (settings : Settings) (request : Request)
    (db : Session) (now1 now2 now3 : Z) (token : string) (payload : gmap string pyval)
    (name : string) (user_id : Z) (current_user user target : User) :
  id current_user <> Some user_id ->
  find (fun u => bool_decide (id u = Some user_id)) (users db) = Some target ->
  find (fun u => bool_decide (github_username u = Some name)) (users db) = Some user ->
  id user = Some user_id ->
  session_token request = Ok (Some token) ->
  token <> "" ->
  decode_access_token settings token now3 = Ok payload ->
  payload !! "sub" = Some (PStr name) ->
  name <> "" ->
  let db1 := (UsersApi.deactivate_user user_id current_user db now1).2 in
  let db2 := (Users.activate_user user_id current_user db1 now2).2 in
  (GitHubMU_authenticate settings request db1 now3).1
  = Raise (HTTPException 403 "Account is deactivated. Contact administrator.")
  /\ exists row,
       (GitHubMU_authenticate settings request db2 now3).1 = Ok (Some row)
       /\ id row = Some user_id /\ is_active row = true
       /\ github_username row = Some name /\ is_admin row = is_admin target.
Proof.
  intros Hother Hfind Hname_row Hid Htok Hne Hdec Hsub Hname db1 db2.
  destruct (flag_operations_rows user_id current_user db now1 target Hother Hfind)
    as ((_ & Husers1) & _).
  fold db1 in Husers1.
  set (f := set_flags (Some user_id) false (is_admin target) now1) in *.
  assert (Hfind_name1 :
            find (fun u => bool_decide (github_username u = Some name)) (users db1)
            = Some (f user)).
  { rewrite Husers1, (find_map_keeps github_username), Hname_row; [reflexivity |].
    intros r. apply set_flags_keeps. }
  assert (Hfind_id1 :
            find (fun u => bool_decide (id u = Some user_id)) (users db1) = Some (f target)).
  { rewrite Husers1, (find_map_keeps id), Hfind; [reflexivity |].
    intros r. apply set_flags_keeps. }
  destruct (set_flags_target (Some user_id) false (is_admin target) now1 user Hid)
    as (Hinactive & Hadm1 & _).
  split.
  - rewrite (GitHubMU_authenticate_existing settings request db1 now3 token payload name
               (f user)) by assumption.
    unfold f. rewrite Hinactive. reflexivity.
  - destruct (flag_operations_rows user_id current_user db1 now2 (f target) Hother
                Hfind_id1) as (_ & (_ & Husers2) & _).
    fold db2 in Husers2.
    set (g := set_flags (Some user_id) true (is_admin (f target)) now2) in *.
    assert (Hfind_name2 :
              find (fun u => bool_decide (github_username u = Some name)) (users db2)
              = Some (g (f user))).
    { rewrite Husers2, (find_map_keeps github_username), Hfind_name1; [reflexivity |].
      intros r. apply set_flags_keeps. }
    destruct (set_flags_keeps (Some user_id) false (is_admin target) now1 user)
      as (Hkid & _ & _ & _ & Hkname & _).
    fold f in Hkid, Hkname.
    assert (Hidf : id (f user) = Some user_id) by (rewrite Hkid; exact Hid).
    destruct (set_flags_target (Some user_id) true (is_admin (f target)) now2 (f user) Hidf)
      as (Hactive & Hadm2 & _).
    destruct (set_flags_keeps (Some user_id) true (is_admin (f target)) now2 (f user))
      as (Hkid2 & _ & _ & _ & Hkname2 & _).
    fold g in Hactive, Hadm2, Hkid2, Hkname2.
    exists (g (f user)).
    rewrite (GitHubMU_authenticate_existing settings request db2 now3 token payload name
               (g (f user))) by assumption.
    rewrite Hactive.
    split; [reflexivity |].
    split; [rewrite Hkid2; exact Hidf |].
    split; [reflexivity |].
    split.
    + rewrite Hkname2, Hkname.
      apply find_some in Hname_row as [_ Hcol]. apply bool_decide_eq_true in Hcol. exact Hcol.
    + rewrite Hadm2.
      destruct (find_by_id_key _ _ _ Hfind) as [Hidt _].
      destruct (set_flags_target (Some user_id) false (is_admin target) now1 target Hidt)
        as (_ & Hadmt & _).
      exact Hadmt.
Qed.

(** "alice" deactivates "bob", whose valid token is then refused, and
    activates him again. *)
Lemma deactivation_locks_out_witness :
  let settings := Ref.settings_of Ref.env_mu in
  let token :=
    match @create_access_token Ref.jose settings (<["sub" := PStr "bob"]> ∅) None 0 with
    | Ok t => t
    | Raise _ => ""
    end in
  let request := {| headers := []; cookies := <["access_token" := token]> ∅ |} in
  let db1 := (UsersApi.deactivate_user 2 Sample.alice Sample.db 10).2 in
  let db2 := (Users.activate_user 2 Sample.alice db1 20).2 in
  (@GitHubMU_authenticate Ref.jose settings request db1 30).1
  = Raise (HTTPException 403 "Account is deactivated. Contact administrator.")
  /\ exists row,
       (@GitHubMU_authenticate Ref.jose settings request db2 30).1 = Ok (Some row)
       /\ is_active row = true.
Proof.
  cbv zeta.
  set (settings := Ref.settings_of Ref.env_mu).
  set (token := match @create_access_token Ref.jose settings (<["sub" := PStr "bob"]> ∅) None 0 with
                | Ok t => t
                | Raise _ => ""
                end).
  set (request := {| headers := []; cookies := _ |}).
  destruct (@deactivation_locks_out Ref.jose settings request Sample.db 10 20 30 token
              (<["exp" := PInt 1800]> (<["sub" := PStr "bob"]> ∅)) "bob" 2
              Sample.alice Sample.bob Sample.bob)
    as (Hlocked & row & Hback & _ & Hactive & _).
  - discriminate.
  - reflexivity.
  - reflexivity.
  - reflexivity.
  - vm_compute. reflexivity.
  - vm_compute. discriminate.
  - vm_compute. reflexivity.
  - reflexivity.
  - discriminate.
  - split; [exact Hlocked |]. exists row. split; assumption.
Defined.

(** ** Profile updates *)

(** Under a primary key, two rows of the table with the same key are the
    same row. *)
Lemma same_key_same_row (rows : list User) (a b : User) :
  NoDup (map id rows) -> In a rows -> In b rows -> id a = id b -> a = b.
Proof.
  induction rows as [| r rows IH]; intros Hnd Ha Hb Hid; [contradiction |].
  cbn [map] in Hnd. apply NoDup_cons in Hnd as [Hfresh Hnd].
  destruct Ha as [-> | Ha], Hb as [-> | Hb].
  - reflexivity.
  - exfalso. apply Hfresh. rewrite Hid. apply list_elem_of_In, in_map. exact Hb.
  - exfalso. apply Hfresh. rewrite <- Hid. apply list_elem_of_In, in_map. exact Ha.
  - apply IH; assumption.
Qed.

(** [write_commit] either leaves the rows alone or replaces the rows that
    have the key of the written one. *)
Lemma write_commit_rows (db : Session) (row : User) :
  users (Users.write_commit db row).2 = users db
  \/ ((Users.write_commit db row).1 = Ok row
      /\ users (Users.write_commit db row).2
         = map (fun r => if bool_decide (id r = id row) then row else r) (users db)).
Proof.
  unfold Users.write_commit.
  destruct (violates_unique _ row); [left | right; split]; reflexivity.
Qed.

(** Replacing a row of a keyed table by a row with the same key and the same
    value in a column leaves that column as it was, row by row. *)
Lemma replace_keeps_column {K : Type} (col : User -> K) (rows : list User)
    (user row : User) :
  NoDup (map id rows) -> In user rows -> id row = id user -> col row = col user ->
  map col (map (fun r => if bool_decide (id r = id row) then row else r) rows)
  = map col rows.
Proof.
  intros Hnd Hin Hid Hcol. rewrite map_map. apply map_ext_in. intros r Hr.
  destruct (bool_decide (id r = id row)) eqn:Hdec; [| reflexivity].
  apply bool_decide_eq_true in Hdec.
  rewrite (same_key_same_row rows r user Hnd Hr Hin) by congruence.
  exact Hcol.
Qed.

(** What a caller who is no administrator can do with [update_user]: on a
    key other than their own, nothing (403, no query, no write); on their
    own, nothing to any row's key, activation flag or administrator flag,
    whatever the request sets. *)
Theorem update_user_cannot_change_flags (user_id : Z) (user_update : UserUpdate.t)
    (current_user : User) (db : Session) (now : Z) :
  NoDup (map id (users db)) ->
  is_admin current_user = false ->
  let r := Users.update_user user_id user_update current_user db now in
  (id current_user <> Some user_id ->
   r = (Raise (HTTPException 403 "Not authorized to update this user"), db))
  /\ map id (users r.2) = map id (users db)
  /\ map is_active (users r.2) = map is_active (users db)
  /\ map is_admin (users r.2) = map is_admin (users db).
Proof.
  intros Hnd Hplain r. subst r. unfold Users.update_user. rewrite Hplain. cbn [negb andb].
  destruct (bool_decide (id current_user = Some user_id)) eqn:Hself; cbn [negb].
  2: { split; [reflexivity |]. repeat split. }
  split; [intros Hne; apply bool_decide_eq_true in Hself; contradiction |].
  destruct (query_by_id db user_id).1 as [user |] eqn:Hq; cbn [fst snd];
    [| repeat split].
  destruct (find_by_id_key _ _ _ Hq) as [Hid Hin].
  set (upd := {| UserUpdate.email := _; UserUpdate.github_avatar_url := _;
                 UserUpdate.is_active := None |}).
  set (row := Users.apply_update user upd now).
  assert (Hrows : users (Users.write_commit (query_by_id db user_id).2 row).2 = users db
                  \/ users (Users.write_commit (query_by_id db user_id).2 row).2
                     = map (fun r => if bool_decide (id r = id row) then row else r)
                         (users db)).
  { destruct (write_commit_rows (query_by_id db user_id).2 row) as [H | [_ H]];
      [left | right]; exact H. }
  assert (Hsame : forall {K : Type} (col : User -> K),
            col row = col user ->
            map col (users (Users.write_commit (query_by_id db user_id).2 row).2)
            = map col (users db)).
  { intros K col Hcol. destruct Hrows as [-> | ->]; [reflexivity |].
    apply (replace_keeps_column col (users db) user row Hnd Hin); [reflexivity | exact Hcol]. }
  destruct (Users.write_commit (query_by_id db user_id).2 row).1 as [row' | e] eqn:Hw;
    cbn [fst snd]; repeat split; apply Hsame; reflexivity.
Qed.

Lemma update_user_cannot_change_flags_witness :
  let deactivate_all :=
    {| UserUpdate.email := None; UserUpdate.github_avatar_url := None;
       UserUpdate.is_active := Some (Some false) |} in
  Users.update_user 1 deactivate_all Sample.bob Sample.db 10
  = (Raise (HTTPException 403 "Not authorized to update this user"), Sample.db)
  /\ map is_active (users (Users.update_user 2 deactivate_all Sample.bob Sample.db 10).2)
     = [true; true].
Proof.
  cbv zeta.
  split.
  - destruct (update_user_cannot_change_flags 1
                {| UserUpdate.email := None; UserUpdate.github_avatar_url := None;
                   UserUpdate.is_active := Some (Some false) |} Sample.bob Sample.db 10)
      as (Hother & _).
    + apply (bool_decide_unpack _). vm_compute. exact I.
    + reflexivity.
    + apply Hother. discriminate.
  - destruct (update_user_cannot_change_flags 2
                {| UserUpdate.email := None; UserUpdate.github_avatar_url := None;
                   UserUpdate.is_active := Some (Some false) |} Sample.bob Sample.db 10)
      as (_ & _ & Hactive & _).
    + apply (bool_decide_unpack _). vm_compute. exact I.
    + reflexivity.
    + rewrite Hactive. reflexivity.
Defined.

Lemma find_map_keeps_in {K : Type} `{EqDecision K} (col : User -> K) (f : User -> User)
    (k : K) (rows : list User) :
  (forall r, In r rows -> col (f r) = col r) ->
  find (fun u => bool_decide (col u = k)) (map f rows)
  = f <$> find (fun u => bool_decide (col u = k)) rows.
Proof.
  induction rows as [| r rows IH]; intros Hkeep; [reflexivity |].
  cbn [map find]. rewrite Hkeep by (left; reflexivity).
  destruct (bool_decide (col r = k)); [reflexivity |].
  apply IH. intros r' Hin. apply Hkeep. right. exact Hin.
Qed.

(** The unique indexes look at four columns only. *)
Lemma violates_unique_columns (rows : list User) (u u' : User) :
  username u = username u' -> email u = email u' ->
  github_id u = github_id u' -> github_username u = github_username u' ->
  violates_unique rows u = violates_unique rows u'.
Proof. intros H1 H2 H3 H4. unfold violates_unique. rewrite H1, H2, H3, H4. reflexivity. Qed.

(** Unlike [deactivate_user], [update_user] has no guard against the
    caller's own key: an administrator who sends [is_active: false] for
    their own row is answered with the deactivated profile, and the
    multi-user strategy then refuses their token with 403. *)
Theorem update_user_allows_self_deactivation `{Jose} (settings : Settings)
    (request : Request) (db : Session) (now later : Z) (token : string)
    (payload : gmap string pyval) (name : string) (user_id : Z)
    (current_user user : User) (created : Z) :
  NoDup (map id (users db)) ->
  violates_unique
    (filter (fun r => negb (bool_decide (id r = Some user_id))) (users db)) user = false ->
  is_admin current_user = true ->
  id current_user = Some user_id ->
  find (fun u => bool_decide (id u = Some user_id)) (users db) = Some user ->
  created_at user = Some created ->
  find (fun u => bool_decide (github_username u = Some name)) (users db) = Some user ->
  session_token request = Ok (Some token) ->
  token <> "" ->
  decode_access_token settings token later = Ok payload ->
  payload !! "sub" = Some (PStr name) ->
  name <> "" ->
  let r := Users.update_user user_id
             {| UserUpdate.email := None; UserUpdate.github_avatar_url := None;
                UserUpdate.is_active := Some (Some false) |} current_user db now in
  (exists response,
      r.1 = Ok response
      /\ UserResponse.id response = user_id
      /\ UserResponse.is_active response = false
      /\ UserResponse.is_admin response = is_admin user)
  /\ (GitHubMU_authenticate settings request r.2 later).1
     = Raise (HTTPException 403 "Account is deactivated. Contact administrator.").
Proof.
  intros Hnd Huniq Hadmin Hself Hfind Hcreated Hname_row Htok Hne Hdec Hsub Hname r.
  destruct (find_by_id_key _ _ _ Hfind) as [Hid Hin].
  set (upd := {| UserUpdate.email := None; UserUpdate.github_avatar_url := None;
                 UserUpdate.is_active := Some (Some false) |}) in *.
  set (row := Users.apply_update user upd now).
  assert (Hw : Users.write_commit (query_by_id db user_id).2 row
               = (Ok row,
                  {| users := map (fun r => if bool_decide (id r = id row) then row else r)
                                (users db);
                     calls := calls (log Commit (query_by_id db user_id).2) |})).
  { unfold Users.write_commit.
    replace (id row) with (Some user_id) by (symmetry; exact Hid).
    change (users (query_by_id db user_id).2) with (users db).
    rewrite (violates_unique_columns _ row user) by reflexivity.
    rewrite Huniq. reflexivity. }
  assert (Hr : r = (UserResponse.from_orm row, (Users.write_commit (query_by_id db user_id).2 row).2)).
  { unfold r, Users.update_user. rewrite Hadmin. cbn [negb andb].
    replace (query_by_id db user_id).1 with (Some user) by (symmetry; exact Hfind).
    fold row. rewrite Hw. reflexivity. }
  rewrite Hr. cbn [fst snd].
  split.
  - unfold UserResponse.from_orm.
    change (id row) with (id user). change (created_at row) with (created_at user).
    rewrite Hid, Hcreated. eexists. split; [reflexivity |]. repeat split.
  - rewrite Hw. cbn [snd].
    rewrite (GitHubMU_authenticate_existing settings request _ later token payload name row);
      try assumption; [reflexivity |].
    cbn [users].
    rewrite (find_map_keeps_in github_username), Hname_row.
    + cbn [fmap option_fmap option_map]. rewrite bool_decide_eq_true_2 by reflexivity.
      reflexivity.
    + intros r0 Hr0.
      destruct (bool_decide (id r0 = id row)) eqn:Hdec0; [| reflexivity].
      apply bool_decide_eq_true in Hdec0.
      rewrite (same_key_same_row (users db) r0 user Hnd Hr0 Hin) by exact Hdec0.
      reflexivity.
Qed.

(** "alice", the administrator, deactivates herself through [update_user]. *)
Lemma update_user_allows_self_deactivation_witness :
  let settings := Ref.settings_of Ref.env_mu in
  let token :=
    match @create_access_token Ref.jose settings (<["sub" := PStr "alice"]> ∅) None 0 with
    | Ok t => t
    | Raise _ => ""
    end in
  let request := {| headers := []; cookies := <["access_token" := token]> ∅ |} in
  let r := Users.update_user 1
             {| UserUpdate.email := None; UserUpdate.github_avatar_url := None;
                UserUpdate.is_active := Some (Some false) |} Sample.alice Sample.db 10 in
  (exists response, r.1 = Ok response /\ UserResponse.is_active response = false)
  /\ (@GitHubMU_authenticate Ref.jose settings request r.2 30).1
     = Raise (HTTPException 403 "Account is deactivated. Contact administrator.").
Proof.
  cbv zeta.
  set (settings := Ref.settings_of Ref.env_mu).
  set (token := match @create_access_token Ref.jose settings (<["sub" := PStr "alice"]> ∅) None 0 with
                | Ok t => t
                | Raise _ => ""
                end).
  set (request := {| headers := []; cookies := _ |}).
  destruct (@update_user_allows_self_deactivation Ref.jose settings request Sample.db 10 30
              token (<["exp" := PInt 1800]> (<["sub" := PStr "alice"]> ∅)) "alice" 1
              Sample.alice Sample.alice 0)
    as ((response & Hok & _ & Hinactive & _) & Hlocked).
  - apply (bool_decide_unpack _). vm_compute. exact I.
  - reflexivity.
  - reflexivity.
  - reflexivity.
  - reflexivity.
  - reflexivity.
  - reflexivity.
  - vm_compute. reflexivity.
  - vm_compute. discriminate.
  - vm_compute. reflexivity.
  - reflexivity.
  - discriminate.
  - split; [exists response; split; assumption | exact Hlocked].
Defined.

(** ** Reading users *)

Lemma from_orm_id (user : User) (response : UserResponse.t) :
  UserResponse.from_orm user = Ok response ->
  id user = Some (UserResponse.id response)
  /\ UserResponse.is_active response = is_active user
  /\ UserResponse.is_admin response = is_admin user
  /\ UserResponse.username response = username user.
Proof.
  unfold UserResponse.from_orm.
  destruct (id user) as [i |], (created_at user) as [c |]; try discriminate.
  intros [= <-]. repeat split.
Qed.

(** [get_user] answers with the profile of the key asked for, and only to an
    administrator or to the user with that key; anyone else gets 403 before
    the table is read. *)
Theorem get_user_is_private (user_id : Z) (current_user : User) (db : Session) :
  (forall response,
      (Users.get_user user_id current_user db).1 = Ok response ->
      UserResponse.id response = user_id
      /\ (is_admin current_user = true \/ id current_user = Some user_id)
      /\ exists user, In user (users db) /\ UserResponse.from_orm user = Ok response)
  /\ (is_admin current_user = false -> id current_user <> Some user_id ->
      Users.get_user user_id current_user db
      = (Raise (HTTPException 403 "Not authorized to view this user"), db)).
Proof.
  split.
  - intros response. unfold Users.get_user.
    destruct (is_admin current_user) eqn:Hadm; cbn [negb andb].
    + destruct (query_by_id db user_id).1 as [user |] eqn:Hq; cbn [fst]; [| discriminate].
      intros Hresp. destruct (find_by_id_key _ _ _ Hq) as [Hid Hin].
      destruct (from_orm_id user response Hresp) as (Hrid & _).
      split; [congruence |]. split; [left; reflexivity |]. exists user. split; assumption.
    + destruct (bool_decide (id current_user = Some user_id)) eqn:Hself; cbn [negb fst];
        [| discriminate].
      apply bool_decide_eq_true in Hself.
      destruct (query_by_id db user_id).1 as [user |] eqn:Hq; cbn [fst]; [| discriminate].
      intros Hresp. destruct (find_by_id_key _ _ _ Hq) as [Hid Hin].
      destruct (from_orm_id user response Hresp) as (Hrid & _).
      split; [congruence |]. split; [right; exact Hself |]. exists user. split; assumption.
  - intros Hadm Hother. unfold Users.get_user. rewrite Hadm.
    rewrite bool_decide_eq_false_2 by exact Hother. reflexivity.
Qed.

Lemma get_user_is_private_witness :
  Users.get_user 1 Sample.bob Sample.db
  = (Raise (HTTPException 403 "Not authorized to view this user"), Sample.db).
Proof.
  apply (get_user_is_private 1 Sample.bob Sample.db); [reflexivity | discriminate].
Defined.





(** ** Statistics *)

(** A row transformation that keeps a flag on the rows of a table keeps the
    number of rows that have it. *)
Lemma count_keeps (flag : User -> bool) (f : User -> User) (rows : list User) :
  (forall r, In r rows -> flag (f r) = flag r) ->
  length (filter (fun u => flag u) (map f rows)) = length (filter (fun u => flag u) rows).
Proof.
  induction rows as [| r rows IH]; intros Hkeep; [reflexivity |].
  cbn [map]. rewrite !filter_cons.
  rewrite (Hkeep r) by (left; reflexivity).
  assert (IH' := IH (fun r' Hin => Hkeep r' (or_intror Hin))).
  destruct (decide (flag r)); cbn [length]; rewrite IH'; reflexivity.
Qed.

(** Turning off the activation flag of the one active row with a key takes
    one off the number of active rows. *)
Lemma count_active_after_deactivation (rows : list User) (target : User)
    (user_id : Z) (admin : bool) (now : Z) :
  NoDup (map id rows) -> In target rows -> id target = Some user_id ->
  is_active target = true ->
  S (length (filter (fun u => is_active u)
               (map (set_flags (Some user_id) false admin now) rows)))
  = length (filter (fun u => is_active u) rows).
Proof.
  induction rows as [| r rows IH]; intros Hnd Hin Hid Hact; [contradiction |].
  pose proof Hnd as Hnd'. cbn [map] in Hnd'. apply NoDup_cons in Hnd' as [Hfresh Hnd'].
  cbn [map]. rewrite !filter_cons.
  destruct (decide (id r = Some user_id)) as [Hr | Hr].
  - assert (r = target) as ->
      by (apply (same_key_same_row (r :: rows)); [exact Hnd | left; reflexivity | exact Hin | congruence]).
    destruct (set_flags_target (Some user_id) false admin now target Hid) as (Hoff & _).
    rewrite Hoff, Hact.
    rewrite decide_False by (intros []). rewrite decide_True by exact I.
    cbn [length]. f_equal.
    apply count_keeps. intros r' Hr'.
    rewrite set_flags_other; [reflexivity |].
    intros Hsame. apply Hfresh. rewrite Hid, <- Hsame.
    apply list_elem_of_In, in_map. exact Hr'.
  - rewrite set_flags_other by exact Hr.
    destruct Hin as [-> | Hin]; [contradiction |].
    specialize (IH Hnd' Hin Hid Hact).
    destruct (decide (is_active r)); cbn [length]; rewrite <- IH; reflexivity.
Qed.

(** The statistics add up, and they follow a deactivation: after an
    administrator deactivates an active user, [get_user_stats] reports the
    same total and number of administrators, one active user less and one
    inactive user more. *)
Theorem stats_follow_deactivation (user_id : Z) (current_user target : User)
    (db : Session) (now : Z) :
  NoDup (map id (users db)) ->
  id current_user <> Some user_id ->
  find (fun u => bool_decide (id u = Some user_id)) (users db) = Some target ->
  is_active target = true ->
  let before := Users.get_user_stats db in
  let after :=
    Users.get_user_stats (UsersApi.deactivate_user user_id current_user db now).2 in
  Users.active_users before + Users.inactive_users before = Users.total_users before
  /\ 0 <= Users.inactive_users before
  /\ Users.admin_users before <= Users.total_users before
  /\ Users.total_users after = Users.total_users before
  /\ Users.active_users after = Users.active_users before - 1
  /\ Users.inactive_users after = Users.inactive_users before + 1
  /\ Users.admin_users after = Users.admin_users before.
Proof.
  intros Hnd Hother Hfind Hact before after.
  destruct (find_by_id_key _ _ _ Hfind) as [Hid Hin].
  destruct (flag_operations_rows user_id current_user db now target Hother Hfind)
    as ((_ & Husers) & _).
  pose proof (count_active_after_deactivation (users db) target user_id (is_admin target)
                now Hnd Hin Hid Hact) as Hcount.
  assert (Hadmin : length (filter (fun u => is_admin u)
                             (map (set_flags (Some user_id) false (is_admin target) now)
                                (users db)))
                   = length (filter (fun u => is_admin u) (users db))).
  { apply count_keeps. intros r Hr.
    destruct (decide (id r = Some user_id)) as [Hsame | Hdiff].
    - destruct (set_flags_target (Some user_id) false (is_admin target) now r Hsame)
        as (_ & -> & _).
      rewrite (same_key_same_row (users db) r target Hnd Hr Hin) by congruence.
      reflexivity.
    - rewrite set_flags_other by exact Hdiff. reflexivity. }
  pose proof (length_filter (fun u : User => is_active u) (users db)) as Hle_active.
  pose proof (length_filter (fun u : User => is_admin u) (users db)) as Hle_admin.
  unfold before, after, Users.get_user_stats.
  cbn [Users.total_users Users.active_users Users.inactive_users Users.admin_users].
  rewrite Husers, Hadmin, length_map.
  repeat split; lia.
Qed.

Lemma stats_follow_deactivation_witness :
  Users.active_users
    (Users.get_user_stats (UsersApi.deactivate_user 2 Sample.alice Sample.db 10).2)
  = Users.active_users (Users.get_user_stats Sample.db) - 1.
Proof.
  apply (stats_follow_deactivation 2 Sample.alice Sample.bob Sample.db 10);
    [apply (bool_decide_unpack _); vm_compute; exact I | discriminate | reflexivity
    | reflexivity].
Defined.

(** ** The OAuth callback *)

(** What a successful [github_callback] has done, step by step. *)
Lemma github_callback_Ok `{Jose} `{Fernet} `{GitHubApi} `{ErrorText}
    (settings : Settings) (environ environ' : gmap string string) (seed nonce : string)
    (code state : string) (db db' : Session) (now : Z)
    (response : AuthCallback.RedirectResponse) :
  AuthCallback.github_callback settings environ seed nonce code state db now
  = (Ok response, db', environ') ->
  exists github_token github_user sealed row,
    exchange_code_for_token (github_client_id settings) (github_client_secret settings) code
    = Answer github_token
    /\ github_token <> ""
    /\ GitHubService.get_authenticated_user (Some github_token) = Answer github_user
    /\ (String.eqb (app_mode settings) SINGLE_USER && enable_su_auth settings = true ->
        su_github_username settings = Some (GitHubUser.login github_user))
    /\ encrypt_token environ seed nonce github_token = (Ok sealed, environ')
    /\ match find (fun u => bool_decide (github_username u
                                         = Some (GitHubUser.login github_user))) (users db) with
       | None =>
           add_commit_refresh (log (QueryByGithubUsername (GitHubUser.login github_user)) db)
             (AuthCallback.new_user settings github_user sealed) now = (Ok row, db')
       | Some user =>
           Users.write_commit (log (QueryByGithubUsername (GitHubUser.login github_user)) db)
             (AuthCallback.returning_user user github_user sealed now) = (Ok row, db')
       end
    /\ create_github_oauth_token settings (AuthCallback.github_user_data github_user)
         github_token now = Ok (AuthCallback.cookie_value response)
    /\ AuthCallback.cookie_key response = "access_token".
Proof.
  unfold AuthCallback.github_callback.
  destruct (negb (str_truthy code)); [discriminate |].
  destruct (exchange_code_for_token _ _ code) as [github_token | s]; [| discriminate].
  destruct (GitHubService.get_authenticated_user (Some github_token))
    as [github_user | s] eqn:Huser; [| discriminate].
  assert (Htok : github_token <> "").
  { intros ->. unfold GitHubService.get_authenticated_user in Huser.
    cbn in Huser. discriminate. }
  destruct (String.eqb (app_mode settings) SINGLE_USER && enable_su_auth settings) eqn:Hsu;
    cbn [andb].
  - destruct (bool_decide (Some (GitHubUser.login github_user) = su_github_username settings))
      eqn:Hname; cbn [negb]; [| discriminate].
    apply bool_decide_eq_true in Hname.
    unfold query_by_github_username. cbn [fst snd].
    destruct (encrypt_token environ seed nonce github_token) as [[sealed | e] env1] eqn:Henc;
      cbn [fst snd]; [| discriminate].
    destruct (find _ (users db)) as [user |] eqn:Hfind.
    + destruct (Users.write_commit _ _) as [[row | e] db1] eqn:Hw; cbn [fst snd];
        [| discriminate].
      destruct (create_github_oauth_token _ _ _ _) as [jwt | e] eqn:Hjwt; [| discriminate].
      intros [= <- <- <-].
      exists github_token, github_user, sealed, row. rewrite Hfind.
      repeat split; try assumption; try reflexivity;
        intros; first [discriminate | symmetry; assumption].
    + destruct (add_commit_refresh _ _ _) as [[row | e] db1] eqn:Hw; cbn [fst snd];
        [| discriminate].
      destruct (create_github_oauth_token _ _ _ _) as [jwt | e] eqn:Hjwt; [| discriminate].
      intros [= <- <- <-].
      exists github_token, github_user, sealed, row. rewrite Hfind.
      repeat split; try assumption; try reflexivity;
        intros; first [discriminate | symmetry; assumption].
  - unfold query_by_github_username. cbn [fst snd].
    destruct (encrypt_token environ seed nonce github_token) as [[sealed | e] env1] eqn:Henc;
      cbn [fst snd]; [| discriminate].
    destruct (find _ (users db)) as [user |] eqn:Hfind.
    + destruct (Users.write_commit _ _) as [[row | e] db1] eqn:Hw; cbn [fst snd];
        [| discriminate].
      destruct (create_github_oauth_token _ _ _ _) as [jwt | e] eqn:Hjwt; [| discriminate].
      intros [= <- <- <-].
      exists github_token, github_user, sealed, row. rewrite Hfind.
      repeat split; try assumption; try reflexivity;
        intros; first [discriminate | symmetry; assumption].
    + destruct (add_commit_refresh _ _ _) as [[row | e] db1] eqn:Hw; cbn [fst snd];
        [| discriminate].
      destruct (create_github_oauth_token _ _ _ _) as [jwt | e] eqn:Hjwt; [| discriminate].
      intros [= <- <- <-].
      exists github_token, github_user, sealed, row. rewrite Hfind.
      repeat split; try assumption; try reflexivity;
        intros; first [discriminate | symmetry; assumption].
Qed.








(** Replacing the rows that share the key of the first match by a row that
    matches too makes that row the first match. *)
Lemma find_replaced (P : User -> bool) (rows : list User) (user row : User) :
  find P rows = Some user -> P row = true ->
  find P (map (fun r => if bool_decide (id r = id user) then row else r) rows) = Some row.
Proof.
  intros Hfind Hrow. induction rows as [| r rows IH]; [discriminate |].
  cbn [find map] in *.
  destruct (bool_decide (id r = id user)) eqn:Hkey.
  - rewrite Hrow. reflexivity.
  - destruct (P r) eqn:Hr.
    + injection Hfind as ->. rewrite bool_decide_eq_true_2 in Hkey by reflexivity.
      discriminate.
    + apply IH. exact Hfind.
Qed.



(** The row a successful callback leaves for the GitHub user. *)
Lemma callback_row `{Jose} `{Fernet} `{GitHubApi} `{ErrorText}
    (settings : Settings) (environ environ' : gmap string string) (seed nonce : string)
    (code state : string) (db db' : Session) (now : Z)
    (response : AuthCallback.RedirectResponse)
    (github_token : string) (github_user : GitHubUser.t) :
  exchange_code_for_token (github_client_id settings) (github_client_secret settings) code
  = Answer github_token ->
  GitHubService.get_authenticated_user (Some github_token) = Answer github_user ->
  AuthCallback.github_callback settings environ seed nonce code state db now
  = (Ok response, db', environ') ->
  exists sealed row,
    encrypt_token environ seed nonce github_token = (Ok sealed, environ')
    /\ find (fun u => bool_decide (github_username u
                                   = Some (GitHubUser.login github_user))) (users db')
       = Some row
    /\ match find (fun u => bool_decide (github_username u
                                         = Some (GitHubUser.login github_user)))
               (users db) with
       | None =>
           users db' = users db ++ [row]
           /\ row = {| id := Some (next_id (users db));
                       username := GitHubUser.login github_user;
                       email := GitHubUser.email github_user;
                       github_id := Some (GitHubUser.id github_user);
                       github_username := Some (GitHubUser.login github_user);
                       github_avatar_url := GitHubUser.avatar_url github_user;
                       github_token := Some sealed;
                       is_admin := is_admin (AuthCallback.new_user settings github_user sealed);
                       is_active := true; organization_id := None;
                       created_at := Some now; updated_at := None; last_login := None |}
       | Some user =>
           users db' = map (fun r => if bool_decide (id r = id user) then row else r)
                         (users db)
           /\ row = AuthCallback.returning_user user github_user sealed now
       end.
Proof.
  intros Hex Hgu Hcb.
  destruct (github_callback_Ok _ _ _ _ _ _ _ _ _ _ _ Hcb)
    as (tok & gu & sealed & row & Hex' & _ & Hgu' & _ & Henc & Hw & _ & _).
  rewrite Hex in Hex'. injection Hex' as <-.
  rewrite Hgu in Hgu'. injection Hgu' as <-.
  exists sealed, row. split; [exact Henc |].
  destruct (find _ (users db)) as [user |] eqn:Hfind.
  - unfold Users.write_commit in Hw.
    destruct (violates_unique _ _); [discriminate |].
    injection Hw as <- <-. cbn [users].
    split; [| split; reflexivity].
    apply find_replaced; [exact Hfind |].
    apply find_some in Hfind as [_ Hname]. exact Hname.
  - unfold add_commit_refresh in Hw.
    destruct (violates_unique _ _); [discriminate |].
    injection Hw as <- <-. cbn [users log].
    split; [| split; reflexivity].
    apply find_appended; [exact Hfind | reflexivity].
Qed.


(** What [encrypt_token] seals under a usable key, [decrypt_token] opens
    under the environment it leaves. *)
Lemma sealed_token_opens `{F : Fernet} `{!FernetSpec F}
    (environ : gmap string string) (seed nonce x : string) :
  (forall k, environ !! "ENCRYPTION_KEY" = Some k -> k <> "" -> Fernet_key_ok k = true) ->
  x <> "" -> utf8_valid x = true ->
  exists sealed environ',
    encrypt_token environ seed nonce x = (Ok sealed, environ')
    /\ sealed <> ""
    /\ forall seed2, decrypt_token environ' seed2 sealed = (Ok x, environ').
Proof.
  intros Hkey Hx Hutf.
  destruct (get_encryption_key_stable environ seed Hkey)
    as (key & environ' & Hget & Hok & Henv & Hne).
  pose proof (b64encode_nonempty _ (encrypt_nonempty key nonce x)) as Hsealed.
  exists (b64encode (Fernet_encrypt key nonce x)), environ'.
  split; [| split; [exact Hsealed |]].
  - unfold encrypt_token. unfold str_truthy.
    apply String.eqb_neq in Hx. rewrite Hx. cbn [negb].
    rewrite Hget. cbn [fst snd mbind result_bind].
    unfold Fernet_new. rewrite Hok. cbn [mbind result_bind].
    unfold str_encode. rewrite bytes_decode_b64encode. reflexivity.
  - intros seed2.
    unfold decrypt_token. unfold str_truthy.
    apply String.eqb_neq in Hsealed. rewrite Hsealed. cbn [negb].
    rewrite (get_encryption_key_present environ' seed2 key Henv Hne).
    cbn [fst snd mbind result_bind].
    unfold Fernet_new. rewrite Hok. cbn [mbind result_bind].
    unfold str_encode. rewrite b64decode_b64encode. cbn [mbind result_bind].
    rewrite (decrypt_encrypt key nonce x Hok). cbn [mbind result_bind].
    unfold bytes_decode. rewrite Hutf. reflexivity.
Qed.

(** The GitHub token the user granted at login is the one later requests
    act with: where authentication is required and the key is usable, the
    token [get_github_token] resolves for the row the callback wrote is the
    token GitHub issued, whatever header the request carries. *)
Theorem callback_token_recoverable `{Jose} `{F : Fernet} `{!FernetSpec F} `{GitHubApi}
    `{ErrorText} (settings : Settings) (environ environ' : gmap string string)
    (seed nonce code state : string) (db db' : Session) (now : Z)
    (response : AuthCallback.RedirectResponse)
    (github_token : string) (github_user : GitHubUser.t) :
  Config.requires_auth settings = true ->
  (forall k, environ !! "ENCRYPTION_KEY" = Some k -> k <> "" -> Fernet_key_ok k = true) ->
  exchange_code_for_token (github_client_id settings) (github_client_secret settings) code
  = Answer github_token ->
  utf8_valid github_token = true ->
  GitHubService.get_authenticated_user (Some github_token) = Answer github_user ->
  AuthCallback.github_callback settings environ seed nonce code state db now
  = (Ok response, db', environ') ->
  exists row,
    find (fun u => bool_decide (github_username u = Some (GitHubUser.login github_user)))
      (users db') = Some row
    /\ forall seed2 request,
         get_github_token settings environ' seed2 request (Some row)
         = (Ok (Some github_token), environ').
Proof.
  intros Hreq Hkey Hex Hutf Hgu Hcb.
  destruct (callback_row _ _ _ _ _ _ _ _ _ _ _ _ _ Hex Hgu Hcb)
    as (sealed & row & Henc & Hfind & Hrow).
  assert (Htok : github_token <> "").
  { destruct (github_callback_Ok _ _ _ _ _ _ _ _ _ _ _ Hcb)
      as (tok & _ & _ & _ & Hex' & Hne & _).
    rewrite Hex in Hex'. injection Hex' as <-. exact Hne. }
  destruct (sealed_token_opens environ seed nonce github_token Hkey Htok Hutf)
    as (sealed' & environ2 & Henc' & Hsealed & Hopen).
  rewrite Henc in Henc'. injection Henc' as <- <-.
  assert (Hstored : Models.github_token row = Some sealed).
  { destruct (find _ (users db)); destruct Hrow as [_ ->]; reflexivity. }
  exists row. split; [exact Hfind |].
  intros seed2 request. unfold get_github_token.
  unfold Config.requires_auth in Hreq.
  replace (String.eqb (app_mode settings) SINGLE_USER && negb (enable_su_auth settings))
    with false.
  2: { destruct (String.eqb_spec (app_mode settings) MULTI_USER) as [Hmode |];
         [rewrite Hmode; reflexivity |].
       cbn [orb] in Hreq. apply andb_prop in Hreq as [-> ->]. reflexivity. }
  cbn [andb mbind option_bind]. rewrite Hstored. cbn [opt_truthy]. unfold str_truthy.
  apply String.eqb_neq in Hsealed. rewrite Hsealed. cbn [negb].
  change (default "" (Some sealed)) with sealed.
  rewrite Hopen. reflexivity.
Qed.

(** A login changes nobody's standing: when the GitHub user already has a
    row, a successful callback keeps the number of rows and every row's key,
    administrator flag and activation flag; the user's row takes the new
    avatar, sealed token and login time and keeps its name. *)
Theorem callback_relogin_keeps_privileges `{Jose} `{Fernet} `{GitHubApi} `{ErrorText}
    (settings : Settings) (environ environ' : gmap string string)
    (seed nonce code state : string) (db db' : Session) (now : Z)
    (response : AuthCallback.RedirectResponse)
    (github_token : string) (github_user : GitHubUser.t) (user : User) :
  NoDup (map id (users db)) ->
  exchange_code_for_token (github_client_id settings) (github_client_secret settings) code
  = Answer github_token ->
  GitHubService.get_authenticated_user (Some github_token) = Answer github_user ->
  find (fun u => bool_decide (github_username u = Some (GitHubUser.login github_user)))
    (users db) = Some user ->
  AuthCallback.github_callback settings environ seed nonce code state db now
  = (Ok response, db', environ') ->
  map id (users db') = map id (users db)
  /\ map is_admin (users db') = map is_admin (users db)
  /\ map is_active (users db') = map is_active (users db)
  /\ map username (users db') = map username (users db)
  /\ exists row,
       find (fun u => bool_decide (github_username u
                                   = Some (GitHubUser.login github_user))) (users db')
       = Some row
       /\ id row = id user
       /\ last_login row = Some now
       /\ github_avatar_url row = GitHubUser.avatar_url github_user
       /\ forall r, In r (users db) -> id r <> id user -> In r (users db').
Proof.
  intros Hnd Hex Hgu Hfind Hcb.
  destruct (callback_row _ _ _ _ _ _ _ _ _ _ _ _ _ Hex Hgu Hcb)
    as (sealed & row & _ & Hfind' & Hrow).
  rewrite Hfind in Hrow. destruct Hrow as [Husers Hrow].
  apply find_some in Hfind as [Hin _].
  assert (Hid : id row = id user) by (rewrite Hrow; reflexivity).
  rewrite <- Hid in Husers.
  rewrite Husers.
  split; [apply (replace_keeps_column _ _ user row); try assumption; rewrite Hrow; reflexivity |].
  split; [apply (replace_keeps_column _ _ user row); try assumption; rewrite Hrow; reflexivity |].
  split; [apply (replace_keeps_column _ _ user row); try assumption; rewrite Hrow; reflexivity |].
  split; [apply (replace_keeps_column _ _ user row); try assumption; rewrite Hrow; reflexivity |].
  exists row. rewrite <- Husers.
  split; [exact Hfind' |].
  split; [exact Hid |].
  split; [rewrite Hrow; reflexivity |].
  split; [rewrite Hrow; reflexivity |].
  intros r Hr Hother. rewrite Husers. apply in_map_iff. exists r.
  split; [| exact Hr].
  rewrite bool_decide_eq_false_2 by (rewrite Hid; exact Hother). reflexivity.
Qed.

(** A first login adds one row and touches no other: the new row gets a
    fresh key, is active, and is an administrator exactly when the
    deployment is single-user, or multi-user with the login named as its
    administrator. *)
Theorem callback_first_login_provisions `{Jose} `{Fernet} `{GitHubApi} `{ErrorText}
    (settings : Settings) (environ environ' : gmap string string)
    (seed nonce code state : string) (db db' : Session) (now : Z)
    (response : AuthCallback.RedirectResponse)
    (github_token : string) (github_user : GitHubUser.t) :
  exchange_code_for_token (github_client_id settings) (github_client_secret settings) code
  = Answer github_token ->
  GitHubService.get_authenticated_user (Some github_token) = Answer github_user ->
  find (fun u => bool_decide (github_username u = Some (GitHubUser.login github_user)))
    (users db) = None ->
  AuthCallback.github_callback settings environ seed nonce code state db now
  = (Ok response, db', environ') ->
  exists row,
    users db' = users db ++ [row]
    /\ id row = Some (next_id (users db))
    /\ username row = GitHubUser.login github_user
    /\ github_username row = Some (GitHubUser.login github_user)
    /\ github_id row = Some (GitHubUser.id github_user)
    /\ is_active row = true
    /\ (is_admin row = true <->
        app_mode settings = SINGLE_USER
        \/ (app_mode settings = MULTI_USER
            /\ mu_admin_github_username settings = Some (GitHubUser.login github_user))).
Proof.
  intros Hex Hgu Hfind Hcb.
  destruct (callback_row _ _ _ _ _ _ _ _ _ _ _ _ _ Hex Hgu Hcb)
    as (sealed & row & _ & _ & Hrow).
  rewrite Hfind in Hrow. destruct Hrow as [Husers Hrow].
  exists row. split; [exact Husers |].
  rewrite Hrow. cbn [id username github_username github_id is_active is_admin].
  do 5 (split; [reflexivity |]).
  unfold AuthCallback.new_user. cbn [is_admin].
  destruct (String.eqb_spec (app_mode settings) SINGLE_USER) as [Hsu | Hsu].
  - split; [intros _; left; exact Hsu | reflexivity].
  - destruct (String.eqb_spec (app_mode settings) MULTI_USER) as [Hmu | Hmu].
    + rewrite bool_decide_eq_true. split.
      * intros Hname. right. split; [exact Hmu | symmetry; exact Hname].
      * intros [Hno | [_ Hname]]; [contradiction | symmetry; exact Hname].
    + split; [discriminate |]. intros [Hno | [Hno _]]; contradiction.
Qed.

(** In single-user mode with authentication, a GitHub user other than the
    configured owner is turned away with a 403 before anything is looked up,
    sealed or written. *)
Theorem callback_su_owner_only `{Jose} `{Fernet} `{GitHubApi} `{ErrorText}
    (settings : Settings) (environ : gmap string string)
    (seed nonce code state : string) (db : Session) (now : Z)
    (github_token : string) (github_user : GitHubUser.t) :
  app_mode settings = SINGLE_USER ->
  enable_su_auth settings = true ->
  code <> "" ->
  exchange_code_for_token (github_client_id settings) (github_client_secret settings) code
  = Answer github_token ->
  GitHubService.get_authenticated_user (Some github_token) = Answer github_user ->
  su_github_username settings <> Some (GitHubUser.login github_user) ->
  exists detail,
    AuthCallback.github_callback settings environ seed nonce code state db now
    = (Raise (HTTPException 403 detail), db, environ).
Proof.
  intros Hmode Hauth Hcode Hex Hgu Hother.
  unfold AuthCallback.github_callback. unfold str_truthy.
  apply String.eqb_neq in Hcode. rewrite Hcode. cbn [negb].
  rewrite Hex, Hgu, Hmode, Hauth.
  rewrite bool_decide_eq_false_2 by (intros Hsame; apply Hother; symmetry; exact Hsame).
  cbn. eexists. reflexivity.
Qed.

(** Inputs on which the reference callback succeeds, resp. fails. *)
Ltac callback_succeeds Hcb :=
  match type of Hcb with
  | ?run = _ =>
      let Hran := fresh "Hran" in
      assert (Hran : match run.1.1 with Ok _ => true | Raise _ => false end = true)
        by (vm_compute; reflexivity);
      rewrite Hcb in Hran; discriminate Hran
  end.




Lemma callback_token_recoverable_witness :
  let settings := Ref.settings_of Ref.env_mu in
  let done := @AuthCallback.github_callback Ref.jose Ref.fernet Hub.api Hub.text
                settings ∅ "seed" "nonce" "code-a" "multi_user" Sample.db 5 in
  exists row,
    find (fun u => bool_decide (github_username u = Some "alice")) (users done.1.2)
    = Some row
    /\ @get_github_token Ref.fernet settings done.2 "other seed"
         {| headers := [("X-GitHub-Token", "gho-x")]; cookies := ∅ |} (Some row)
       = (Ok (Some "gho-a"), done.2).
Proof.
  cbv zeta.
  destruct (@AuthCallback.github_callback Ref.jose Ref.fernet Hub.api Hub.text
              (Ref.settings_of Ref.env_mu) ∅ "seed" "nonce" "code-a" "multi_user"
              Sample.db 5) as [[[response | e] db'] environ'] eqn:Hcb;
    [| callback_succeeds Hcb].
  cbn [fst snd].
  destruct (@callback_token_recoverable Ref.jose Ref.fernet ref_fernet_spec Hub.api
              Hub.text (Ref.settings_of Ref.env_mu) ∅ environ' "seed" "nonce" "code-a"
              "multi_user" Sample.db db' 5 response "gho-a" Hub.alice)
    as (row & Hfind & Htoken).
  - reflexivity.
  - intros k Hk. rewrite lookup_empty in Hk. discriminate Hk.
  - reflexivity.
  - reflexivity.
  - reflexivity.
  - exact Hcb.
  - exists row. split; [exact Hfind | apply Htoken].
Defined.

Lemma callback_relogin_keeps_privileges_witness :
  let done := @AuthCallback.github_callback Ref.jose Ref.fernet Hub.api Hub.text
                (Ref.settings_of Ref.env_mu) ∅ "seed" "nonce" "code-a" "multi_user"
                Sample.db 5 in
  map is_admin (users done.1.2) = [true; false]
  /\ map is_active (users done.1.2) = [true; true].
Proof.
  cbv zeta.
  destruct (@AuthCallback.github_callback Ref.jose Ref.fernet Hub.api Hub.text
              (Ref.settings_of Ref.env_mu) ∅ "seed" "nonce" "code-a" "multi_user"
              Sample.db 5) as [[[response | e] db'] environ'] eqn:Hcb;
    [| callback_succeeds Hcb].
  cbn [fst snd].
  destruct (@callback_relogin_keeps_privileges Ref.jose Ref.fernet Hub.api Hub.text
              (Ref.settings_of Ref.env_mu) ∅ environ' "seed" "nonce" "code-a"
              "multi_user" Sample.db db' 5 response "gho-a" Hub.alice Sample.alice)
    as (_ & Hadmin & Hactive & _).
  - apply (bool_decide_unpack _). vm_compute. exact I.
  - reflexivity.
  - reflexivity.
  - reflexivity.
  - exact Hcb.
  - split; [exact Hadmin | exact Hactive].
Defined.

Lemma callback_first_login_provisions_witness :
  let done := @AuthCallback.github_callback Ref.jose Ref.fernet Hub.api Hub.text
                (Ref.settings_of Ref.env_mu) ∅ "seed" "nonce" "code-c" "multi_user"
                Sample.db 5 in
  exists row,
    users done.1.2 = [Sample.alice; Sample.bob; row]
    /\ id row = Some 3
    /\ username row = "carol"
    /\ is_admin row <> true.
Proof.
  cbv zeta.
  destruct (@AuthCallback.github_callback Ref.jose Ref.fernet Hub.api Hub.text
              (Ref.settings_of Ref.env_mu) ∅ "seed" "nonce" "code-c" "multi_user"
              Sample.db 5) as [[[response | e] db'] environ'] eqn:Hcb;
    [| callback_succeeds Hcb].
  cbn [fst snd].
  destruct (@callback_first_login_provisions Ref.jose Ref.fernet Hub.api Hub.text
              (Ref.settings_of Ref.env_mu) ∅ environ' "seed" "nonce" "code-c"
              "multi_user" Sample.db db' 5 response "gho-c" Hub.carol)
    as (row & Husers & Hid & Hname & _ & _ & _ & Hadmin).
  - reflexivity.
  - reflexivity.
  - reflexivity.
  - exact Hcb.
  - exists row. split; [exact Husers |]. split; [exact Hid |]. split; [exact Hname |].
    intros Hyes. apply Hadmin in Hyes as [Hsu | [_ Hnamed]];
      [vm_compute in Hsu | vm_compute in Hnamed]; discriminate.
Defined.

Lemma callback_su_owner_only_witness :
  exists detail,
    @AuthCallback.github_callback Ref.jose Ref.fernet Hub.api Hub.text
      (Ref.settings_of Ref.env_su) ∅ "seed" "nonce" "code-c" "single_user" Sample.db 5
    = (Raise (HTTPException 403 detail), Sample.db, ∅).
Proof.
  apply (@callback_su_owner_only Ref.jose Ref.fernet Hub.api Hub.text
           (Ref.settings_of Ref.env_su) ∅ "seed" "nonce" "code-c" "single_user"
           Sample.db 5 "gho-c" Hub.carol);
    [vm_compute; reflexivity | vm_compute; reflexivity | discriminate | reflexivity
    | reflexivity | vm_compute; discriminate].
Defined.

(** ** Who passes the guards *)






(** ** Reading the session token *)

Lemma startswith_app (p s : string) :
  startswith p s = true -> exists t, s = p +:+ t.
Proof.
  revert s. induction p as [| a p IH]; intros s Hs; cbn [startswith] in Hs.
  - exists s. reflexivity.
  - destruct s as [| b s]; [discriminate |].
    apply andb_prop in Hs as [Hab Hrest].
    apply Ascii.eqb_eq in Hab as ->.
    destruct (IH s Hrest) as [t ->]. exists t. reflexivity.
Qed.

(** The first field of a split has no separator in it and is followed, if
    by anything, by a separator. *)
Lemma split_char_head (sep : ascii) (s : string) :
  exists w ws,
    split_char sep s = w :: ws
    /\ ~ In sep (list_ascii_of_string w)
    /\ (s = w \/ exists r, s = w +:+ String sep r).
Proof.
  induction s as [| c s IH]; cbn [split_char].
  - exists EmptyString, []. split; [reflexivity |]. split; [intros [] | left; reflexivity].
  - destruct (Ascii.eqb_spec c sep) as [-> | Hc].
    + exists EmptyString, (split_char sep s).
      split; [reflexivity |]. split; [intros [] |]. right. exists s. reflexivity.
    + destruct IH as (w & ws & -> & Hw & Hs).
      exists (String c w), ws. split; [reflexivity |]. split.
      * cbn [list_ascii_of_string]. intros [Heq | Hin]; [apply Hc; exact Heq | exact (Hw Hin)].
      * destruct Hs as [-> | [r ->]]; [left; reflexivity | right; exists r; reflexivity].
Qed.

Lemma in_app_string (c : ascii) (w r : string) :
  In c (list_ascii_of_string (w +:+ String c r)).
Proof.
  induction w as [| a w IH]; cbn; [left; reflexivity | right; exact IH].
Qed.

Lemma split_char_bearer (t : string) :
  split_char " " ("Bearer " +:+ t) = "Bearer" :: split_char " " t.
Proof. reflexivity. Qed.

Lemma string_app_empty_r (s : string) : s +:+ "" = s.
Proof. induction s as [| c s IH]; [reflexivity |]. change (String c (s +:+ "") = String c s). f_equal. exact IH. Qed.

Lemma string_app_inv_head (p a b : string) : p +:+ a = p +:+ b -> a = b.
Proof.
  induction p as [| c p IH]; intros Heq; [exact Heq |].
  change (String c (p +:+ a) = String c (p +:+ b)) in Heq.
  injection Heq as Heq. apply IH. exact Heq.
Qed.

(** [session_token] never raises: the index into the split header is safe
    because the header starts with "Bearer ".  The token is the header's
    second field, cut at the next space, and when that is empty or the
    header is absent or of another scheme (the scheme is matched by case),
    the [access_token] cookie.  A header "Bearer t" with a non-empty,
    space-free [t] gives [t] whatever the cookie. *)
Theorem session_token_reads (request : Request) :
  exists o,
    session_token request = Ok o
    /\ (o = cookies_get request "access_token"
        \/ exists t rest,
             headers_get request "Authorization" = Some ("Bearer " +:+ t +:+ rest)
             /\ o = Some t /\ t <> ""
             /\ ~ In " "%char (list_ascii_of_string t)
             /\ (rest = "" \/ exists r, rest = String " " r))
    /\ (forall t,
          headers_get request "Authorization" = Some ("Bearer " +:+ t) ->
          t <> "" -> ~ In " "%char (list_ascii_of_string t) ->
          o = Some t)
    /\ (forall h,
          headers_get request "Authorization" = Some h ->
          startswith "Bearer " h = false ->
          o = cookies_get request "access_token").
Proof.
  unfold session_token.
  destruct (headers_get request "Authorization") as [h |] eqn:Hh; cbn [opt_truthy andb].
  2: { eexists. split; [reflexivity |]. split; [left; reflexivity |].
       split; [intros t [=] | intros h' [=]]. }
  change (default "" (Some h)) with h.
  destruct (startswith "Bearer " h) eqn:Hstart.
  2: { rewrite andb_false_r. eexists. split; [reflexivity |].
       split; [left; reflexivity |]. split.
       - intros t [= ->]. cbn in Hstart. discriminate Hstart.
       - intros h' _ _. reflexivity. }
  destruct (startswith_app _ _ Hstart) as [t0 ->].
  replace (str_truthy ("Bearer " +:+ t0)) with true by reflexivity. cbn [andb].
  destruct (split_char_head " " t0) as (w & ws & Hsplit & Hw & Hshape).
  rewrite split_char_bearer, Hsplit.
  cbn [lookup list_lookup mbind result_bind opt_truthy].
  eexists. split; [reflexivity |].
  unfold str_truthy.
  destruct (String.eqb_spec w "") as [-> | Hne]; cbn [negb].
  - split; [left; reflexivity |]. split.
    + intros t Ht Hnonempty Hnospace. exfalso.
      injection Ht as Ht. apply string_app_inv_head in Ht. subst t.
      destruct Hshape as [-> | [r ->]]; [apply Hnonempty; reflexivity |].
      apply Hnospace. left. reflexivity.
    + intros h' [= <-] Hno. discriminate Hno.
  - split; [| split].
    + right. destruct Hshape as [-> | [r ->]].
      * exists w, "". rewrite string_app_empty_r.
        split; [reflexivity |]. split; [reflexivity |]. split; [exact Hne |].
        split; [exact Hw | left; reflexivity].
      * exists w, (String " " r).
        split; [reflexivity |]. split; [reflexivity |]. split; [exact Hne |].
        split; [exact Hw | right; exists r; reflexivity].
    + intros t Ht _ Hnospace.
      injection Ht as Ht. apply string_app_inv_head in Ht. subst t.
      destruct Hshape as [-> | [r ->]]; [reflexivity |].
      exfalso. apply Hnospace. apply in_app_string.
    + intros h' [= <-] Hno. discriminate Hno.
Qed.

(** ** Settings that construct are consistent *)

(** When [Settings()] records no failure, each field was accepted by its
    validators against the fields before it, and holds the accepted value
    at the end; the fields before it are then as they will be at the end. *)
Lemma field_validated (env : gmap string string) (pre post : list field_spec)
    (f : field_spec) (st0 : gmap string pyval * list string) :
  NoDup (map fname (pre ++ f :: post)) ->
  (foldl (validate_field env) st0 (pre ++ f :: post)).2 = [] ->
  exists v,
    (match env !! fname f with
     | Some raw => fparse f raw
     | None => Ok (fdefault f)
     end ≫= run_validators (fvalidators f) (foldl (validate_field env) st0 pre).1) = Ok v
    /\ (foldl (validate_field env) st0 (pre ++ f :: post)).1 !! fname f = Some v
    /\ forall k, k ∈ map fname pre ->
         (foldl (validate_field env) st0 pre).1 !! k
         = (foldl (validate_field env) st0 (pre ++ f :: post)).1 !! k.
Proof.
  intros Hnd Hok.
  rewrite map_app in Hnd. cbn [map] in Hnd.
  apply NoDup_app in Hnd as (_ & Hdisjoint & Hrest).
  apply NoDup_cons in Hrest as [Hfresh _].
  rewrite foldl_app in Hok |- *. cbn [foldl] in Hok |- *.
  set (st := foldl (validate_field env) st0 pre) in *.
  assert (Hstep : (validate_field env st f).2 = []).
  { destruct (validate_field env st f).2 eqn:Hs; [reflexivity |].
    exfalso. revert Hok. apply validate_fields_errors. rewrite Hs. discriminate. }
  assert (Hvf : exists v,
             (match env !! fname f with
              | Some raw => fparse f raw
              | None => Ok (fdefault f)
              end ≫= run_validators (fvalidators f) st.1) = Ok v
             /\ (validate_field env st f).1 = <[fname f := v]> st.1).
  { unfold validate_field in Hstep |- *.
    destruct (_ ≫= run_validators _ _) as [v | e].
    - exists v. split; reflexivity.
    - cbn [snd] in Hstep. apply app_eq_nil in Hstep as [_ Hnil]. discriminate Hnil. }
  destruct Hvf as (v & Hv & Hdata).
  exists v. split; [exact Hv |]. split.
  - rewrite validate_fields_other by exact Hfresh. rewrite Hdata. apply lookup_insert_eq.
  - intros k Hk. rewrite validate_fields_other.
    + rewrite Hdata. rewrite lookup_insert_ne; [reflexivity |].
      intros <-. apply (Hdisjoint _ Hk). apply elem_of_cons. left. reflexivity.
    + intros Hlater. apply (Hdisjoint _ Hk). apply elem_of_cons. right. exact Hlater.
Qed.

(** An optional text field whose validator insists on a value holds a
    non-empty string. *)
Lemma required_text_field (env : gmap string string) (k : string)
    (validator : pyval -> gmap string pyval -> result pyval)
    (data final : gmap string pyval) (v : pyval) :
  (match env !! k with
   | Some raw => parse_str raw
   | None => Ok PNone
   end ≫= run_validators [validator] data) = Ok v ->
  (forall x, validator x data = Ok x /\ truthy x = true
             \/ exists e, validator x data = Raise e) ->
  final !! k = Some v ->
  opt_truthy (as_opt_str (dict_get final k)) = true.
Proof.
  intros Hv Hvalidator Hfinal.
  unfold dict_get. rewrite Hfinal. cbn [default from_option Datatypes.id].
  assert (Hx : exists x, (x = PNone \/ exists raw, x = PStr raw)
                         /\ validator x data ≫= (fun y => Ok y) = Ok v).
  { destruct (env !! k) as [raw |]; cbn [parse_str mbind result_bind run_validators] in Hv.
    - exists (PStr raw). split; [right; exists raw; reflexivity | exact Hv].
    - exists PNone. split; [left; reflexivity | exact Hv]. }
  destruct Hx as (x & Hshape & Hrun).
  destruct (Hvalidator x) as [[Hok Htruthy] | [e He]].
  - rewrite Hok in Hrun. cbn [mbind result_bind] in Hrun. injection Hrun as <-.
    destruct Hshape as [-> | [raw ->]]; [discriminate Htruthy |].
    exact Htruthy.
  - rewrite He in Hrun. discriminate Hrun.
Qed.

(** What the three validators insist on, by what they see of the fields
    validated before. *)
Lemma validate_github_oauth_mu (x : pyval) (data : gmap string pyval) :
  data !! "app_mode" = Some (PStr MULTI_USER) ->
  validate_github_oauth x data = Ok x /\ truthy x = true
  \/ exists e, validate_github_oauth x data = Raise e.
Proof.
  intros Hmode. unfold validate_github_oauth.
  rewrite bool_decide_eq_true_2
    by (intros Hempty; rewrite Hempty, lookup_empty in Hmode; discriminate Hmode).
  unfold dict_get. rewrite Hmode. cbn [default from_option Datatypes.id].
  rewrite bool_decide_eq_true_2 by reflexivity. cbn [orb].
  destruct (truthy x); cbn [negb]; [left; split; reflexivity | right; eexists; reflexivity].
Qed.

Lemma validate_mu_admin_mu (x : pyval) (data : gmap string pyval) :
  data !! "app_mode" = Some (PStr MULTI_USER) ->
  validate_mu_admin x data = Ok x /\ truthy x = true
  \/ exists e, validate_mu_admin x data = Raise e.
Proof.
  intros Hmode. unfold validate_mu_admin.
  rewrite bool_decide_eq_true_2
    by (intros Hempty; rewrite Hempty, lookup_empty in Hmode; discriminate Hmode).
  unfold dict_get. rewrite Hmode. cbn [default from_option Datatypes.id].
  rewrite bool_decide_eq_true_2 by reflexivity. cbn [andb].
  destruct (truthy x); cbn [negb]; [left; split; reflexivity | right; eexists; reflexivity].
Qed.

Lemma validate_su_username_enabled (x : pyval) (data : gmap string pyval) :
  data !! "enable_su_auth" = Some (PBool true) ->
  validate_su_username x data = Ok x /\ truthy x = true
  \/ exists e, validate_su_username x data = Raise e.
Proof.
  intros Hsu. unfold validate_su_username.
  rewrite bool_decide_eq_true_2
    by (intros Hempty; rewrite Hempty, lookup_empty in Hsu; discriminate Hsu).
  unfold dict_get. rewrite Hsu. cbn [default from_option Datatypes.id truthy andb].
  destruct (truthy x); cbn [negb]; [left; split; reflexivity | right; eexists; reflexivity].
Qed.

Lemma Ok_inj {A : Type} (a b : A) : Ok a = Ok b -> a = b.
Proof. intros Heq. injection Heq as Heq. exact Heq. Qed.

(** The field at position [i] of [Settings], validated. *)
Ltac validated env i Hnd Herrs H :=
  let f := eval cbn [fields lookup list_lookup] in (fields !! i) in
  match f with
  | Some ?f0 =>
      pose proof (field_validated env (take i fields) (drop (S i) fields) f0 (∅, [])) as H;
      change (take i fields ++ f0 :: drop (S i) fields) with fields in H;
      specialize (H Hnd Herrs);
      cbn [fname fparse fdefault fvalidators] in H
  end.

(** What the validated data of a [Settings()] that records no failure
    holds. *)
Lemma validated_data (env : gmap string string) :
  (foldl (validate_field env) (∅, []) fields).2 = [] ->
  let data := (foldl (validate_field env) (∅, []) fields).1 in
  (exists m, data !! "app_mode" = Some (PStr m) /\ (m = SINGLE_USER \/ m = MULTI_USER))
  /\ (data !! "app_mode" = Some (PStr MULTI_USER) ->
      opt_truthy (as_opt_str (dict_get data "github_client_id")) = true
      /\ opt_truthy (as_opt_str (dict_get data "github_client_secret")) = true
      /\ opt_truthy (as_opt_str (dict_get data "mu_admin_github_username")) = true)
  /\ (data !! "enable_su_auth" = Some (PBool true) ->
      opt_truthy (as_opt_str (dict_get data "su_github_username")) = true)
  /\ (exists v, data !! "enable_su_auth" = Some v).
Proof.
  intros Herrs.
  assert (Hnd : NoDup (map fname fields))
    by (apply (bool_decide_unpack _); vm_compute; exact I).
  validated env 0%nat Hnd Herrs H0. destruct H0 as (v0 & Hv0 & Hd0 & _).
  validated env 7%nat Hnd Herrs H7. destruct H7 as (v7 & Hv7 & Hd7 & Hpre7).
  validated env 8%nat Hnd Herrs H8. destruct H8 as (v8 & Hv8 & Hd8 & Hpre8).
  validated env 10%nat Hnd Herrs H10. destruct H10 as (v10 & _ & Hd10 & _).
  validated env 11%nat Hnd Herrs H11. destruct H11 as (v11 & Hv11 & Hd11 & Hpre11).
  validated env 13%nat Hnd Herrs H13. destruct H13 as (v13 & Hv13 & Hd13 & Hpre13).
  specialize (Hpre7 "app_mode"). specialize (Hpre8 "app_mode").
  specialize (Hpre13 "app_mode"). specialize (Hpre11 "enable_su_auth").
  assert (Hin7 : "app_mode" ∈ map fname (take 7 fields))
    by (apply (bool_decide_unpack _); vm_compute; exact I).
  assert (Hin8 : "app_mode" ∈ map fname (take 8 fields))
    by (apply (bool_decide_unpack _); vm_compute; exact I).
  assert (Hin13 : "app_mode" ∈ map fname (take 13 fields))
    by (apply (bool_decide_unpack _); vm_compute; exact I).
  assert (Hin11 : "enable_su_auth" ∈ map fname (take 11 fields))
    by (apply (bool_decide_unpack _); vm_compute; exact I).
  specialize (Hpre7 Hin7). specialize (Hpre8 Hin8).
  specialize (Hpre13 Hin13). specialize (Hpre11 Hin11).
  clear Hin7 Hin8 Hin13 Hin11 Hnd Herrs.
  cbv zeta.
  generalize dependent (foldl (validate_field env) (∅, []) fields).1.
  generalize dependent (foldl (validate_field env) (∅, []) (take 7 fields)).1.
  generalize dependent (foldl (validate_field env) (∅, []) (take 8 fields)).1.
  generalize dependent (foldl (validate_field env) (∅, []) (take 11 fields)).1.
  generalize dependent (foldl (validate_field env) (∅, []) (take 13 fields)).1.
  generalize dependent (foldl (validate_field env) (∅, []) (take 0 fields)).1.
  intros data0 Hv0 data13 Hv13 data11 Hv11 data8 Hv8 data7 Hv7 data.
  intros Hd0 Hd7 Hpre7 Hd8 Hpre8 Hd10 Hd11 Hpre11 Hd13 Hpre13.
  split.
  { cbn [run_validators] in Hv0.
    destruct (env !! "app_mode") as [raw |]; cbn [mbind result_bind] in Hv0.
    - unfold parse_app_mode in Hv0.
      destruct (String.eqb raw SINGLE_USER) eqn:Hsingle; cbn [orb] in Hv0.
      + apply String.eqb_eq in Hsingle. injection Hv0 as <-.
        exists raw. split; [exact Hd0 | left; exact Hsingle].
      + destruct (String.eqb raw MULTI_USER) eqn:Hmulti; [| discriminate Hv0].
        apply String.eqb_eq in Hmulti. injection Hv0 as <-.
        exists raw. split; [exact Hd0 | right; exact Hmulti].
    - injection Hv0 as <-. eexists. split; [exact Hd0 | left; reflexivity]. }
  split.
  { intros Hmode.
    split; [| split].
    - apply (required_text_field env "github_client_id" validate_github_oauth data7 data v7
               Hv7); [| exact Hd7].
      intros x. apply validate_github_oauth_mu. rewrite Hpre7. exact Hmode.
    - apply (required_text_field env "github_client_secret" validate_github_oauth data8
               data v8 Hv8); [| exact Hd8].
      intros x. apply validate_github_oauth_mu. rewrite Hpre8. exact Hmode.
    - apply (required_text_field env "mu_admin_github_username" validate_mu_admin data13
               data v13 Hv13); [| exact Hd13].
      intros x. apply validate_mu_admin_mu. rewrite Hpre13. exact Hmode. }
  split.
  { intros Hsu.
    apply (required_text_field env "su_github_username" validate_su_username data11
             data v11 Hv11); [| exact Hd11].
    intros x. apply validate_su_username_enabled. rewrite Hpre11. exact Hsu. }
  exists v10. exact Hd10.
Qed.

(** Settings that construct are consistent: the mode is one of the two
    known ones, so that [get_auth_strategy] always selects a strategy and
    its [ValueError] is never raised; in multi-user mode the OAuth client id
    and secret and the administrator's name are set and non-empty, so that
    [login] answers with a URL; and single-user authentication has its
    owner's name. *)
Theorem settings_are_consistent (env : gmap string string) (s : Settings) :
  Settings_new env = Ok s ->
  (app_mode s = SINGLE_USER \/ app_mode s = MULTI_USER)
  /\ (exists strategy, get_auth_strategy s = Ok strategy)
  /\ (app_mode s = MULTI_USER ->
      opt_truthy (github_client_id s) = true
      /\ opt_truthy (github_client_secret s) = true
      /\ opt_truthy (mu_admin_github_username s) = true
      /\ exists url, AuthApi.login s = Ok (url, MULTI_USER))
  /\ (enable_su_auth s = true -> opt_truthy (su_github_username s) = true).
Proof.
  unfold Settings_new.
  destruct (foldl (validate_field env) (∅, []) fields).2 eqn:Herrs; [| discriminate].
  intros Hs. apply Ok_inj in Hs. subst s.
  destruct (validated_data env Herrs) as ((m & Hd0 & Hm) & Hmu & Hsu & (v10 & Hd10)).
  clear Herrs.
  generalize dependent (foldl (validate_field env) (∅, []) fields).1.
  intros data Hd0 Hmu Hsu Hd10.
  assert (Happ : app_mode (settings_of_data data) = m).
  { cbn [settings_of_data app_mode]. unfold dict_get. rewrite Hd0. reflexivity. }
  split; [rewrite Happ; exact Hm |].
  split.
  { unfold get_auth_strategy. rewrite Happ.
    destruct Hm as [-> | ->].
    - rewrite String.eqb_refl. destruct (enable_su_auth _); eexists; reflexivity.
    - eexists. reflexivity. }
  split.
  - rewrite Happ. intros ->.
    destruct (Hmu Hd0) as (Hid & Hsecret & Hadmin).
    split; [exact Hid |]. split; [exact Hsecret |]. split; [exact Hadmin |].
    unfold AuthApi.login, Config.requires_auth. rewrite Happ.
    change (github_client_id (settings_of_data data))
      with (as_opt_str (dict_get data "github_client_id")).
    rewrite Hid. rewrite String.eqb_refl. cbn [orb negb].
    eexists. reflexivity.
  - intros Hflag. apply Hsu.
    cbn [settings_of_data enable_su_auth] in Hflag. unfold dict_get in Hflag.
    rewrite Hd10 in Hflag |- *. cbn [default from_option Datatypes.id] in Hflag.
    destruct v10 as [| [] | | |]; cbn [as_bool] in Hflag; try discriminate Hflag.
    reflexivity.
Qed.

Lemma settings_are_consistent_witness :
  exists url, AuthApi.login (Ref.settings_of Ref.env_mu) = Ok (url, "multi_user").
Proof.
  assert (Hnew : Settings_new Ref.env_mu = Ok (Ref.settings_of Ref.env_mu))
    by (vm_compute; reflexivity).
  destruct (settings_are_consistent Ref.env_mu _ Hnew) as (_ & _ & Hmu & _).
  apply Hmu. vm_compute. reflexivity.
Defined.
